(** * MaTTE: template rendering, render cache, template store and dispatch

    A shallow embedding of the template engine and of the send pipeline of
    the MaTTE multi-tenant transactional email API:

    - [Js]        the JavaScript primitives the code relies on (truthiness,
                  [String(v)], [JSON.stringify], 32-bit integer wrap-around,
                  [Number.prototype.toString(36)]);
    - [Legacy]    [renderTemplate] of utils/template (plain substitution);
    - [Renderer]  [TemplateRenderer]: data hash, cache key, render cache,
                  [renderTemplate], [invalidateTemplateCache], [clearCache];
    - [Store]     the [tenant_templates] table with [resolveTemplate],
                  [getTemplate], [updateTemplate], [deleteTemplate];
    - [Dispatch]  [renderEmailContent] and [sendEmail] with the retry loop
                  and the [email_logs] transaction;
    - [Admin]     [createTemplate], [previewTemplate] and [getEmail], and
                  the constraints of the two tables.

    Strings are sequences of UTF-16 code units below 256, one [ascii] per
    code unit.  Numbers are integers ([Z]), printed in decimal as JavaScript
    prints integers below 10^21.  An object used as a map is the finite map
    of its own properties; a read by a computed name that finds no own
    property goes on to [Object.prototype] ([Js.inherited]).  Handlebars,
    MJML, juice, DOMPurify and
    html-to-text are taken as an interface ([Renderer.Engine]); the time of
    a call is an argument ([now], in milliseconds).  PostgreSQL is modelled
    on one connection: a table is the list of its rows, [BEGIN] takes a
    snapshot, [ROLLBACK] restores it, a statement outside a transaction
    applies at once, and sequences are not rolled back; a version bound to
    the [int] column of [tenant_templates] makes the query fail when it is
    out of the range of [int] ([Store.pin]).  Decrypting the
    tenant's transport settings and creating the transporter are taken to
    succeed. *)

From stdpp Require Import gmap strings list pretty.
From Stdlib Require Import ZArith Ascii String Lia.

Set Warnings "-register-all".

Open Scope string_scope.
Open Scope Z_scope.

(* ===================================================================== *)
(** * JavaScript primitives                                               *)
(* ===================================================================== *)

Module Js.

(** JSON values as they arrive in a request body.  [JObj] lists the
    properties in enumeration order. *)
Inductive Json : Type :=
| JNull
| JBool (b : bool)
| JNum (n : Z)
| JStr (s : string)
| JArr (l : list Json)
| JObj (kvs : list (string * Json)).

(** [charCodeAt] of a one-unit string. *)
Definition code (c : ascii) : Z := Z.of_N (N_of_ascii c).

(** Truthiness. *)
Definition truthy_string (s : string) : bool :=
  match s with EmptyString => false | String _ _ => true end.

Definition truthy_num (n : Z) : bool := negb (n =? 0).

Definition truthy (v : Json) : bool :=
  match v with
  | JNull => false
  | JBool b => b
  | JNum n => truthy_num n
  | JStr s => truthy_string s
  | JArr _ => true
  | JObj _ => true
  end.

(** [o.s] read as a condition, for an optional string property. *)
Definition truthy_opt (o : option string) : bool :=
  match o with Some s => truthy_string s | None => false end.

(** [a || b] on an optional string against a default. *)
Definition or_else (o : option string) (d : string) : string :=
  match o with
  | Some s => if truthy_string s then s else d
  | None => d
  end.

(** Every code unit of [s] satisfies [p]. *)
Fixpoint all_chars (p : ascii -> bool) (s : string) : bool :=
  match s with
  | EmptyString => true
  | String c r => p c && all_chars p r
  end.

(** A loop over the code units of [s], left to right. *)
Fixpoint fold_units {A} (f : A -> ascii -> A) (s : string) (a : A) : A :=
  match s with
  | EmptyString => a
  | String c r => fold_units f r (f a c)
  end.

(** [s.startsWith(p)]. *)
Fixpoint startsWith (p s : string) : bool :=
  match p, s with
  | EmptyString, _ => true
  | String x p1, String y s1 => Ascii.eqb x y && startsWith p1 s1
  | String _ _, EmptyString => false
  end.

(** [Array.prototype.join]. *)
Fixpoint join (sep : string) (l : list string) : string :=
  match l with
  | [] => ""
  | [x] => x
  | x :: r => x ++ sep ++ join sep r
  end.

(** [String(v)]. *)
Fixpoint to_String (v : Json) : string :=
  match v with
  | JNull => "null"
  | JBool true => "true"
  | JBool false => "false"
  | JNum n => pretty n
  | JStr s => s
  | JArr l =>
      join "," (List.map (fun x => match x with
                                   | JNull => ""
                                   | _ => to_String x
                                   end) l)
  | JObj _ => "[object Object]"
  end.

(** ** Object.prototype *)

(** [String(f)] of a built-in function called [name]. *)
Definition native_function (name : string) : string :=
  "function " ++ name ++ "() { [native code] }".

(** The members of [Object.prototype] other than [constructor] and
    [__proto__]; each is a built-in function that carries its own name. *)
Definition prototype_methods : list string :=
  ["__defineGetter__"; "__defineSetter__"; "hasOwnProperty";
   "__lookupGetter__"; "__lookupSetter__"; "isPrototypeOf";
   "propertyIsEnumerable"; "toString"; "valueOf"; "toLocaleString"].

(** [String(o[key])] for an object [o] parsed from JSON that has no own
    property [key]: the read goes on to [Object.prototype].  [constructor]
    is the function [Object], [__proto__] reads [Object.prototype] itself;
    [None] where the read gives [undefined]. *)
Definition inherited (key : string) : option string :=
  if String.eqb key "constructor" then Some (native_function "Object")
  else if String.eqb key "__proto__" then Some "[object Object]"
  else if existsb (String.eqb key) prototype_methods
  then Some (native_function key)
  else None.

(** ** JSON.stringify *)

Definition hex_digit (n : Z) : ascii :=
  match n with
  | 0 => "0" | 1 => "1" | 2 => "2" | 3 => "3" | 4 => "4" | 5 => "5"
  | 6 => "6" | 7 => "7" | 8 => "8" | 9 => "9" | 10 => "a" | 11 => "b"
  | 12 => "c" | 13 => "d" | 14 => "e" | _ => "f"
  end%char.

Definition dquote : ascii := ascii_of_N 34.
Definition backslash : ascii := ascii_of_N 92.

Definition quote_char (c : ascii) : string :=
  let n := code c in
  if n =? 34 then String backslash (String dquote "")
  else if n =? 92 then String backslash (String backslash "")
  else if n =? 8 then String backslash "b"
  else if n =? 9 then String backslash "t"
  else if n =? 10 then String backslash "n"
  else if n =? 12 then String backslash "f"
  else if n =? 13 then String backslash "r"
  else if n <? 32 then
    String backslash
      ("u00" ++ String (hex_digit (n / 16)) (String (hex_digit (n mod 16)) ""))
  else String c "".

Fixpoint quote_body (s : string) : string :=
  match s with
  | EmptyString => ""
  | String c r => quote_char c ++ quote_body r
  end.

Definition quote (s : string) : string :=
  String dquote (quote_body s ++ String dquote "").

Fixpoint stringify (v : Json) : string :=
  match v with
  | JNull => "null"
  | JBool true => "true"
  | JBool false => "false"
  | JNum n => pretty n
  | JStr s => quote s
  | JArr l => "[" ++ join "," (List.map stringify l) ++ "]"
  | JObj kvs =>
      "{" ++ join "," (List.map (fun kv => quote (fst kv) ++ ":" ++ stringify (snd kv)) kvs)
          ++ "}"
  end.

(** [Number(s)] on a string of decimal digits; other literals are not
    read. *)
Fixpoint digits_value (s : string) (acc : Z) : option Z :=
  match s with
  | EmptyString => Some acc
  | String c r =>
      let n := code c in
      if (48 <=? n) && (n <=? 57) then digits_value r (acc * 10 + (n - 48))
      else None
  end.

Definition decimal_number (s : string) : option Z := digits_value s 0.

(** ** 32-bit integers *)

(** [ToInt32]: wrap into [-2^31, 2^31). *)
Definition toInt32 (z : Z) : Z := (z + 2147483648) mod 4294967296 - 2147483648.

(** [h << n] on a number. *)
Definition shl (h : Z) (n : Z) : Z := toInt32 (Z.shiftl (toInt32 h) n).

(** [h & k] on numbers. *)
Definition band (h k : Z) : Z := toInt32 (Z.land (toInt32 h) (toInt32 k)).

(** ** Number.prototype.toString(36) on a non-negative integer *)

Definition digit36 (d : Z) : ascii :=
  if d <? 10 then ascii_of_N (Z.to_N (48 + d)) else ascii_of_N (Z.to_N (87 + d)).

Fixpoint toString36_go (fuel : nat) (n : Z) (acc : string) : string :=
  match fuel with
  | O => acc
  | S f =>
      if n <=? 0 then acc
      else toString36_go f (n / 36) (String (digit36 (n mod 36)) acc)
  end.

Definition toString36 (n : Z) : string :=
  if n <=? 0 then "0" else toString36_go (S (Z.to_nat (Z.log2 n))) n "".

End Js.

(* ===================================================================== *)
(** * utils/template: plain substitution                                  *)
(* ===================================================================== *)

Module Legacy.
Import Js.

(** The [variables] object: the finite map of its own properties.  It is
    parsed from JSON, so its prototype is [Object.prototype], which a read
    by name reaches when the object has no own property of that name
    ([Js.inherited]). *)
Abbreviation Vars := (gmap string Json).

(** The class [\s], on code units below 256. *)
Definition is_space (c : ascii) : bool :=
  let n := code c in
  ((9 <=? n) && (n <=? 13)) || (n =? 32) || (n =? 160).

(** The class [\w]. *)
Definition is_word (c : ascii) : bool :=
  let n := code c in
  ((48 <=? n) && (n <=? 57)) || ((65 <=? n) && (n <=? 90))
  || ((97 <=? n) && (n <=? 122)) || (n =? 95).

Definition open_brace : ascii := ascii_of_N 123.
Definition close_brace : ascii := ascii_of_N 125.

(** A greedy run of white space. *)
Fixpoint skip_space (s : string) : string :=
  match s with
  | EmptyString => s
  | String c r => if is_space c then skip_space r else s
  end.

(** A greedy run of word characters, and what follows it. *)
Fixpoint take_word (s : string) : string * string :=
  match s with
  | EmptyString => (EmptyString, s)
  | String c r =>
      if is_word c
      then let '(w, rest) := take_word r in (String c w, rest)
      else (EmptyString, s)
  end.

(** The pattern after its two opening braces: spaces, a non-empty word,
    spaces, two closing braces.  The two classes and the closing brace are
    pairwise disjoint, so the greedy run is the only way the pattern can
    match. *)
Definition match_tail (r : string) : option (string * string) :=
  let '(key, r2) := take_word (skip_space r) in
  match key with
  | EmptyString => None
  | String _ _ =>
      match skip_space r2 with
      | String c1 (String c2 r3) =>
          if Ascii.eqb c1 close_brace && Ascii.eqb c2 close_brace
          then Some (key, r3) else None
      | _ => None
      end
  end.

(** The pattern of [renderTemplate] anchored at the head of [s]: the
    captured key and the text after the match. *)
Definition match_placeholder (s : string) : option (string * string) :=
  match s with
  | String c1 (String c2 r) =>
      if Ascii.eqb c1 open_brace && Ascii.eqb c2 open_brace
      then match_tail r else None
  | _ => None
  end.

(** The replacer callback.  [vars[key]] is the own property if there is
    one, else the member inherited from [Object.prototype], else
    [undefined]. *)
Definition replacer (vars : Vars) (key : string) : string :=
  match vars !! key with
  | Some JNull => ""
  | Some val => to_String val
  | None =>
      match inherited key with
      | Some text => text
      | None => ""
      end
  end.

(** [input.replace(/.../g, replacer)]: leftmost matches, left to right,
    the search resuming after each match. *)
Fixpoint replace_all (fuel : nat) (vars : Vars) (s : string) : string :=
  match fuel with
  | O => s
  | S f =>
      match s with
      | EmptyString => ""
      | String c r =>
          match match_placeholder s with
          | Some (key, rest) => replacer vars key ++ replace_all f vars rest
          | None => String c (replace_all f vars r)
          end
      end
  end.

(** The substitution with the fuel [renderTemplate] gives it. *)
Definition subst (vars : Vars) (s : string) : string :=
  replace_all (String.length s) vars s.

(** [renderTemplate(input, vars)]; [None] is an absent argument. *)
Definition renderTemplate (input : option string) (vars : option Vars) : string :=
  match input with
  | None => ""
  | Some s =>
      if negb (truthy_string s) then ""
      else match vars with
           | None => s
           | Some vs => subst vs s
           end
  end.

(** ** Shapes of inputs, for stating what the substitution does *)

(** A placeholder as written: spaces, key, spaces between the braces. *)
Record Placeholder := {
  ph_before : string;
  ph_key : string;
  ph_after : string
}.

Definition placeholder_ok (p : Placeholder) : bool :=
  all_chars is_space (ph_before p) && truthy_string (ph_key p)
  && all_chars is_word (ph_key p) && all_chars is_space (ph_after p).

Definition placeholder_source (p : Placeholder) : string :=
  String open_brace (String open_brace
    (ph_before p ++ ph_key p ++ ph_after p
       ++ String close_brace (String close_brace ""))).

(** No match of the pattern starts anywhere in [t]. *)
Fixpoint placeholder_free (t : string) : bool :=
  match t with
  | EmptyString => true
  | String _ r =>
      match match_placeholder t with
      | None => placeholder_free r
      | Some _ => false
      end
  end.

(** An input cut into plain text and placeholders:
    [t1 p1 t2 p2 ... tn pn tail]. *)
Definition Pieces : Type := list (string * Placeholder) * string.

Definition pieces_ok (ps : Pieces) : bool :=
  forallb (fun tp => placeholder_free (fst tp) && placeholder_ok (snd tp)) (fst ps)
  && placeholder_free (snd ps).

Definition pieces_source (ps : Pieces) : string :=
  fold_right (fun tp acc => fst tp ++ placeholder_source (snd tp) ++ acc)
             (snd ps) (fst ps).

(** What the claim expects for a placeholder: the string value of a
    variable that is defined and not null, the empty string otherwise. *)
Definition expected_value (vars : Vars) (key : string) : string :=
  match vars !! key with
  | Some v => match v with JNull => "" | _ => to_String v end
  | None => ""
  end.

Definition pieces_expected (vars : Vars) (ps : Pieces) : string :=
  fold_right (fun tp acc => fst tp ++ expected_value vars (ph_key (snd tp)) ++ acc)
             (snd ps) (fst ps).

(** The pieces with each placeholder replaced by what the replacer
    callback returns for its key, and the text kept. *)
Definition pieces_rendered (vars : Vars) (ps : Pieces) : string :=
  fold_right (fun tp acc => fst tp ++ replacer vars (ph_key (snd tp)) ++ acc)
             (snd ps) (fst ps).

(** The keys of the placeholders of an input. *)
Definition pieces_keys (ps : Pieces) : list string :=
  List.map (fun tp => ph_key (snd tp)) (fst ps).

(** A variable the object does not carry although a read by that name
    gives a value: a member of [Object.prototype]. *)
Definition leaks (vars : Vars) (key : string) : bool :=
  match vars !! key, inherited key with
  | None, Some _ => true
  | _, _ => false
  end.

(** An input whose only placeholder names the inherited [constructor]. *)
Definition constructor_pieces : Pieces :=
  ([("", {| ph_before := ""; ph_key := "constructor"; ph_after := "" |})], "").

(** A sample input and its variables. *)
Definition sample_pieces : Pieces :=
  ([("Hi ", {| ph_before := " "; ph_key := "name"; ph_after := "" |});
    (", you are ", {| ph_before := ""; ph_key := "age"; ph_after := " " |});
    (" {{a b}} {", {| ph_before := ""; ph_key := "gone"; ph_after := "" |})],
   "!").

Definition sample_vars : Vars :=
  <["name" := JStr "Ann"]> (<["age" := JNum 42]> (<["gone" := JNull]> ∅)).

End Legacy.

(* ===================================================================== *)
(** * utils/templateRenderer: TemplateRenderer and its cache              *)
(* ===================================================================== *)

Module Renderer.
Import Js.

Abbreviation TemplateData := Json.

Record RenderResult := {
  html : string;
  text : string;
  subject : string
}.

Record TemplateRecord := {
  id : string;
  tenant_id : string;
  name : string;
  slug : string;
  engine : string;
  content : string;
  subject_template : string;
  plaintext_template : option string;
  version : Z;
  is_active : bool
}.

(** The libraries the renderer calls.  [inl e] is a thrown error, [e] its
    text as a template literal prints it; [None] is a thrown error whose
    text is not used. *)
Record Engine := {
  (** [Handlebars.compile(template)(data)] *)
  handlebars : string -> TemplateData -> string + string;
  (** [mjml2html(markup, options).html] *)
  mjml2html : string -> string + string;
  (** [juice(html, options)] *)
  juice : string -> option string;
  (** [DOMPurify.sanitize(html)] *)
  sanitize : string -> option string;
  (** the [htmlToText] wrapper, which returns the empty string on failure *)
  htmlToText : string -> string
}.

(** ** The node-cache instance *)

Record CacheEntry := {
  value : RenderResult;
  expires : Z
}.

Abbreviation Cache := (gmap string CacheEntry).

(** [stdTTL: 3600], in seconds. *)
Definition stdTTL : Z := 3600.

(** [cache.get(key)] at time [now] (milliseconds): an entry past its
    expiry is deleted and reported as a miss. *)
Definition cache_get (c : Cache) (now : Z) (key : string)
  : option RenderResult * Cache :=
  match c !! key with
  | Some e =>
      if expires e <? now then (None, delete key c) else (Some (value e), c)
  | None => (None, c)
  end.

(** [cache.set(key, value)] with the standard time to live. *)
Definition cache_set (c : Cache) (now : Z) (key : string) (v : RenderResult)
  : Cache :=
  <[key := {| value := v; expires := now + stdTTL * 1000 |}]> c.

(** No entry under [key] is past its expiry at time [now]. *)
Definition unexpired (c : Cache) (key : string) (now : Z) : Prop :=
  forall e, c !! key = Some e -> now <= expires e.

(** [getCacheKey] *)
Definition getCacheKey (templateId : string) (version : Z) (dataHash : string)
  : string :=
  "template_" ++ templateId ++ "_v" ++ pretty version ++ "_" ++ dataHash.

(** The loop body of [generateDataHash]. *)
Definition hash_step (hash : Z) (c : ascii) : Z :=
  let hash1 := (shl hash 5 - hash) + code c in
  band hash1 hash1.

(** The [for] loop over the code units of [dataStr]. *)
Definition hash_loop (hash : Z) (dataStr : string) : Z :=
  fold_units hash_step dataStr hash.

(** The hash of a serialized form. *)
Definition hash_string (dataStr : string) : string :=
  toString36 (Z.abs (hash_loop 0 dataStr)).

(** [generateDataHash] *)
Definition generateDataHash (data : TemplateData) : string :=
  hash_string (stringify data).

(** [sanitizeHtml] *)
Definition sanitizeHtml (E : Engine) (h : string) : string :=
  match sanitize E h with Some h1 => h1 | None => h end.

(** [inlineCss] *)
Definition inlineCss (E : Engine) (h : string) : string :=
  match juice E h with Some h1 => h1 | None => h end.

(** [generatePlainText]: the text, and the template handed to Handlebars
    if one was. *)
Definition generatePlainText (E : Engine) (h : string)
    (plaintextTemplate : option string) (data : TemplateData)
  : string * list string :=
  match plaintextTemplate with
  | Some pt =>
      if truthy_string pt && truthy data then
        match handlebars E pt data with
        | inr t => (t, [pt])
        | inl _ => (htmlToText E h, [pt])
        end
      else (htmlToText E h, [])
  | None => (htmlToText E h, [])
  end.

(** [compileTemplate] *)
Definition compileTemplate (E : Engine) (template : string) (data : TemplateData)
  : string + string :=
  match handlebars E template data with
  | inr out => inr out
  | inl e => inl ("Template compilation failed: " ++ e)
  end.

(** [processMjml] *)
Definition processMjml (E : Engine) (mjmlContent : string) : string + string :=
  match mjml2html E mjmlContent with
  | inr out => inr out
  | inl e => inl ("MJML processing failed: " ++ e)
  end.

(** The outer [catch] of [renderTemplate]. *)
Definition render_failed (msg : string) : string :=
  "Template rendering failed: Error: " ++ msg.

(** The effective version: [version || templateRecord.version]. *)
Definition effective_version (r : TemplateRecord) (v : option Z) : Z :=
  match v with
  | Some n => if truthy_num n then n else version r
  | None => version r
  end.

Definition render_key (r : TemplateRecord) (data : TemplateData)
    (v : option Z) : string :=
  getCacheKey (id r) (effective_version r v) (generateDataHash data).

(** [TemplateRenderer.renderTemplate] at time [now]: the result or the
    message of the error thrown, the cache afterwards, and the templates
    handed to [Handlebars.compile] during the call, in order. *)
Definition renderTemplate (E : Engine) (c : Cache) (now : Z)
    (templateRecord : TemplateRecord) (data : TemplateData) (v : option Z)
  : (string + RenderResult) * Cache * list string :=
  let cacheKey := render_key templateRecord data v in
  match cache_get c now cacheKey with
  | (Some cached, c1) => (inr cached, c1, [])
  | (None, c1) =>
      let subj := subject_template templateRecord in
      let body := content templateRecord in
      match compileTemplate E subj data with
      | inl e => (inl (render_failed e), c1, [subj])
      | inr renderedSubject =>
          match compileTemplate E body data with
          | inl e => (inl (render_failed e), c1, [subj; body])
          | inr rendered0 =>
              let after_mjml :=
                if String.eqb (engine templateRecord) "mjml"
                then processMjml E rendered0 else inr rendered0 in
              match after_mjml with
              | inl e => (inl (render_failed e), c1, [subj; body])
              | inr rendered1 =>
                  let renderedContent := sanitizeHtml E (inlineCss E rendered1) in
                  let '(renderedText, compiled) :=
                    generatePlainText E renderedContent
                      (plaintext_template templateRecord) data in
                  let result := {| html := renderedContent;
                                   text := renderedText;
                                   subject := renderedSubject |} in
                  (inr result, cache_set c1 now cacheKey result,
                   ([subj; body] ++ compiled)%list)
              end
          end
      end
  end.

(** [invalidateTemplateCache] *)
Definition invalidateTemplateCache (c : Cache) (templateId : string) : Cache :=
  filter (fun kv => startsWith ("template_" ++ templateId ++ "_") (fst kv) = false) c.

(** [s] holds no underscore, as the decimal rendering of a row id. *)
Definition no_underscore (s : string) : bool :=
  all_chars (fun c => negb (Ascii.eqb c "_")) s.

(** [clearCache] *)
Definition clearCache (c : Cache) : Cache := ∅.

(** [getCacheStats().keys] *)
Definition cache_key_count (c : Cache) : nat := size c.

(** ** Sample inputs *)

(** A stand-in for the libraries: Handlebars substitutes the top-level
    properties of the data and rejects block syntax; the other passes
    return their input. *)
Definition demo_engine : Engine :=
  {| handlebars := fun t d =>
       if startsWith "{{#" t then inl "Error: Parse error"
       else match d with
            | JObj kvs => inr (Legacy.subst (list_to_map kvs) t)
            | _ => inr t
            end;
     mjml2html := fun m => inr m;
     juice := fun h => Some h;
     sanitize := fun h => Some h;
     htmlToText := fun h => h |}.

Definition demo_record : TemplateRecord :=
  {| id := "1"; tenant_id := "1"; name := "Test Template";
     slug := "test-template"; engine := "handlebars";
     content := "<div>Hello {{name}}!</div>";
     subject_template := "Hello {{name}}";
     plaintext_template := Some "Hello {{name}}!";
     version := 1; is_active := true |}.

Definition demo_data : TemplateData := JObj [("name", JStr "World")].

Definition data_ab : TemplateData := JObj [("a", JNum 1); ("b", JNum 2)].
Definition data_ba : TemplateData := JObj [("b", JNum 2); ("a", JNum 1)].

(** The properties of a data object, as a set of pairs. *)
Definition properties (d : TemplateData) : list (string * Json) :=
  match d with
  | JObj kvs => kvs
  | _ => []
  end.

End Renderer.

(* ===================================================================== *)
(** * The tenant_templates table and the template controller             *)
(* ===================================================================== *)

Module Store.
Import Js.

(** A row of [tenant_templates]. *)
Record TemplateRow := {
  id : Z;
  tenant_id : Z;
  name : string;
  slug : string;
  engine : string;
  content : string;
  subject_template : string;
  plaintext_template : option string;
  version : Z;
  is_active : bool;
  created_at : Z;
  updated_at : Z
}.

(** The table, and the [bigserial] sequence behind [id]. *)
Record Db := {
  rows : list TemplateRow;
  next_id : Z
}.

Record AppError := {
  message : string;
  statusCode : Z
}.

(** An error raised by PostgreSQL; the callers pass it on as it is. *)
Record PgError := {
  sqlstate : string;
  pg_message : string
}.

(** What a controller of the store passes to [next]. *)
Inductive Refused :=
| app_error (e : AppError)
| pg_error (e : PgError).

(** The range of the [int] type of the [version] column. *)
Definition int4 (n : Z) : bool := (-2147483648 <=? n) && (n <=? 2147483647).

(** The error of a parameter compared with an [int] column whose value
    lies outside the range of [int]. *)
Definition out_of_range (n : Z) : PgError :=
  {| sqlstate := "22003";
     pg_message := "value " ++ quote (pretty n)
                     ++ " is out of range for type integer" |}.

(** [WHERE tenant_id = $1 AND slug = $2 AND is_active = true] *)
Definition selects (tenantId : Z) (slug0 : string) (r : TemplateRow) : bool :=
  (tenant_id r =? tenantId) && String.eqb (slug r) slug0 && is_active r.

(** [ORDER BY version DESC LIMIT 1] *)
Fixpoint latest (rs : list TemplateRow) : option TemplateRow :=
  match rs with
  | [] => None
  | r :: rest =>
      match latest rest with
      | Some r1 => if version r <? version r1 then Some r1 else Some r
      | None => Some r
      end
  end.

(** The optional [AND version = $3], added under [if (version)].  The
    parameter is compared with an [int] column, so the database reads it
    as an [int] and the query fails when it is out of range, whatever the
    rows are. *)
Definition pin (v : option Z) (rs : list TemplateRow)
  : PgError + list TemplateRow :=
  match v with
  | Some n =>
      if truthy_num n then
        if int4 n then inr (List.filter (fun r => version r =? n) rs)
        else inl (out_of_range n)
      else inr rs
  | None => inr rs
  end.

(** The record built from [result.rows[0]]. *)
Definition to_record (r : TemplateRow) : Renderer.TemplateRecord :=
  {| Renderer.id := pretty (id r);
     Renderer.tenant_id := pretty (tenant_id r);
     Renderer.name := name r;
     Renderer.slug := slug r;
     Renderer.engine := engine r;
     Renderer.content := content r;
     Renderer.subject_template := subject_template r;
     Renderer.plaintext_template := plaintext_template r;
     Renderer.version := version r;
     Renderer.is_active := is_active r |}.

(** The row a resolution query returns, if any, or the error it raises. *)
Definition resolve_row (tbl : list TemplateRow) (tenantId : Z) (slug0 : string)
    (v : option Z) : PgError + option TemplateRow :=
  match pin v (List.filter (selects tenantId slug0) tbl) with
  | inl e => inl e
  | inr rs => inr (latest rs)
  end.

(** The rows a resolution may return: selected, and of the pinned version
    when a pin applies. *)
Definition candidate (tenantId : Z) (slug0 : string) (v : option Z)
    (r : TemplateRow) : Prop :=
  tenant_id r = tenantId /\ slug r = slug0 /\ is_active r = true
  /\ (forall n, v = Some n -> n <> 0 -> version r = n).



(** [resolveTemplate]: [inr None] is [null], [inl e] the error of the
    query, which the function does not catch. *)
Definition resolveTemplate (tbl : list TemplateRow) (tenantId : Z)
    (slug0 : string) (v : option Z) : PgError + option Renderer.TemplateRecord :=
  match resolve_row tbl tenantId slug0 v with
  | inl e => inl e
  | inr r => inr (option_map to_record r)
  end.

(** [getTemplate]: with a version the query has no [ORDER BY]/[LIMIT] and
    the first row is taken; an error of the query goes to [next]. *)
Definition getTemplate (tbl : list TemplateRow) (tenantId : Z)
    (slug0 : string) (v : option Z) : Refused + TemplateRow :=
  let found := List.filter (selects tenantId slug0) tbl in
  let row :=
    match v with
    | Some n =>
        if truthy_num n then
          match pin v found with
          | inl e => inl e
          | inr rs => inr (head rs)
          end
        else inr (latest found)
    | None => inr (latest found)
    end in
  match row with
  | inl e => inl (pg_error e)
  | inr (Some r) => inr r
  | inr None =>
      inl (app_error {| message := "Template not found"; statusCode := 404 |})
  end.

(** ** updateTemplate *)

Record UpdateTemplateRequest := {
  upd_name : option string;
  upd_engine : option string;
  upd_content : option string;
  upd_subjectTemplate : option string;
  upd_plaintextTemplate : option string;
  upd_isActive : option bool
}.

Definition bad_request (msg : string) : AppError :=
  {| message := msg; statusCode := 400 |}.

Definition too_long (o : option string) (limit : Z) : bool :=
  match o with
  | Some s => limit <? Z.of_nat (String.length s)
  | None => false
  end.

Definition is_defined {A} (o : option A) : bool :=
  match o with Some _ => true | None => false end.

(** The checks made while the [SET] list is built, in order. *)
Definition validate (u : UpdateTemplateRequest) : option AppError :=
  if match upd_engine u with
     | Some e => negb (String.eqb e "handlebars" || String.eqb e "mjml")
     | None => false
     end
  then Some (bad_request
               ("Engine must be " ++ quote "handlebars" ++ " or " ++ quote "mjml"))
  else if too_long (upd_content u) 10240
  then Some (bad_request "Content exceeds 10KB limit")
  else if too_long (upd_subjectTemplate u) 500
  then Some (bad_request "Subject template exceeds 500 character limit")
  else if truthy_opt (upd_plaintextTemplate u)
          && too_long (upd_plaintextTemplate u) 10240
  then Some (bad_request "Plaintext template exceeds 10KB limit")
  else if negb (is_defined (upd_name u) || is_defined (upd_engine u)
                || is_defined (upd_content u)
                || is_defined (upd_subjectTemplate u)
                || is_defined (upd_plaintextTemplate u)
                || is_defined (upd_isActive u))
  then Some (bad_request "No valid updates provided")
  else None.

(** [updates.content !== undefined || updates.engine !== undefined] *)
Definition isVersionUpdate (u : UpdateTemplateRequest) : bool :=
  is_defined (upd_content u) || is_defined (upd_engine u).

(** [COALESCE(MAX(version), 0) + 1] over the rows of a tenant and slug. *)
Definition max_version (vs : list Z) : Z :=
  match vs with
  | [] => 0
  | v :: rest => fold_left Z.max rest v
  end.

Definition next_version (tbl : list TemplateRow) (tenantId : Z)
    (slug0 : string) : Z :=
  max_version
    (List.map version
       (List.filter (fun r => (tenant_id r =? tenantId) && String.eqb (slug r) slug0)
                    tbl)) + 1.

(** The row of the [INSERT] of the versioning branch. *)
Definition new_version_row (db : Db) (now : Z) (cur : TemplateRow)
    (u : UpdateTemplateRequest) : TemplateRow :=
  {| id := next_id db;
     tenant_id := tenant_id cur;
     name := or_else (upd_name u) (name cur);
     slug := slug cur;
     engine := or_else (upd_engine u) (engine cur);
     content := or_else (upd_content u) (content cur);
     subject_template := or_else (upd_subjectTemplate u) (subject_template cur);
     plaintext_template :=
       match upd_plaintextTemplate u with
       | Some p => Some p
       | None => plaintext_template cur
       end;
     version := next_version (rows db) (tenant_id cur) (slug cur);
     is_active :=
       match upd_isActive u with
       | Some b => b
       | None => is_active cur
       end;
     created_at := now;
     updated_at := now |}.

(** The [SET] list of the plain [UPDATE], applied to one row. *)
Definition apply_updates (now : Z) (u : UpdateTemplateRequest)
    (r : TemplateRow) : TemplateRow :=
  {| id := id r;
     tenant_id := tenant_id r;
     name := match upd_name u with Some n => n | None => name r end;
     slug := slug r;
     engine := match upd_engine u with Some e => e | None => engine r end;
     content := match upd_content u with Some c => c | None => content r end;
     subject_template :=
       match upd_subjectTemplate u with
       | Some t => t
       | None => subject_template r
       end;
     plaintext_template :=
       match upd_plaintextTemplate u with
       | Some p => if truthy_string p then Some p else None
       | None => plaintext_template r
       end;
     version := version r;
     is_active := match upd_isActive u with Some b => b | None => is_active r end;
     created_at := created_at r;
     updated_at := now |}.

(** [UPDATE tenant_templates SET ... WHERE id = $n] *)
Definition update_where_id (templateId : Z) (f : TemplateRow -> TemplateRow)
    (tbl : list TemplateRow) : list TemplateRow :=
  List.map (fun r => if id r =? templateId then f r else r) tbl.

(** [updateTemplate]: the error passed to [next] or the [versionCreated]
    flag of the response, then the table and the cache afterwards. *)
Definition updateTemplate (db : Db) (c : Renderer.Cache) (now : Z)
    (templateId : Z) (updates : UpdateTemplateRequest)
  : (AppError + bool) * Db * Renderer.Cache :=
  match List.filter (fun r => id r =? templateId) (rows db) with
  | [] => (inl {| message := "Template not found"; statusCode := 404 |}, db, c)
  | currentTemplate :: _ =>
      match validate updates with
      | Some err => (inl err, db, c)
      | None =>
          if isVersionUpdate updates then
            (inr true,
             {| rows := (rows db ++ [new_version_row db now currentTemplate updates])%list;
                next_id := next_id db + 1 |},
             Renderer.invalidateTemplateCache c (pretty templateId))
          else
            (inr false,
             {| rows := update_where_id templateId (apply_updates now updates) (rows db);
                next_id := next_id db |},
             c)
      end
  end.

(** ** deleteTemplate *)

Definition deactivate (now : Z) (r : TemplateRow) : TemplateRow :=
  {| id := id r;
     tenant_id := tenant_id r;
     name := name r;
     slug := slug r;
     engine := engine r;
     content := content r;
     subject_template := subject_template r;
     plaintext_template := plaintext_template r;
     version := version r;
     is_active := false;
     created_at := created_at r;
     updated_at := now |}.

Definition deleteTemplate (db : Db) (c : Renderer.Cache) (now : Z)
    (templateId : Z) : (AppError + unit) * Db * Renderer.Cache :=
  match List.filter (fun r => id r =? templateId) (rows db) with
  | [] => (inl {| message := "Template not found"; statusCode := 404 |}, db, c)
  | _ :: _ =>
      (inr tt,
       {| rows := update_where_id templateId (deactivate now) (rows db);
          next_id := next_id db |},
       Renderer.invalidateTemplateCache c (pretty templateId))
  end.

(** ** Reading an update against the rows before and after *)

(** Everything of a row but its name, subject, plain text, active flag and
    update time. *)
Definition same_version_data (r r1 : TemplateRow) : Prop :=
  id r1 = id r /\ tenant_id r1 = tenant_id r /\ slug r1 = slug r
  /\ engine r1 = engine r /\ content r1 = content r
  /\ version r1 = version r /\ created_at r1 = created_at r.

(** Everything of a row but its active flag and update time. *)
Definition same_history (r r1 : TemplateRow) : Prop :=
  same_version_data r r1 /\ name r1 = name r
  /\ subject_template r1 = subject_template r
  /\ plaintext_template r1 = plaintext_template r.

(** [o] when it is given, else [d]. *)
Definition given {A} (o : option A) (d : A) : A :=
  match o with Some x => x | None => d end.

(** ** Sample table *)

Definition demo_row : TemplateRow :=
  {| id := 1; tenant_id := 7; name := "Welcome"; slug := "welcome";
     engine := "handlebars"; content := "<h1>Hi {{name}}</h1>";
     subject_template := "Hi {{name}}"; plaintext_template := None;
     version := 1; is_active := true; created_at := 0; updated_at := 0 |}.

Definition demo_db : Db := {| rows := [demo_row]; next_id := 2 |}.

Definition no_update : UpdateTemplateRequest :=
  {| upd_name := None; upd_engine := None; upd_content := None;
     upd_subjectTemplate := None; upd_plaintextTemplate := None;
     upd_isActive := None |}.

Definition subject_only : UpdateTemplateRequest :=
  {| upd_name := None; upd_engine := None; upd_content := None;
     upd_subjectTemplate := Some "New subject"; upd_plaintextTemplate := None;
     upd_isActive := None |}.

Definition content_only : UpdateTemplateRequest :=
  {| upd_name := None; upd_engine := None;
     upd_content := Some "<h1>Hello {{name}}</h1>";
     upd_subjectTemplate := None; upd_plaintextTemplate := None;
     upd_isActive := None |}.

End Store.

(* ===================================================================== *)
(** * The email controller: sendEmail                                     *)
(* ===================================================================== *)

Module Dispatch.
Import Js.

(** ** Requests *)

(** A recipient field: one address or an array of addresses. *)
Inductive Address :=
| One (a : string)
| Many (l : list string).

Record Overrides := {
  ov_subject : option string;
  ov_htmlBody : option string;
  ov_textBody : option string
}.

(** [req.body]; [None] is an absent property.  Attachments are copied to
    the message unchanged and are left out. *)
Record Body := {
  templateSlug : option string;
  templateData : option Json;
  to : option Address;
  from : option string;
  replyTo : option string;
  cc : option Address;
  bcc : option Address;
  version : option Z;
  overrides : option Overrides;
  subject : option string;
  htmlBody : option string;
  textBody : option string;
  variables : option Legacy.Vars
}.

(** [req.tenant], with the transport settings already decrypted. *)
Record Tenant := {
  tenant_id : Z;
  from_email : string;
  webhook_url : option string
}.

(** [process.env] and the conversion [Number(s)] of a string ([None] when
    the result is not an integer). *)
Record Env := {
  RETRY_MAX_ATTEMPTS : Z;
  RETRY_BASE_DELAY_MS : Z;
  TENANT_DEFAULT_WEBHOOK : option string;
  Number_of_string : string -> option Z
}.

(** ** The transport *)

Record MailOptions := {
  mo_from : string;
  mo_to : string;
  mo_cc : option string;
  mo_bcc : option string;
  mo_replyTo : option string;
  mo_subject : string;
  mo_html : option string;
  mo_text : option string
}.

(** An error thrown by [sendMail]. *)
Record SendError := {
  err_message : option string;
  err_code : option string;
  err_responseCode : option Z
}.

(** [transporter.sendMail]: the outcome of each attempt of one dispatch,
    a thrown error or the [messageId]. *)
Definition Transport : Type := Z -> MailOptions -> SendError + string.

(** What [sendEmail] may pass to [next]. *)
Inductive Thrown :=
| AppErr (message : string) (statusCode : Z)
| SendErr (e : SendError)
| TypeErr (message : string)
| DbErr (e : Store.PgError).

Definition thrown_message (t : Thrown) : option string :=
  match t with
  | AppErr m _ => Some m
  | SendErr e => err_message e
  | TypeErr m => Some m
  | DbErr e => Some (Store.pg_message e)
  end.

(** ** The email_logs table on the request's connection *)

Record LogRow := {
  log_id : Z;
  log_tenant_id : Z;
  to_address : string;
  log_subject : string;
  status : string;
  error_message : option string;
  sent_at : option Z;
  log_created_at : Z
}.

(** [txn] is the snapshot taken by [BEGIN] while a transaction is open. *)
Record LogDb := {
  logs : list LogRow;
  next_log_id : Z;
  txn : option (list LogRow)
}.

Definition begin (db : LogDb) : LogDb :=
  match txn db with
  | Some _ => db
  | None => {| logs := logs db; next_log_id := next_log_id db;
               txn := Some (logs db) |}
  end.

Definition commit (db : LogDb) : LogDb :=
  {| logs := logs db; next_log_id := next_log_id db; txn := None |}.

Definition rollback (db : LogDb) : LogDb :=
  match txn db with
  | Some snapshot => {| logs := snapshot; next_log_id := next_log_id db;
                        txn := None |}
  | None => db
  end.

(** [INSERT INTO email_logs ... RETURNING id] *)
Definition insert_log (db : LogDb) (now tenantId : Z) (toAddr subj : string)
  : Z * LogDb :=
  (next_log_id db,
   {| logs := (logs db ++ [{| log_id := next_log_id db;
                              log_tenant_id := tenantId;
                              to_address := toAddr;
                              log_subject := subj;
                              status := "sending";
                              error_message := None;
                              sent_at := None;
                              log_created_at := now |}])%list;
      next_log_id := next_log_id db + 1;
      txn := txn db |}).

Definition update_log (db : LogDb) (logId : Z) (f : LogRow -> LogRow) : LogDb :=
  {| logs := List.map (fun r => if log_id r =? logId then f r else r) (logs db);
     next_log_id := next_log_id db;
     txn := txn db |}.

(** [SET status = 'sent', sent_at = CURRENT_TIMESTAMP] *)
Definition mark_sent (now : Z) (r : LogRow) : LogRow :=
  {| log_id := log_id r; log_tenant_id := log_tenant_id r;
     to_address := to_address r; log_subject := log_subject r;
     status := "sent"; error_message := error_message r;
     sent_at := Some now; log_created_at := log_created_at r |}.

(** [SET status = 'failed', error_message = $2] *)
Definition mark_failed (msg : string) (r : LogRow) : LogRow :=
  {| log_id := log_id r; log_tenant_id := log_tenant_id r;
     to_address := to_address r; log_subject := log_subject r;
     status := "failed"; error_message := Some msg;
     sent_at := sent_at r; log_created_at := log_created_at r |}.

Definition find_log (db : LogDb) (logId : Z) : option LogRow :=
  List.find (fun r => log_id r =? logId) (logs db).

(** ** What a dispatch does to the outside *)

Record WebhookEvent := {
  wh_url : string;
  wh_event : string;
  wh_emailLogId : Z;
  wh_subject : string;
  wh_error : option string
}.

Inductive Event :=
| EvSend (attempt : Z) (m : MailOptions)
| EvSleep (ms : Z)
| EvWebhook (w : WebhookEvent).

Record World := {
  templates : list Store.TemplateRow;
  logdb : LogDb;
  cache : Renderer.Cache
}.

Definition with_logdb (w : World) (db : LogDb) : World :=
  {| templates := templates w; logdb := db; cache := cache w |}.

Definition with_cache (w : World) (c : Renderer.Cache) : World :=
  {| templates := templates w; logdb := logdb w; cache := c |}.

(** ** renderEmailContent *)

Record Content := {
  c_subject : string;
  c_html : string;
  c_text : string;
  rendered : bool;
  fallback : bool
}.

Inductive Mode := legacy | template.

(** [data.x ? renderTemplate(data.x, data.variables) : ''] *)
Definition render_raw (raw : option string) (vars : option Legacy.Vars) : string :=
  if truthy_opt raw then Legacy.renderTemplate raw vars else "".

Definition legacy_content (data : Body) (is_fallback : bool) : Content :=
  {| c_subject := or_else (subject data) "Email";
     c_html := render_raw (htmlBody data) (variables data);
     c_text := render_raw (textBody data) (variables data);
     rendered := false;
     fallback := is_fallback |}.

Definition renderEmailContent (E : Renderer.Engine) (c : Renderer.Cache)
    (now : Z) (mode : Mode) (data : Body)
    (templateRecord : option Renderer.TemplateRecord)
    (tdata : option Json) : Content * Renderer.Cache :=
  match mode, templateRecord, tdata with
  | template, Some rec, Some td =>
      if truthy td then
        match Renderer.renderTemplate E c now rec td None with
        | (inr r, c1, _) =>
            ({| c_subject := Renderer.subject r;
                c_html := Renderer.html r;
                c_text := Renderer.text r;
                rendered := true;
                fallback := false |}, c1)
        | (inl _, c1, _) => (legacy_content data true, c1)
        end
      else (legacy_content data false, c)
  | _, _, _ => (legacy_content data false, c)
  end.

(** ** The retry loop *)

Definition transientCodes : list string :=
  ["ETIMEDOUT"; "ESOCKET"; "ECONNRESET"; "EAI_AGAIN"].

Definition temporaryResponses : list Z := [421; 450; 451; 452].

Definition in_strings (s : string) (l : list string) : bool :=
  existsb (String.eqb s) l.

Definition in_numbers (n : Z) (l : list Z) : bool :=
  existsb (Z.eqb n) l.

(** [Number(err.responseCode || err.code)] when that operand is truthy. *)
Definition response_number (env : Env) (err : SendError) : option Z :=
  let from_code :=
    match err_code err with
    | Some s => if truthy_string s then Number_of_string env s else None
    | None => None
    end in
  match err_responseCode err with
  | Some n => if truthy_num n then Some n else from_code
  | None => from_code
  end.

Definition shouldRetry (env : Env) (err : SendError) : bool :=
  if match err_code err with
     | Some s => in_strings s transientCodes
     | None => false
     end
  then true
  else match response_number env err with
       | Some n => in_numbers n temporaryResponses
       | None => false
       end.

(** [baseDelay * Math.pow(2, attempt - 1)] *)
Definition delay_after (env : Env) (attempt : Z) : Z :=
  RETRY_BASE_DELAY_MS env * 2 ^ (attempt - 1).

(** The [for] loop from [attempt] on: [info], [lastError] and the events
    in order.  [fuel] bounds the iterations left. *)
Fixpoint send_loop (env : Env) (transport : Transport) (m : MailOptions)
    (fuel : nat) (attempt : Z) (lastError : option SendError)
  : option string * option SendError * list Event :=
  match fuel with
  | O => (None, lastError, [])
  | S f =>
      if RETRY_MAX_ATTEMPTS env <? attempt then (None, lastError, [])
      else
        match transport attempt m with
        | inr info => (Some info, None, [EvSend attempt m])
        | inl err =>
            if (RETRY_MAX_ATTEMPTS env <=? attempt) || negb (shouldRetry env err)
            then (None, Some err, [EvSend attempt m])
            else
              let '(info, le, evs) :=
                send_loop env transport m f (attempt + 1) (Some err) in
              (info, le, EvSend attempt m :: EvSleep (delay_after env attempt) :: evs)
        end
  end.

(** The loop as [sendEmail] runs it. *)
Definition deliver (env : Env) (transport : Transport) (m : MailOptions)
  : option string * option SendError * list Event :=
  send_loop env transport m (Z.to_nat (RETRY_MAX_ATTEMPTS env)) 1 None.

(** ** sendEmail *)

(** The body of a successful response. *)
Record Sent := {
  messageId : string;
  sent_template : option (string * Z)
}.

(** [Array.isArray(to) ? to : [to]] *)
Definition addresses (a : Address) : list string :=
  match a with
  | One x => [x]
  | Many l => l
  end.

Definition truthy_address (a : Address) : bool :=
  match a with
  | One x => truthy_string x
  | Many _ => true
  end.

(** [Array.isArray(cc) ? cc : (cc ? [cc] : [])] *)
Definition optional_addresses (o : option Address) : list string :=
  match o with
  | Some a => if truthy_address a then addresses a else []
  | None => []
  end.

(** [l.length > 0 ? l.join(', ') : undefined] *)
Definition joined (l : list string) : option string :=
  match l with
  | [] => None
  | _ :: _ => Some (join ", " l)
  end.

(** [s || undefined] *)
Definition if_truthy (o : option string) : option string :=
  if truthy_opt o then o else None.

(** [tenant.webhook_url || process.env.TENANT_DEFAULT_WEBHOOK] *)
Definition webhook_target (env : Env) (tenant : option Tenant) : option string :=
  match tenant with
  | Some t =>
      if truthy_opt (webhook_url t) then webhook_url t
      else if_truthy (TENANT_DEFAULT_WEBHOOK env)
  | None => if_truthy (TENANT_DEFAULT_WEBHOOK env)
  end.

Definition sent_webhook (env : Env) (tenant : Tenant) (logId : Z)
    (subj : string) : list Event :=
  match webhook_target env (Some tenant) with
  | Some url =>
      [EvWebhook {| wh_url := url; wh_event := "sent"; wh_emailLogId := logId;
                    wh_subject := subj; wh_error := None |}]
  | None => []
  end.

(** What the [try] block hands over: the response or the error thrown,
    the world and the events so far, and [logId] at that point. *)
Definition Tried : Type := (Thrown + Sent) * World * list Event * option Z.

(** From the retry loop to the response; the same text in both modes. *)
Definition send_and_log (env : Env) (transport : Transport) (now : Z)
    (tenant : Tenant) (w : World) (logId : Z) (m : MailOptions)
    (tpl : option (string * Z)) : Tried :=
  let '(info, lastError, evs) := deliver env transport m in
  match info, lastError with
  | None, Some err => (inl (SendErr err), w, evs, Some logId)
  | _, _ =>
      let db1 := commit (update_log (logdb w) logId (mark_sent now)) in
      match info with
      | None =>
          (inl (TypeErr "Cannot read properties of null (reading 'messageId')"),
           with_logdb w db1, evs, Some logId)
      | Some mid =>
          (inr {| messageId := mid; sent_template := tpl |},
           with_logdb w db1,
           (evs ++ sent_webhook env tenant logId (mo_subject m))%list,
           Some logId)
      end
  end.

Definition override (o : option Overrides) (f : Overrides -> option string)
    (d : string) : string :=
  match o with
  | Some ov => or_else (f ov) d
  | None => d
  end.

Definition template_mode (E : Renderer.Engine) (env : Env)
    (transport : Transport) (now : Z) (tenant : option Tenant) (body : Body)
    (w : World) : Tried :=
  let missing :=
    (inl (AppErr
            "Missing required fields for template mode: templateSlug, templateData, to"
            400), w, [], None) in
  match templateSlug body, templateData body, to body with
  | Some slug0, Some td, Some toA =>
      if truthy_string slug0 && truthy td && truthy_address toA then
        match tenant with
        | None => (inl (AppErr "Tenant not found" 401), w, [], None)
        | Some t =>
            match Store.resolveTemplate (templates w) (tenant_id t) slug0
                    (version body) with
            | inl e => (inl (DbErr e), w, [], None)
            | inr None =>
                (inl (AppErr ("Template not found: " ++ slug0) 404), w, [], None)
            | inr (Some templateRecord) =>
                let '(renderedContent, c1) :=
                  renderEmailContent E (cache w) now template body
                    (Some templateRecord) (Some td) in
                let finalSubject :=
                  override (overrides body) ov_subject (c_subject renderedContent) in
                let finalHtml :=
                  override (overrides body) ov_htmlBody (c_html renderedContent) in
                let finalText :=
                  override (overrides body) ov_textBody (c_text renderedContent) in
                let toAddresses := addresses toA in
                let '(logId, db1) :=
                  insert_log (begin (logdb w)) now (tenant_id t)
                    (join ", " toAddresses) finalSubject in
                let mailOptions :=
                  {| mo_from := or_else (from body) (from_email t);
                     mo_to := join ", " toAddresses;
                     mo_cc := joined (optional_addresses (cc body));
                     mo_bcc := joined (optional_addresses (bcc body));
                     mo_replyTo := if_truthy (replyTo body);
                     mo_subject := finalSubject;
                     mo_html := Some finalHtml;
                     mo_text := Some finalText |} in
                send_and_log env transport now t
                  (with_logdb (with_cache w c1) db1) logId mailOptions
                  (Some (slug0, Renderer.version templateRecord))
            end
        end
      else missing
  | _, _, _ => missing
  end.

Definition legacy_mode (env : Env) (transport : Transport) (now : Z)
    (tenant : option Tenant) (body : Body) (w : World) : Tried :=
  let missing :=
    (inl (AppErr "Missing required fields: to, subject, htmlBody" 400),
     w, [], None) in
  match to body, subject body, htmlBody body with
  | Some toA, Some subj, Some hb =>
      if truthy_address toA && truthy_string subj && truthy_string hb then
        match tenant with
        | None => (inl (AppErr "Tenant not found" 401), w, [], None)
        | Some t =>
            let toAddresses := addresses toA in
            let '(logId, db1) :=
              insert_log (begin (logdb w)) now (tenant_id t)
                (join ", " toAddresses) subj in
            let renderedHtml :=
              if truthy_string hb
              then Some (Legacy.renderTemplate (Some hb) (variables body))
              else None in
            let renderedText :=
              if truthy_opt (textBody body)
              then Some (Legacy.renderTemplate (textBody body) (variables body))
              else None in
            let mailOptions :=
              {| mo_from := or_else (from body) (from_email t);
                 mo_to := join ", " toAddresses;
                 mo_cc := joined (optional_addresses (cc body));
                 mo_bcc := joined (optional_addresses (bcc body));
                 mo_replyTo := None;
                 mo_subject := subj;
                 mo_html := renderedHtml;
                 mo_text := renderedText |} in
            send_and_log env transport now t (with_logdb w db1) logId
              mailOptions None
        end
      else missing
  | _, _, _ => missing
  end.

(** The [catch] block: roll back, then mark the log row as failed if
    [logId] is set, then the failure webhook. *)
Definition on_error (env : Env) (tenant : option Tenant) (body : Body)
    (w : World) (logId : option Z) (error : Thrown) : World * list Event :=
  let db1 := rollback (logdb w) in
  let text := or_else (thrown_message error) "Unknown error" in
  let has_log :=
    match logId with Some i => truthy_num i | None => false end in
  let db2 :=
    match logId with
    | Some i => if truthy_num i then update_log db1 i (mark_failed text) else db1
    | None => db1
    end in
  let hook :=
    match webhook_target env tenant, logId with
    | Some url, Some i =>
        if has_log then
          [EvWebhook {| wh_url := url; wh_event := "failed"; wh_emailLogId := i;
                        wh_subject :=
                          or_else (subject body) (or_else (templateSlug body) "Email");
                        wh_error := Some text |}]
        else []
    | _, _ => []
    end in
  (with_logdb w db2, hook).

(** [sendEmail]: the response sent or the error passed to [next], the
    world afterwards, and the events of the request in order. *)
Definition sendEmail (E : Renderer.Engine) (env : Env) (transport : Transport)
    (now : Z) (tenant : option Tenant) (body : Body) (w : World)
  : (Thrown + Sent) * World * list Event :=
  let isTemplateMode := truthy_opt (templateSlug body) in
  let '(res, w1, evs, logId) :=
    if isTemplateMode
    then template_mode E env transport now tenant body w
    else legacy_mode env transport now tenant body w in
  match res with
  | inr resp => (inr resp, w1, evs)
  | inl error =>
      let '(w2, hook) := on_error env tenant body w1 logId error in
      (inl error, w2, (evs ++ hook)%list)
  end.

(** The transport calls among the events. *)
Definition sends (evs : list Event) : list (Z * MailOptions) :=
  omap (fun e => match e with EvSend a m => Some (a, m) | _ => None end) evs.

(** The sleeps among the events. *)
Definition sleeps (evs : list Event) : list Z :=
  omap (fun e => match e with EvSleep d => Some d | _ => None end) evs.

(** ** Reading the events of the retry loop *)

(** [k] transport calls numbered from [attempt], with the backoff sleep
    between one call and the next. *)
Fixpoint schedule (env : Env) (m : MailOptions) (k : nat) (attempt : Z)
  : list Event :=
  match k with
  | O => []
  | S k1 =>
      EvSend attempt m ::
      match k1 with
      | O => []
      | S _ => EvSleep (delay_after env attempt) :: schedule env m k1 (attempt + 1)
      end
  end.

(** The failures the specification calls transient: timeout, connection
    reset, temporary DNS failure, or a temporary SMTP response. *)
Definition named_transient (env : Env) (err : SendError) : bool :=
  match err_code err with
  | Some s => in_strings s ["ETIMEDOUT"; "ECONNRESET"; "EAI_AGAIN"]
  | None => false
  end
  || match response_number env err with
     | Some n => in_numbers n temporaryResponses
     | None => false
     end.

(** The message of a template request whose content is [c]. *)
Definition template_mail (t : Tenant) (body : Body) (toA : Address)
    (c : Content) : MailOptions :=
  {| mo_from := or_else (from body) (from_email t);
     mo_to := join ", " (addresses toA);
     mo_cc := joined (optional_addresses (cc body));
     mo_bcc := joined (optional_addresses (bcc body));
     mo_replyTo := if_truthy (replyTo body);
     mo_subject := override (overrides body) ov_subject (c_subject c);
     mo_html := Some (override (overrides body) ov_htmlBody (c_html c));
     mo_text := Some (override (overrides body) ov_textBody (c_text c)) |}.

(** ** Sample dispatches *)

Definition default_env : Env :=
  {| RETRY_MAX_ATTEMPTS := 3;
     RETRY_BASE_DELAY_MS := 500;
     TENANT_DEFAULT_WEBHOOK := None;
     Number_of_string := decimal_number |}.

Definition demo_tenant : Tenant :=
  {| tenant_id := 7; from_email := "noreply@acme.test"; webhook_url := None |}.

Definition empty_logdb : LogDb :=
  {| logs := []; next_log_id := 1; txn := None |}.

Definition demo_world : World :=
  {| templates := Store.rows Store.demo_db; logdb := empty_logdb; cache := ∅ |}.

Definition no_body : Body :=
  {| templateSlug := None; templateData := None; to := None; from := None;
     replyTo := None; cc := None; bcc := None; version := None;
     overrides := None; subject := None; htmlBody := None; textBody := None;
     variables := None |}.

(** A legacy request. *)
Definition legacy_body : Body :=
  {| templateSlug := None; templateData := None;
     to := Some (One "ann@example.test"); from := None;
     replyTo := None; cc := None; bcc := None; version := None;
     overrides := None; subject := Some "Hello";
     htmlBody := Some "<p>Hi {{name}}</p>"; textBody := None;
     variables := Some (<["name" := JStr "Ann"]> ∅) |}.

(** A template request that carries no raw content. *)
Definition template_body : Body :=
  {| templateSlug := Some "welcome";
     templateData := Some (JObj [("name", JStr "Ann")]);
     to := Some (One "ann@example.test"); from := None;
     replyTo := None; cc := None; bcc := None; version := None;
     overrides := None; subject := None; htmlBody := None; textBody := None;
     variables := None |}.

(** A table whose only template does not compile. *)
Definition broken_row : Store.TemplateRow :=
  {| Store.id := 1; Store.tenant_id := 7; Store.name := "Welcome";
     Store.slug := "welcome"; Store.engine := "handlebars";
     Store.content := "{{#each items}";
     Store.subject_template := "Hi {{name}}";
     Store.plaintext_template := None; Store.version := 1;
     Store.is_active := true; Store.created_at := 0; Store.updated_at := 0 |}.

Definition broken_world : World :=
  {| templates := [broken_row]; logdb := empty_logdb; cache := ∅ |}.

(** Transports: always accepting, always rejecting with a permanent SMTP
    error, and failing once with a socket error. *)
Definition accepting : Transport := fun _ _ => inr "<1@acme.test>".

Definition mailbox_unavailable : SendError :=
  {| err_message := Some "Mailbox unavailable";
     err_code := Some "EENVELOPE";
     err_responseCode := Some 550 |}.

Definition rejecting : Transport := fun _ _ => inl mailbox_unavailable.

Definition socket_error : SendError :=
  {| err_message := Some "socket hang up";
     err_code := Some "ESOCKET";
     err_responseCode := None |}.

Definition socket_error_once : Transport :=
  fun attempt _ => if attempt =? 1 then inl socket_error else inr "<1@acme.test>".

Definition demo_mail : MailOptions :=
  {| mo_from := "noreply@acme.test"; mo_to := "ann@example.test";
     mo_cc := None; mo_bcc := None; mo_replyTo := None;
     mo_subject := "Hello"; mo_html := Some "<p>Hi Ann</p>"; mo_text := None |}.

End Dispatch.

(* ===================================================================== *)
(** * The rest of the controllers: create, preview, read a log row        *)
(* ===================================================================== *)

Module Admin.
Import Js Store.

(** What a controller may pass to [next]: an [AppError], an error raised
    by the database, or the error thrown by the renderer. *)
Inductive Failure :=
| App (e : AppError)
| DbError (msg : string)
| RenderError (msg : string).

Record CreateTemplateRequest := {
  crt_tenantId : option string;
  crt_name : option string;
  crt_slug : option string;
  crt_engine : option string;
  crt_content : option string;
  crt_subjectTemplate : option string;
  crt_plaintextTemplate : option string
}.

Record PreviewTemplateRequest := {
  pv_templateId : option string;
  pv_tenantId : option string;
  pv_slug : option string;
  pv_templateData : option Json;
  pv_version : option Z
}.

(** [SELECT id ... WHERE tenant_id = $1 AND slug = $2 AND version = 1] *)
Definition first_version_exists (tbl : list TemplateRow) (tenantId : Z)
    (slug0 : string) : bool :=
  existsb (fun r => (tenant_id r =? tenantId) && String.eqb (slug r) slug0
                    && (version r =? 1)) tbl.

(** The count of the rows [WHERE tenant_id = $1 AND is_active = true]. *)
Definition active_count (tbl : list TemplateRow) (tenantId : Z) : Z :=
  Z.of_nat (List.length
              (List.filter (fun r => (tenant_id r =? tenantId) && is_active r) tbl)).

(** The fields of a request that passed the checks. *)
Record CreateFields := {
  cf_tenantId : string;
  cf_name : string;
  cf_slug : string;
  cf_engine : string;
  cf_content : string;
  cf_subjectTemplate : string;
  cf_plaintextTemplate : option string
}.

(** The checks of [createTemplate] on the body, in order. *)
Definition create_validate (req : CreateTemplateRequest)
  : AppError + CreateFields :=
  let missing :=
    inl (bad_request
      "Missing required fields: tenantId, name, slug, engine, content, subjectTemplate") in
  match crt_tenantId req, crt_name req, crt_slug req, crt_engine req,
        crt_content req, crt_subjectTemplate req with
  | Some tenantId, Some name0, Some slug0, Some engine0, Some content0,
    Some subject0 =>
      if negb (truthy_string tenantId && truthy_string name0
               && truthy_string slug0 && truthy_string engine0
               && truthy_string content0 && truthy_string subject0)
      then missing
      else if negb (String.eqb engine0 "handlebars" || String.eqb engine0 "mjml")
      then inl (bad_request
                  ("Engine must be " ++ quote "handlebars" ++ " or "
                     ++ quote "mjml"))
      else if 10240 <? Z.of_nat (String.length content0)
      then inl (bad_request "Content exceeds 10KB limit")
      else if 500 <? Z.of_nat (String.length subject0)
      then inl (bad_request "Subject template exceeds 500 character limit")
      else if truthy_opt (crt_plaintextTemplate req)
              && too_long (crt_plaintextTemplate req) 10240
      then inl (bad_request "Plaintext template exceeds 10KB limit")
      else inr {| cf_tenantId := tenantId; cf_name := name0; cf_slug := slug0;
                  cf_engine := engine0; cf_content := content0;
                  cf_subjectTemplate := subject0;
                  cf_plaintextTemplate := crt_plaintextTemplate req |}
  | _, _, _, _, _, _ => missing
  end.

(** The row of the [INSERT] of [createTemplate]. *)
Definition created_row (db : Db) (now tenantId : Z) (f : CreateFields)
  : TemplateRow :=
  {| id := next_id db;
     tenant_id := tenantId;
     name := cf_name f;
     slug := cf_slug f;
     engine := cf_engine f;
     content := cf_content f;
     subject_template := cf_subjectTemplate f;
     plaintext_template :=
       if truthy_opt (cf_plaintextTemplate f) then cf_plaintextTemplate f
       else None;
     version := 1;
     is_active := true;
     created_at := now;
     updated_at := now |}.

Section Postgres.

(** The reading of a text parameter as a [bigint]; [None] when the
    database rejects the text. *)
Variable bigint_in : string -> option Z.

(** The ids of the [tenants] table, which [tenant_id] references. *)
Variable tenants : list Z.

(** [createTemplate]: the error passed to [next] or the [templateId] of
    the response, and the table afterwards.  The [INSERT] draws the id from
    the sequence before the reference to [tenants] is checked. *)
Definition createTemplate (db : Db) (now : Z) (req : CreateTemplateRequest)
  : (Failure + string) * Db :=
  match create_validate req with
  | inl e => (inl (App e), db)
  | inr f =>
      match bigint_in (cf_tenantId f) with
      | None => (inl (DbError "invalid input syntax for type bigint"), db)
      | Some tid =>
          if first_version_exists (rows db) tid (cf_slug f)
          then (inl (App {| message := "Template slug already exists for this tenant";
                            statusCode := 409 |}), db)
          else if 50 <=? active_count (rows db) tid
          then (inl (App {| message := "Tenant has reached the maximum of 50 templates";
                            statusCode := 429 |}), db)
          else if existsb (Z.eqb tid) tenants
          then (inr (pretty (next_id db)),
                {| rows := (rows db ++ [created_row db now tid f])%list;
                   next_id := next_id db + 1 |})
          else (inl (DbError "violates foreign key constraint"),
                {| rows := rows db; next_id := next_id db + 1 |})
      end
  end.

(** The record [previewTemplate] renders: by id when [templateId] is
    given, else by tenant and slug. *)
Definition preview_record (tbl : list TemplateRow) (req : PreviewTemplateRequest)
  : Failure + Renderer.TemplateRecord :=
  let not_found :=
    inl (App {| message := "Template not found"; statusCode := 404 |}) in
  let bad_text := inl (DbError "invalid input syntax for type bigint") in
  if truthy_opt (pv_templateId req) then
    match pv_templateId req with
    | Some text =>
        match bigint_in text with
        | None => bad_text
        | Some i =>
            match List.filter (fun r => (id r =? i) && is_active r) tbl with
            | r :: _ => inr (to_record r)
            | [] => not_found
            end
        end
    | None => not_found
    end
  else if truthy_opt (pv_tenantId req) && truthy_opt (pv_slug req) then
    match pv_tenantId req, pv_slug req with
    | Some text, Some slug0 =>
        match bigint_in text with
        | None => bad_text
        | Some tid =>
            match resolveTemplate tbl tid slug0 (pv_version req) with
            | inl e => inl (DbError (pg_message e))
            | inr (Some rec) => inr rec
            | inr None => not_found
            end
        end
    | _, _ => not_found
    end
  else
    inl (App (bad_request
           "Either templateId or (tenantId and slug) must be provided")).

(** [previewTemplate]: the error passed to [next] or the record and its
    rendering, the cache afterwards, and the templates handed to
    [Handlebars.compile]. *)
Definition previewTemplate (E : Renderer.Engine) (c : Renderer.Cache) (now : Z)
    (tbl : list TemplateRow) (req : PreviewTemplateRequest)
  : (Failure + Renderer.TemplateRecord * Renderer.RenderResult)
    * Renderer.Cache * list string :=
  match pv_templateData req with
  | None => (inl (App (bad_request "templateData is required")), c, [])
  | Some td =>
      if negb (truthy td)
      then (inl (App (bad_request "templateData is required")), c, [])
      else
        match preview_record tbl req with
        | inl e => (inl e, c, [])
        | inr rec =>
            match Renderer.renderTemplate E c now rec td (pv_version req) with
            | (inr r, c1, tr) => (inr (rec, r), c1, tr)
            | (inl msg, c1, tr) => (inl (RenderError msg), c1, tr)
            end
        end
  end.

(** [getEmail]: the row of [email_logs] with the id of the path and the
    tenant of the request. *)
Definition getEmail (db : Dispatch.LogDb) (idText : string) (tenantId : Z)
  : Failure + Dispatch.LogRow :=
  match bigint_in idText with
  | None => inl (DbError "invalid input syntax for type bigint")
  | Some i =>
      match List.filter (fun r => (Dispatch.log_id r =? i)
                                  && (Dispatch.log_tenant_id r =? tenantId))
                        (Dispatch.logs db) with
      | r :: _ => inr r
      | [] => inl (App {| message := "Email not found"; statusCode := 404 |})
      end
  end.

End Postgres.

(** The answer of [getEmail] when no row is found. *)
Definition not_found_email : Failure + Dispatch.LogRow :=
  inl (App {| message := "Email not found"; statusCode := 404 |}).

(** ** Reading the tables *)

(** The key of the [UNIQUE(tenant_id, slug, version)] constraint. *)
Definition version_key (r : TemplateRow) : Z * string * Z :=
  (tenant_id r, slug r, version r).

(** The constraints of [tenant_templates] and the state of its sequence:
    ids are distinct and below the next value, version keys are distinct. *)
Definition table_ok (db : Db) : Prop :=
  NoDup (List.map id (rows db))
  /\ (forall r, In r (rows db) -> id r < next_id db)
  /\ NoDup (List.map version_key (rows db)).

(** No transaction is open and every id is below the next value of the
    sequence. *)
Definition logs_ok (db : Dispatch.LogDb) : Prop :=
  Dispatch.txn db = None
  /\ forall r, In r (Dispatch.logs db) ->
       Dispatch.log_id r < Dispatch.next_log_id db.

(** The webhook calls among the events. *)
Definition webhooks (evs : list Dispatch.Event) : list Dispatch.WebhookEvent :=
  omap (fun e => match e with Dispatch.EvWebhook h => Some h | _ => None end) evs.

(** The end of [sendEmail]: the response of the [try] block, or its
    [catch] block. *)
Definition settle (env : Dispatch.Env) (tenant : option Dispatch.Tenant)
    (body : Dispatch.Body) (tried : Dispatch.Tried)
  : (Dispatch.Thrown + Dispatch.Sent) * Dispatch.World * list Dispatch.Event :=
  let '(res, w1, evs, logId) := tried in
  match res with
  | inr resp => (inr resp, w1, evs)
  | inl error =>
      let '(w2, hook) := Dispatch.on_error env tenant body w1 logId error in
      (inl error, w2, (evs ++ hook)%list)
  end.

(** The row of a dispatch as [INSERT] writes it, with the status and the
    columns a later [UPDATE] has set. *)
Definition log_row (logId now tenantId : Z) (m : Dispatch.MailOptions)
    (st : string) (err : option string) (sent : option Z) : Dispatch.LogRow :=
  {| Dispatch.log_id := logId;
     Dispatch.log_tenant_id := tenantId;
     Dispatch.to_address := Dispatch.mo_to m;
     Dispatch.log_subject := Dispatch.mo_subject m;
     Dispatch.status := st;
     Dispatch.error_message := err;
     Dispatch.sent_at := sent;
     Dispatch.log_created_at := now |}.

(** The world in which the retry loop runs: the log row of the message
    inserted, the cache as rendering left it. *)
Definition inserted (w : Dispatch.World) (now : Z) (t : Dispatch.Tenant)
    (m : Dispatch.MailOptions) (c1 : Renderer.Cache) : Dispatch.World :=
  {| Dispatch.templates := Dispatch.templates w;
     Dispatch.logdb :=
       snd (Dispatch.insert_log (Dispatch.begin (Dispatch.logdb w)) now
              (Dispatch.tenant_id t) (Dispatch.mo_to m) (Dispatch.mo_subject m));
     Dispatch.cache := c1 |}.

(** The transport calls of [k] attempts with the message [m]. *)
Definition attempts (k : nat) (m : Dispatch.MailOptions)
  : list (Z * Dispatch.MailOptions) :=
  List.map (fun j : nat => (1 + Z.of_nat j, m)) (seq 0 k).

(** Base-36 digits read back as a number. *)
Definition digit36_value (c : ascii) : Z :=
  let n := code c in if n <? 58 then n - 48 else n - 87.

Definition from36 (s : string) : Z :=
  fold_units (fun acc c => acc * 36 + digit36_value c) s 0.

(** A character of the alphabet of [toString(36)]. *)
Definition is_digit36 (c : ascii) : bool :=
  let n := code c in
  ((48 <=? n) && (n <=? 57)) || ((97 <=? n) && (n <=? 122)).

(** ** Sample requests *)

Definition create_welcome : CreateTemplateRequest :=
  {| crt_tenantId := Some "7"; crt_name := Some "Welcome";
     crt_slug := Some "welcome"; crt_engine := Some "handlebars";
     crt_content := Some "<h1>Hi {{name}}</h1>";
     crt_subjectTemplate := Some "Hi {{name}}";
     crt_plaintextTemplate := None |}.

Definition create_goodbye : CreateTemplateRequest :=
  {| crt_tenantId := Some "7"; crt_name := Some "Goodbye";
     crt_slug := Some "goodbye"; crt_engine := Some "handlebars";
     crt_content := Some "<p>Bye {{name}}</p>";
     crt_subjectTemplate := Some "Bye {{name}}";
     crt_plaintextTemplate := None |}.

Definition preview_welcome : PreviewTemplateRequest :=
  {| pv_templateId := None; pv_tenantId := Some "7"; pv_slug := Some "welcome";
     pv_templateData := Some (JObj [("name", JStr "Ann")]);
     pv_version := Some 1 |}.

End Admin.

(* ===================================================================== *)
(** * Facts about strings                                                 *)
(* ===================================================================== *)

Module StringFacts.

Lemma app_cons (x : ascii) (a b : string) : String x a ++ b = String x (a ++ b).
Proof. reflexivity. Qed.

Lemma app_nil_l (a : string) : "" ++ a = a.
Proof. reflexivity. Qed.

Lemma app_assoc (a b c : string) : (a ++ b) ++ c = a ++ (b ++ c).
Proof.
  induction a as [|x a IH]; [reflexivity|].
  rewrite !app_cons. now rewrite IH.
Qed.

Lemma app_nil_r (a : string) : a ++ "" = a.
Proof.
  induction a as [|x a IH]; [reflexivity|].
  rewrite app_cons. now rewrite IH.
Qed.

Lemma length_app (a b : string) :
  String.length (a ++ b) = (String.length a + String.length b)%nat.
Proof.
  induction a as [|x a IH]; [reflexivity|].
  rewrite app_cons. simpl. now rewrite IH.
Qed.

Lemma app_cancel_l (a b c : string) : a ++ b = a ++ c -> b = c.
Proof.
  induction a as [|x a IH]; [trivial|].
  rewrite !app_cons. intros [= H]. auto.
Qed.

Lemma startsWith_app (p a b : string) :
  Js.startsWith (p ++ a) (p ++ b) = Js.startsWith a b.
Proof.
  induction p as [|x p IH]; [reflexivity|].
  rewrite !app_cons. simpl. now rewrite Ascii.eqb_refl.
Qed.

End StringFacts.

(* ===================================================================== *)
(** * Plain substitution                                                  *)
(* ===================================================================== *)

Module LegacyFacts.
Import Js Legacy.

Lemma space_not_word c : is_space c = true -> is_word c = false.
Proof.
  destruct c as [[] [] [] [] [] [] [] []]; vm_compute; congruence.
Qed.

Lemma open_not_space : is_space open_brace = false.
Proof. reflexivity. Qed.

Lemma open_not_word : is_word open_brace = false.
Proof. reflexivity. Qed.

Lemma close_not_word : is_word close_brace = false.
Proof. reflexivity. Qed.

Lemma close_not_space : is_space close_brace = false.
Proof. reflexivity. Qed.

(** A run of spaces in front is skipped whole. *)
Lemma skip_space_spaces a x :
  all_chars is_space a = true -> skip_space (a ++ x) = skip_space x.
Proof.
  induction a as [|c a IH]; [reflexivity|].
  rewrite StringFacts.app_cons. simpl.
  intros H. apply andb_prop in H as [Hc Ha]. rewrite Hc. auto.
Qed.

(** Skipping stops in front of a character that is no space. *)
Lemma skip_space_stop s c x :
  is_space c = false ->
  skip_space (s ++ String c x) = skip_space s ++ String c x.
Proof.
  intros Hc. induction s as [|d s IH].
  - rewrite StringFacts.app_nil_l. simpl. now rewrite Hc.
  - rewrite StringFacts.app_cons. simpl.
    destruct (is_space d); [exact IH | reflexivity].
Qed.

Lemma take_word_stop s c x :
  is_word c = false ->
  take_word (s ++ String c x)
  = (fst (take_word s), snd (take_word s) ++ String c x).
Proof.
  intros Hc. induction s as [|d s IH].
  - rewrite StringFacts.app_nil_l. simpl. now rewrite Hc.
  - rewrite StringFacts.app_cons. simpl.
    destruct (is_word d); [|reflexivity].
    rewrite IH. destruct (take_word s). reflexivity.
Qed.

Lemma take_word_word k c x :
  all_chars is_word k = true -> is_word c = false ->
  take_word (k ++ String c x) = (k, String c x).
Proof.
  intros Hk Hc. induction k as [|d k IH].
  - rewrite StringFacts.app_nil_l. simpl. now rewrite Hc.
  - rewrite StringFacts.app_cons. simpl.
    simpl in Hk. apply andb_prop in Hk as [Hd Hk].
    rewrite Hd, (IH Hk). reflexivity.
Qed.

Lemma skip_space_length s : (String.length (skip_space s) <= String.length s)%nat.
Proof.
  induction s as [|c s IH]; simpl; [lia|].
  destruct (is_space c); simpl; lia.
Qed.

Lemma take_word_length s :
  (String.length (snd (take_word s)) <= String.length s)%nat.
Proof.
  induction s as [|c s IH]; simpl; [lia|].
  destruct (is_word c); [|simpl; lia].
  destruct (take_word s); simpl in *; lia.
Qed.

Lemma match_tail_shorter r key rest :
  match_tail r = Some (key, rest) ->
  (String.length rest < String.length r)%nat.
Proof.
  unfold match_tail. intros H.
  pose proof (skip_space_length r) as H1.
  pose proof (take_word_length (skip_space r)) as H2.
  destruct (take_word (skip_space r)) as [k r2]. simpl in H2.
  destruct k; [discriminate|].
  pose proof (skip_space_length r2) as H3.
  destruct (skip_space r2) as [|c1 [|c2 r3]]; try discriminate.
  destruct (_ && _); [|discriminate].
  injection H as _ <-. simpl in H3. lia.
Qed.

Lemma match_placeholder_shorter s key rest :
  match_placeholder s = Some (key, rest) ->
  (String.length rest < String.length s)%nat.
Proof.
  destruct s as [|c1 [|c2 r]]; simpl; try discriminate.
  destruct (_ && _); [|discriminate].
  intros H%match_tail_shorter. lia.
Qed.

Lemma spaces_then_close a y :
  all_chars is_space a = true ->
  exists c x, a ++ String close_brace y = String c x /\ is_word c = false.
Proof.
  destruct a as [|a0 a]; intros H.
  - exists close_brace, y. split; reflexivity.
  - simpl in H. apply andb_prop in H as [H0 _].
    exists a0, (a ++ String close_brace y). split; [reflexivity|].
    now apply space_not_word.
Qed.

Lemma match_tail_source b k a rest :
  all_chars is_space b = true -> truthy_string k = true ->
  all_chars is_word k = true -> all_chars is_space a = true ->
  match_tail (b ++ k ++ a ++ String close_brace (String close_brace rest))
  = Some (k, rest).
Proof.
  intros Hb Hne Hk Ha. unfold match_tail.
  rewrite (skip_space_spaces _ _ Hb).
  destruct (spaces_then_close a (String close_brace rest) Ha) as (c & x & Ecx & Hc).
  assert (Hskip : skip_space (k ++ a ++ String close_brace (String close_brace rest))
                  = k ++ a ++ String close_brace (String close_brace rest)).
  { destruct k as [|k0 k]; [discriminate|].
    rewrite StringFacts.app_cons. simpl. simpl in Hk.
    apply andb_prop in Hk as [Hk0 _].
    destruct (is_space k0) eqn:E; [|reflexivity].
    apply space_not_word in E. congruence. }
  rewrite Hskip, Ecx, (take_word_word _ _ _ Hk Hc), <- Ecx.
  destruct k as [|k0 k]; [discriminate|].
  rewrite (skip_space_spaces _ _ Ha). reflexivity.
Qed.

(** The source text of a well-formed placeholder matches, capturing its key. *)
Lemma match_placeholder_source p rest :
  placeholder_ok p = true ->
  match_placeholder (placeholder_source p ++ rest) = Some (ph_key p, rest).
Proof.
  unfold placeholder_ok, placeholder_source. intros H.
  apply andb_prop in H as [H Ha]. apply andb_prop in H as [H Hk].
  apply andb_prop in H as [Hb Hne].
  rewrite !StringFacts.app_cons. simpl.
  rewrite !StringFacts.app_assoc, !StringFacts.app_cons, StringFacts.app_nil_l.
  now apply match_tail_source.
Qed.

(** Text that holds no match still holds none in front of two opening braces. *)
Lemma match_tail_open r x :
  match_tail r = None ->
  match_tail (r ++ String open_brace (String open_brace x)) = None.
Proof.
  unfold match_tail. intros H.
  rewrite (skip_space_stop _ _ _ open_not_space).
  rewrite (take_word_stop _ _ _ open_not_word).
  destruct (take_word (skip_space r)) as [key r2]. simpl.
  destruct key; [reflexivity|].
  rewrite (skip_space_stop _ _ _ open_not_space).
  destruct (skip_space r2) as [|c1 [|c2 r3]].
  - reflexivity.
  - rewrite StringFacts.app_cons, StringFacts.app_nil_l.
    replace (Ascii.eqb open_brace close_brace) with false by reflexivity.
    now rewrite andb_false_r.
  - rewrite !StringFacts.app_cons.
    destruct (_ && _); [discriminate | reflexivity].
Qed.

Lemma match_placeholder_open u x :
  u <> "" -> match_placeholder u = None ->
  match_placeholder (u ++ String open_brace (String open_brace x)) = None.
Proof.
  intros Hu H. destruct u as [|c1 [|c2 r]]; [congruence| |].
  - rewrite StringFacts.app_cons, StringFacts.app_nil_l. simpl.
    destruct (Ascii.eqb c1 open_brace); [|reflexivity]. simpl.
    unfold match_tail. simpl. reflexivity.
  - rewrite !StringFacts.app_cons. simpl in *.
    destruct (_ && _); [|reflexivity].
    now apply match_tail_open.
Qed.

(** ** Enough fuel *)

Lemma replace_all_fuel vars n m s :
  (String.length s <= n)%nat -> (String.length s <= m)%nat ->
  replace_all n vars s = replace_all m vars s.
Proof.
  revert m s. induction n as [|n IH]; intros m s Hn Hm.
  - destruct s; [|simpl in Hn; lia]. destruct m; reflexivity.
  - destruct m as [|m]; [destruct s; [reflexivity | simpl in Hm; lia]|].
    destruct s as [|c r]; [reflexivity|].
    cbn [replace_all].
    destruct (match_placeholder (String c r)) as [[key rest]|] eqn:E.
    + apply match_placeholder_shorter in E.
      rewrite (IH m rest); [reflexivity | lia | lia].
    + rewrite (IH m r); [reflexivity | simpl in *; lia | simpl in *; lia].
Qed.

Lemma subst_match vars s key rest :
  match_placeholder s = Some (key, rest) ->
  subst vars s = replacer vars key ++ subst vars rest.
Proof.
  intros E. unfold subst. pose proof (match_placeholder_shorter _ _ _ E) as Hlt.
  destruct s as [|c r]; [discriminate|].
  cbn [String.length replace_all]. rewrite E.
  f_equal. apply replace_all_fuel; simpl in *; lia.
Qed.

Lemma subst_skip vars c r :
  match_placeholder (String c r) = None ->
  subst vars (String c r) = String c (subst vars r).
Proof.
  intros E. unfold subst. cbn [String.length replace_all]. rewrite E.
  reflexivity.
Qed.

Lemma subst_text vars t : placeholder_free t = true -> subst vars t = t.
Proof.
  induction t as [|c t IH]; [reflexivity|].
  cbn [placeholder_free].
  destruct (match_placeholder (String c t)) eqn:E; [discriminate|].
  intros H. rewrite (subst_skip _ _ _ E), (IH H). reflexivity.
Qed.

Lemma subst_text_placeholder vars t p rest :
  placeholder_free t = true -> placeholder_ok p = true ->
  subst vars (t ++ placeholder_source p ++ rest)
  = t ++ replacer vars (ph_key p) ++ subst vars rest.
Proof.
  intros Ht Hp. induction t as [|c t IH].
  - rewrite !StringFacts.app_nil_l.
    apply subst_match, match_placeholder_source, Hp.
  - cbn [placeholder_free] in Ht.
    destruct (match_placeholder (String c t)) eqn:E; [discriminate|].
    rewrite (StringFacts.app_cons c t (placeholder_source p ++ rest)).
    rewrite subst_skip.
    + rewrite (IH Ht). reflexivity.
    + rewrite <- StringFacts.app_cons.
      unfold placeholder_source. rewrite !(StringFacts.app_cons open_brace).
      apply match_placeholder_open; [discriminate | exact E].
Qed.

(** Off the inherited names the replacer gives what the claim expects. *)
Lemma replacer_expected vars key :
  leaks vars key = false -> replacer vars key = expected_value vars key.
Proof.
  unfold leaks, replacer, expected_value.
  destruct (vars !! key) as [[]|]; try reflexivity.
  destruct (inherited key); [discriminate | reflexivity].
Qed.

Lemma subst_pieces vars l tail :
  forallb (fun tp => placeholder_free (fst tp) && placeholder_ok (snd tp)) l = true ->
  placeholder_free tail = true ->
  subst vars (pieces_source (l, tail)) = pieces_rendered vars (l, tail).
Proof.
  intros Hl Ht. unfold pieces_source, pieces_rendered. simpl.
  induction l as [|[t p] l IH]; simpl.
  - now apply subst_text.
  - simpl in Hl. apply andb_prop in Hl as [Htp Hl].
    apply andb_prop in Htp as [Hfree Hok].
    now rewrite (subst_text_placeholder _ _ _ _ Hfree Hok), (IH Hl).
Qed.

Lemma renderTemplate_pieces vars ps :
  pieces_ok ps = true ->
  renderTemplate (Some (pieces_source ps)) (Some vars) = pieces_rendered vars ps.
Proof.
  destruct ps as [l tail]. intros H. unfold pieces_ok in H. simpl in H.
  apply andb_prop in H as [Hl Ht].
  pose proof (subst_pieces vars l tail Hl Ht) as Hs.
  unfold renderTemplate.
  destruct (pieces_source (l, tail)) as [|c r] eqn:E.
  - simpl. rewrite <- Hs. reflexivity.
  - simpl. exact Hs.
Qed.

Lemma pieces_rendered_expected vars ps :
  (forall key, In key (pieces_keys ps) -> leaks vars key = false) ->
  pieces_rendered vars ps = pieces_expected vars ps.
Proof.
  destruct ps as [l tail]. unfold pieces_keys, pieces_rendered, pieces_expected.
  cbn [fst snd]. induction l as [|[t p] l IH]; intros H; [reflexivity|].
  cbn [fold_right fst snd List.map] in *.
  rewrite (replacer_expected vars (ph_key p)) by (apply H; now left).
  rewrite IH by (intros key Hk; apply H; now right). reflexivity.
Qed.

(** C10. The plain substitution [renderTemplate]: an absent or empty input
    gives the empty string; without a variables object the input comes
    back unchanged; on an input cut into placeholder-free text and
    well-formed placeholders the text is kept and every placeholder is
    replaced by what the replacer returns for its key: the string value of
    an own property that is not null, the empty string for one that is
    null, and for a key the object does not carry the text of the member
    of [Object.prototype] of that name if there is one, the empty string
    otherwise.  So the output is what the claim expects whenever no missing
    key names such a member, and it is not for [{{constructor}}] with an
    empty object, which prints the function [Object]. *)
Theorem renderTemplate_substitutes :
  (forall vars, renderTemplate None vars = ""
                /\ renderTemplate (Some "") vars = "")
  /\ (forall input, renderTemplate (Some input) None = input)
  /\ (forall vars ps, pieces_ok ps = true ->
        renderTemplate (Some (pieces_source ps)) (Some vars)
        = pieces_rendered vars ps)
  /\ (forall vars key v, vars !! key = Some v -> v <> JNull ->
        replacer vars key = to_String v)
  /\ (forall vars key, vars !! key = Some JNull -> replacer vars key = "")
  /\ (forall vars key, vars !! key = None ->
        (inherited key = None -> replacer vars key = "")
        /\ (forall text, inherited key = Some text -> replacer vars key = text))
  /\ (forall key,
        inherited key <> None
        <-> key = "constructor" \/ key = "__proto__" \/ In key prototype_methods)
  /\ (forall vars ps, pieces_ok ps = true ->
        (forall key, In key (pieces_keys ps) -> leaks vars key = false) ->
        renderTemplate (Some (pieces_source ps)) (Some vars)
        = pieces_expected vars ps)
  /\ (pieces_ok constructor_pieces = true
      /\ pieces_source constructor_pieces = "{{constructor}}"
      /\ renderTemplate (Some "{{constructor}}") (Some ∅)
         = "function Object() { [native code] }"
      /\ pieces_expected ∅ constructor_pieces = "").
Proof.
  split; [|split; [|split; [|split; [|split; [|split; [|split; [|split]]]]]]].
  - intros vars. split; reflexivity.
  - intros [|c r]; reflexivity.
  - intros vars ps. apply renderTemplate_pieces.
  - intros vars key v E Hv. unfold replacer. rewrite E.
    destruct v; congruence.
  - intros vars key E. unfold replacer. now rewrite E.
  - intros vars key E. unfold replacer. rewrite E. split.
    + now intros ->.
    + now intros text ->.
  - intros key. unfold inherited.
    destruct (String.eqb key "constructor") eqn:Ec.
    { apply String.eqb_eq in Ec. split; [auto | discriminate]. }
    destruct (String.eqb key "__proto__") eqn:Ep.
    { apply String.eqb_eq in Ep. split; [auto | discriminate]. }
    apply String.eqb_neq in Ec, Ep.
    destruct (existsb (String.eqb key) prototype_methods) eqn:Em.
    + split; [|discriminate]. intros _. right. right.
      apply existsb_exists in Em as (x & Hx & E).
      apply String.eqb_eq in E. now subst.
    + split; [congruence|]. intros [H|[H|H]]; [contradiction | contradiction |].
      assert (Hex : existsb (String.eqb key) prototype_methods = true).
      { apply existsb_exists. exists key. split; [exact H | apply String.eqb_refl]. }
      congruence.
  - intros vars ps Hok Hkeys.
    rewrite (renderTemplate_pieces vars ps Hok).
    now apply pieces_rendered_expected.
  - repeat split.
Qed.

Example sample_pieces_source :
  pieces_source sample_pieces = "Hi {{ name}}, you are {{age }} {{a b}} {{{gone}}!".
Proof. reflexivity. Qed.

Lemma renderTemplate_substitutes_witness :
  pieces_ok sample_pieces = true
  /\ renderTemplate (Some (pieces_source sample_pieces)) (Some sample_vars)
     = "Hi Ann, you are 42 {{a b}} {!".
Proof.
  split; [reflexivity|].
  destruct renderTemplate_substitutes as (_ & _ & _ & _ & _ & _ & _ & H & _).
  rewrite (H sample_vars sample_pieces).
  - reflexivity.
  - reflexivity.
  - intros key [<-|[<-|[<-|[]]]]; reflexivity.
Defined.

End LegacyFacts.

(* ===================================================================== *)
(** * The render cache and the renderer                                   *)
(* ===================================================================== *)

Module RendererFacts.
Import Js Renderer.

Lemma no_underscore_app a b :
  no_underscore (a ++ b) = no_underscore a && no_underscore b.
Proof.
  unfold no_underscore. induction a as [|c a IH]; [reflexivity|].
  rewrite StringFacts.app_cons. simpl. rewrite IH. now rewrite andb_assoc.
Qed.

Lemma pretty_N_go_no_underscore x s :
  no_underscore s = true -> no_underscore (pretty_N_go x s) = true.
Proof.
  revert s. induction (N.lt_wf_0 x) as [x _ IH]. intros s Hs.
  assert (x = 0 ∨ 0 < x)%N as [->|Hx] by lia.
  - now rewrite pretty_N_go_0.
  - rewrite pretty_N_go_step by done. apply IH.
    + by apply N.div_lt.
    + unfold no_underscore in *. cbn [all_chars]. rewrite Hs.
      unfold pretty_N_char. by repeat case_match.
Qed.

Lemma pretty_Z_no_underscore (z : Z) : no_underscore (pretty z) = true.
Proof.
  assert (HN : forall n : N, no_underscore (pretty n) = true).
  { intros n. unfold pretty, pretty_N. case_decide; [reflexivity|].
    now apply pretty_N_go_no_underscore. }
  destruct z as [|p|p]; [reflexivity | apply (HN (Npos p)) |].
  unfold pretty, pretty_Z. rewrite no_underscore_app.
  change (pretty p) with (pretty (Npos p)). now rewrite HN.
Qed.

(** Identifiers without an underscore are told apart by the key prefix. *)
Lemma prefix_id_inj a b rest :
  no_underscore a = true -> no_underscore b = true ->
  startsWith (a ++ "_") (b ++ "_" ++ rest) = true -> a = b.
Proof.
  unfold no_underscore.
  revert b. induction a as [|x a IH]; intros [|y b] Ha Hb H.
  - reflexivity.
  - rewrite StringFacts.app_nil_l, StringFacts.app_cons in H.
    cbn [startsWith] in H. apply andb_prop in H as [H _].
    cbn [all_chars] in Hb. apply andb_prop in Hb as [Hb _].
    rewrite Ascii.eqb_sym, H in Hb. discriminate.
  - rewrite StringFacts.app_cons, StringFacts.app_nil_l in H.
    cbn [startsWith] in H. apply andb_prop in H as [H _].
    cbn [all_chars] in Ha. apply andb_prop in Ha as [Ha _].
    rewrite H in Ha. discriminate.
  - rewrite !StringFacts.app_cons in H. cbn [startsWith] in H.
    apply andb_prop in H as [Hxy H]. apply Ascii.eqb_eq in Hxy as ->.
    cbn [all_chars] in Ha, Hb.
    apply andb_prop in Ha as [_ Ha]. apply andb_prop in Hb as [_ Hb].
    f_equal. now apply IH.
Qed.

Lemma key_prefix_iff (tid tid' ver : Z) (h : string) :
  startsWith ("template_" ++ pretty tid ++ "_")
                (getCacheKey (pretty tid') ver h) = true
  <-> tid = tid'.
Proof.
  unfold getCacheKey. rewrite StringFacts.startsWith_app. split.
  - intros H. apply (inj pretty).
    change ("_v" ++ pretty ver ++ "_" ++ h) with ("_" ++ ("v" ++ pretty ver ++ "_" ++ h)) in H.
    eapply prefix_id_inj; eauto using pretty_Z_no_underscore.
  - intros <-. rewrite StringFacts.startsWith_app. reflexivity.
Qed.

Lemma lookup_invalidate (c : Cache) (templateId k : string) :
  invalidateTemplateCache c templateId !! k
  = if startsWith ("template_" ++ templateId ++ "_") k then None else c !! k.
Proof.
  unfold invalidateTemplateCache.
  destruct (startsWith _ k) eqn:E.
  - apply map_lookup_filter_None. right. intros x _ Hc. cbn [fst] in Hc. congruence.
  - destruct (c !! k) as [e|] eqn:Ek.
    + apply map_lookup_filter_Some. split; [exact Ek | exact E].
    + apply map_lookup_filter_None. now left.
Qed.

(** C8. Invalidating the cache for a template identifier removes every
    entry whose key was built for that identifier, whatever its version and
    data hash, and leaves every entry built for another identifier as it
    was. *)
Theorem invalidateTemplateCache_scoped (c : Cache) (tid tid' ver : Z) (h : string) :
  invalidateTemplateCache c (pretty tid) !! getCacheKey (pretty tid') ver h
  = if decide (tid = tid') then None else c !! getCacheKey (pretty tid') ver h.
Proof.
  rewrite lookup_invalidate.
  destruct (startsWith _ _) eqn:E.
  - apply key_prefix_iff in E. now rewrite decide_True.
  - rewrite decide_False; [reflexivity|].
    intros Heq. apply (key_prefix_iff tid tid' ver h) in Heq. congruence.
Qed.

(** C9. The data hash depends on the order of the keys: two objects with
    the same properties in a different order hash differently, so a render
    of the second finds no entry left by a render of the first; and two data
    values with the same serialized form always hash the same. *)
Theorem generateDataHash_order_sensitive :
  (properties data_ab ≡ₚ properties data_ba
   /\ generateDataHash data_ab <> generateDataHash data_ba)
  /\ (forall E (c : Cache) now rec v out c1 tr,
        c !! render_key rec data_ba v = None ->
        renderTemplate E c now rec data_ab v = (out, c1, tr) ->
        fst (cache_get c1 now (render_key rec data_ba v)) = None)
  /\ (forall d1 d2, stringify d1 = stringify d2 ->
        generateDataHash d1 = generateDataHash d2).
Proof.
  assert (Hne : generateDataHash data_ab <> generateDataHash data_ba)
    by (vm_compute; discriminate).
  split; [split; [apply Permutation_swap | exact Hne]|]. split.
  - intros E c now rec v out c1 tr Hc H.
    assert (Hk : render_key rec data_ab v <> render_key rec data_ba v).
    { unfold render_key, getCacheKey. intros Heq.
      do 5 apply StringFacts.app_cancel_l in Heq. auto. }
    assert (Hc1 : c1 !! render_key rec data_ba v = None).
    { unfold renderTemplate, cache_get in H.
      destruct (c !! render_key rec data_ab v) as [e|];
        [destruct (expires e <? now)|];
        repeat (match type of H with
                | context [match ?x with _ => _ end] => destruct x
                end);
        injection H as <- <- <-; unfold cache_set;
        rewrite ?lookup_insert_ne, ?lookup_delete_ne by exact Hk; exact Hc. }
    unfold cache_get. now rewrite Hc1.
  - intros d1 d2 H. unfold generateDataHash. now rewrite H.
Qed.

(** ** Rendering twice *)

Lemma cache_get_hit (c : Cache) now k e :
  c !! k = Some e -> now <= expires e ->
  cache_get c now k = (Some (value e), c).
Proof.
  intros Hk Hle. unfold cache_get. rewrite Hk.
  destruct (expires e <? now) eqn:E; [lia | reflexivity].
Qed.

(** A call that returns leaves its result in the cache under the key. *)
Lemma renderTemplate_caches E (c : Cache) now rec data v r c1 tr :
  renderTemplate E c now rec data v = (inr r, c1, tr) ->
  exists e, c1 !! render_key rec data v = Some e /\ value e = r.
Proof.
  unfold renderTemplate, cache_get.
  destruct (c !! render_key rec data v) as [e|] eqn:Ek.
  - destruct (expires e <? now) eqn:Ex.
    + repeat (match goal with
              | |- context [match ?x with _ => _ end] => destruct x
              end); intros H; try discriminate;
        injection H as <- <- <-; eexists; unfold cache_set;
        rewrite lookup_insert_eq; split; reflexivity.
    + intros H. injection H as <- <- <-. exists e. auto.
  - repeat (match goal with
            | |- context [match ?x with _ => _ end] => destruct x
            end); intros H; try discriminate;
      injection H as <- <- <-; eexists; unfold cache_set;
      rewrite lookup_insert_eq; split; reflexivity.
Qed.

(** A call that compiled stored its result for the standard time to live. *)
Lemma renderTemplate_fresh_entry E (c : Cache) now rec data v r c1 tr :
  renderTemplate E c now rec data v = (inr r, c1, tr) -> tr <> [] ->
  c1 !! render_key rec data v
  = Some {| value := r; expires := now + 3600000 |}.
Proof.
  unfold renderTemplate, cache_get.
  destruct (c !! render_key rec data v) as [e|] eqn:Ek;
    [destruct (expires e <? now) eqn:Ex|];
    repeat (match goal with
            | |- context [match ?x with _ => _ end] => destruct x
            end); intros H Htr; try discriminate;
    injection H as <- <- <-; try congruence;
    unfold cache_set; rewrite lookup_insert_eq; reflexivity.
Qed.

(** A call that fails stored nothing: the same call made again compiles
    again and fails the same way. *)
Lemma renderTemplate_failure_repeats E (c : Cache) t1 t2 rec data v msg c1 tr :
  renderTemplate E c t1 rec data v = (inl msg, c1, tr) ->
  renderTemplate E c1 t2 rec data v = (inl msg, c1, tr).
Proof.
  intros H.
  assert (Hmiss : c1 !! render_key rec data v = None
                  /\ cache_get c t1 (render_key rec data v) = (None, c1)).
  { unfold renderTemplate in H. unfold cache_get in *.
    destruct (c !! render_key rec data v) as [e|] eqn:Ek.
    - destruct (expires e <? t1).
      + assert (c1 = delete (render_key rec data v) c) as ->.
        { repeat (match type of H with
                  | context [match ?x with _ => _ end] => destruct x
                  end); congruence. }
        split; [apply lookup_delete_eq | reflexivity].
      + discriminate.
    - assert (c1 = c) as ->.
      { repeat (match type of H with
                | context [match ?x with _ => _ end] => destruct x
                end); congruence. }
      auto. }
  destruct Hmiss as [Hnone Hget].
  unfold renderTemplate in *. rewrite Hget in H.
  unfold cache_get at 1. rewrite Hnone.
  destruct (compileTemplate E (subject_template rec) data); [exact H|].
  destruct (compileTemplate E (content rec) data); [exact H|].
  destruct (if String.eqb (engine rec) "mjml" then _ else _); [exact H|].
  destruct (generatePlainText _ _ _ _). discriminate H.
Qed.

(** A call that fails has compiled something and stored nothing. *)
Lemma renderTemplate_failure_stores_nothing E (c : Cache) t1 rec data v msg c1 tr :
  renderTemplate E c t1 rec data v = (inl msg, c1, tr) ->
  c1 !! render_key rec data v = None /\ tr <> [].
Proof.
  unfold renderTemplate, cache_get.
  destruct (c !! render_key rec data v) as [e|] eqn:Ek;
    [destruct (expires e <? t1) eqn:Ex|];
    repeat (match goal with
            | |- context [match ?x with _ => _ end] => destruct x
            end); intros H; try discriminate;
    injection H as _ <- <-;
    (split; [first [apply lookup_delete_eq | exact Ek] | discriminate]).
Qed.

(** C5. Two calls of [renderTemplate] with the same record, data and
    version hint, the second made while the cached entry has not expired,
    give the same outcome and leave the cache as the first call left it.
    When that outcome is a result, the first call has left it in the cache
    under the key of the record and the data, and the second call is
    answered from that entry: it returns the stored result and hands
    nothing to the compile step whatever the libraries would render by
    then.  A call that throws has compiled and stored nothing. *)
Theorem renderTemplate_twice E (c : Cache) t1 t2 rec data v out c1 tr :
  renderTemplate E c t1 rec data v = (out, c1, tr) ->
  unexpired c1 (render_key rec data v) t2 ->
  (exists tr2,
     renderTemplate E c1 t2 rec data v = (out, c1, tr2)
     /\ (forall r, out = inr r -> tr2 = []))
  /\ (forall r, out = inr r ->
        (exists e, c1 !! render_key rec data v = Some e /\ value e = r)
        /\ forall E2, renderTemplate E2 c1 t2 rec data v = (inr r, c1, []))
  /\ (forall msg, out = inl msg ->
        c1 !! render_key rec data v = None /\ tr <> []).
Proof.
  intros H1 Hlive. destruct out as [msg|r].
  - split; [|split].
    + exists tr. split; [|discriminate].
      exact (renderTemplate_failure_repeats _ _ _ _ _ _ _ _ _ _ H1).
    + discriminate.
    + intros msg' [= <-].
      exact (renderTemplate_failure_stores_nothing _ _ _ _ _ _ _ _ _ H1).
  - destruct (renderTemplate_caches _ _ _ _ _ _ _ _ _ H1) as (e & He & <-).
    assert (Hhit : forall E2,
              renderTemplate E2 c1 t2 rec data v = (inr (value e), c1, [])).
    { intros E2. unfold renderTemplate.
      rewrite (cache_get_hit _ _ _ _ He (Hlive _ He)). reflexivity. }
    split; [|split].
    + exists []. split; [apply Hhit | reflexivity].
    + intros r [= <-]. split; [exists e; auto | exact Hhit].
    + discriminate.
Qed.

Lemma renderTemplate_twice_witness :
  (exists tr2,
     renderTemplate demo_engine
       (snd (fst (renderTemplate demo_engine ∅ 0 demo_record demo_data None)))
       1000 demo_record demo_data None
     = (inr {| html := "<div>Hello World!</div>"; text := "Hello World!";
               subject := "Hello World" |},
        snd (fst (renderTemplate demo_engine ∅ 0 demo_record demo_data None)),
        tr2)
     /\ (forall r : RenderResult,
           @inr string RenderResult
             {| html := "<div>Hello World!</div>"; text := "Hello World!";
                subject := "Hello World" |} = inr r -> tr2 = []))
  /\ (forall r : RenderResult,
        @inr string RenderResult
          {| html := "<div>Hello World!</div>"; text := "Hello World!";
             subject := "Hello World" |} = inr r ->
        (exists e,
           snd (fst (renderTemplate demo_engine ∅ 0 demo_record demo_data None))
             !! render_key demo_record demo_data None = Some e
           /\ value e = r)
        /\ forall E2,
             renderTemplate E2
               (snd (fst (renderTemplate demo_engine ∅ 0 demo_record demo_data None)))
               1000 demo_record demo_data None
             = (inr r,
                snd (fst (renderTemplate demo_engine ∅ 0 demo_record demo_data None)),
                []))
  /\ (forall msg : string,
        @inr string RenderResult
          {| html := "<div>Hello World!</div>"; text := "Hello World!";
             subject := "Hello World" |} = inl msg ->
        snd (fst (renderTemplate demo_engine ∅ 0 demo_record demo_data None))
          !! render_key demo_record demo_data None = None
        /\ ["Hello {{name}}"; "<div>Hello {{name}}!</div>"; "Hello {{name}}!"]
           <> []).
Proof.
  apply (renderTemplate_twice demo_engine ∅ 0 1000 demo_record demo_data None
           (inr {| html := "<div>Hello World!</div>"; text := "Hello World!";
                   subject := "Hello World" |}) _
           ["Hello {{name}}"; "<div>Hello {{name}}!</div>"; "Hello {{name}}!"]).
  - vm_compute. reflexivity.
  - intros e He. vm_compute in He. injection He as <-. vm_compute. discriminate.
Defined.

End RendererFacts.

(* ===================================================================== *)
(** * The template store                                                  *)
(* ===================================================================== *)

Module StoreFacts.
Import Js Store.

Lemma latest_In rs r : latest rs = Some r -> In r rs.
Proof.
  revert r. induction rs as [|x rs IH]; intros r H; [discriminate|].
  simpl in H. destruct (latest rs) as [r1|].
  - destruct (version x <? version r1); injection H as <-; [right|left]; auto.
  - injection H as <-. now left.
Qed.

Lemma latest_max rs r :
  latest rs = Some r -> forall r', In r' rs -> version r' <= version r.
Proof.
  revert r. induction rs as [|x rs IH]; intros r H r' Hin; [destruct Hin|].
  simpl in H. destruct (latest rs) as [r1|] eqn:E.
  - specialize (IH r1 eq_refl).
    destruct (version x <? version r1) eqn:Ev; injection H as <-;
      destruct Hin as [<-|Hin]; try lia; try (specialize (IH _ Hin); lia).
  - injection H as <-. destruct rs; [|simpl in E; destruct (latest rs);
      [destruct (_ <? _)|]; discriminate].
    destruct Hin as [<-|[]]. lia.
Qed.

Lemma latest_None rs : latest rs = None <-> rs = [].
Proof.
  split; [|intros ->; reflexivity].
  destruct rs as [|x rs]; [reflexivity|]. simpl.
  destruct (latest rs); [destruct (_ <? _)|]; discriminate.
Qed.

Lemma selects_spec tenantId slug0 r :
  selects tenantId slug0 r = true
  <-> tenant_id r = tenantId /\ slug r = slug0 /\ is_active r = true.
Proof.
  unfold selects. rewrite !andb_true_iff, Z.eqb_eq, String.eqb_eq. tauto.
Qed.


(** The rows the pinned query keeps, when it runs. *)
Lemma In_pin v rs l r :
  pin v rs = inr l ->
  In r l <-> In r rs /\ (forall n, v = Some n -> n <> 0 -> version r = n).
Proof.
  unfold pin. destruct v as [n|].
  - unfold truthy_num. destruct (n =? 0) eqn:E; cbn [negb].
    + apply Z.eqb_eq in E. intros [= <-]. split; [|tauto]. intros H.
      split; [exact H|]. intros m [= <-]. congruence.
    + apply Z.eqb_neq in E. destruct (int4 n); [|discriminate].
      intros [= <-]. rewrite filter_In, Z.eqb_eq. split.
      * intros [H1 H2]. split; [exact H1|]. intros m [= <-] _. exact H2.
      * intros [H1 H2]. split; [exact H1|]. now apply H2.
  - intros [= <-]. split; [|tauto]. intros H. split; [exact H|]. discriminate.
Qed.



Lemma In_candidates tbl tenantId slug0 v l r :
  pin v (List.filter (selects tenantId slug0) tbl) = inr l ->
  In r l <-> In r tbl /\ candidate tenantId slug0 v r.
Proof.
  intros H. rewrite (In_pin _ _ _ r H), filter_In, selects_spec.
  unfold candidate. tauto.
Qed.

Lemma resolve_row_Some tbl tenantId slug0 v r :
  resolve_row tbl tenantId slug0 v = inr (Some r) ->
  In r tbl /\ candidate tenantId slug0 v r
  /\ (forall r', In r' tbl -> candidate tenantId slug0 v r' ->
        version r' <= version r).
Proof.
  unfold resolve_row.
  destruct (pin v (List.filter (selects tenantId slug0) tbl)) as [e|l] eqn:Ep;
    [discriminate|].
  intros [= H].
  pose proof (latest_In _ _ H) as Hin.
  apply (In_candidates _ _ _ _ _ _ Ep) in Hin as [Hin Hc].
  split; [exact Hin|]. split; [exact Hc|].
  intros r' Hin' Hc'. apply (latest_max _ _ H).
  apply (In_candidates _ _ _ _ _ _ Ep). tauto.
Qed.



(** Among rows of one version the latest is the first. *)
Lemma latest_same_version n rs :
  (forall r, In r rs -> version r = n) -> latest rs = head rs.
Proof.
  destruct rs as [|x rs]; [reflexivity|]. intros H. cbn [latest head].
  destruct (latest rs) as [r1|] eqn:E; [|reflexivity].
  apply latest_In in E.
  rewrite (H x) by (now left). rewrite (H r1) by (now right).
  now rewrite Z.ltb_irrefl.
Qed.

(** [getTemplate] answers as the resolution query does. *)
Lemma getTemplate_resolve_row tbl tenantId slug0 v :
  getTemplate tbl tenantId slug0 v
  = match resolve_row tbl tenantId slug0 v with
    | inl e => inl (pg_error e)
    | inr (Some r) => inr r
    | inr None =>
        inl (app_error {| message := "Template not found"; statusCode := 404 |})
    end.
Proof.
  unfold getTemplate, resolve_row.
  destruct v as [n|]; [|reflexivity].
  destruct (truthy_num n) eqn:En.
  - destruct (pin (Some n) (List.filter (selects tenantId slug0) tbl))
      as [e|l] eqn:Ep; [reflexivity|].
    rewrite (latest_same_version n l); [reflexivity|].
    intros r Hr. apply (In_pin _ _ _ r Ep) in Hr as [_ Hv].
    apply Hv; [reflexivity|].
    unfold truthy_num in En. apply negb_true_iff, Z.eqb_neq in En. exact En.
  - unfold pin. rewrite En. reflexivity.
Qed.



(** ** deleteTemplate *)

Lemma filter_selects_deactivated tenantId slug0 now templateId tbl :
  List.filter (selects tenantId slug0)
              (update_where_id templateId (deactivate now) tbl)
  = List.filter (selects tenantId slug0)
                (List.filter (fun r => negb (id r =? templateId)) tbl).
Proof.
  unfold update_where_id. induction tbl as [|r tbl IH]; [reflexivity|].
  cbn [List.map List.filter]. destruct (id r =? templateId); cbn [negb].
  - replace (selects tenantId slug0 (deactivate now r)) with false.
    + exact IH.
    + unfold selects, deactivate. cbn. now rewrite andb_false_r.
  - cbn [List.filter]. now rewrite IH.
Qed.

Lemma Forall2_map_r {A B} (P : A -> B -> Prop) (f : A -> B) (l : list A) :
  (forall x, In x l -> P x (f x)) -> Forall2 P l (List.map f l).
Proof.
  induction l as [|x l IH]; intros H; simpl; constructor.
  - apply H. now left.
  - apply IH. intros y Hy. apply H. now right.
Qed.

(** C6 (amended). A delete that succeeds removes no row: the rows are the
    same in number and order, each keeps everything but its active flag and
    update time, and exactly the rows of the deleted identifier become
    inactive.  Afterwards no resolution, with or without a version,
    returns the deleted identifier, and every resolution answers as if the
    deleted rows were absent from the table. *)
Theorem deleteTemplate_soft (db : Db) (c : Renderer.Cache) (now templateId : Z)
    (db' : Db) (c' : Renderer.Cache) :
  deleteTemplate db c now templateId = (inr tt, db', c') ->
  Forall2 (fun r r1 => same_history r r1
             /\ is_active r1 = is_active r && negb (id r =? templateId))
          (rows db) (rows db')
  /\ (forall tenantId slug0 v,
        resolve_row (rows db') tenantId slug0 v
        = resolve_row (List.filter (fun r => negb (id r =? templateId)) (rows db))
            tenantId slug0 v)
  /\ (forall tenantId slug0 v rec,
        resolveTemplate (rows db') tenantId slug0 v = inr (Some rec) ->
        Renderer.id rec <> pretty templateId).
Proof.
  unfold deleteTemplate.
  destruct (List.filter _ (rows db)) as [|r0 rs]; [discriminate|].
  intros H. injection H as <- <-. cbn [rows].
  assert (Hres : forall tenantId slug0 v,
        resolve_row (update_where_id templateId (deactivate now) (rows db))
          tenantId slug0 v
        = resolve_row (List.filter (fun r => negb (id r =? templateId)) (rows db))
            tenantId slug0 v).
  { intros. unfold resolve_row. now rewrite filter_selects_deactivated. }
  split; [|split; [exact Hres|]].
  - apply Forall2_map_r. intros r _.
    destruct (id r =? templateId); cbn [negb].
    + rewrite andb_false_r. unfold same_history, same_version_data, deactivate.
      cbn. tauto.
    + rewrite andb_true_r. unfold same_history, same_version_data. tauto.
  - intros tenantId slug0 v rec H. unfold resolveTemplate in H.
    rewrite Hres in H.
    destruct (resolve_row _ tenantId slug0 v) as [e|[r|]] eqn:E;
      try discriminate.
    injection H as <-. apply resolve_row_Some in E as (Hin & _).
    apply filter_In in Hin as [_ Hid]. apply negb_true_iff, Z.eqb_neq in Hid.
    cbn. intros Heq. apply (inj pretty) in Heq. contradiction.
Qed.

Lemma deleteTemplate_soft_witness :
  Forall2 (fun r r1 => same_history r r1
             /\ is_active r1 = is_active r && negb (id r =? 1))
          (rows demo_db) [deactivate 5 demo_row]
  /\ (forall tenantId slug0 v,
        resolve_row [deactivate 5 demo_row] tenantId slug0 v
        = resolve_row (List.filter (fun r => negb (id r =? 1)) (rows demo_db))
            tenantId slug0 v)
  /\ (forall tenantId slug0 v rec,
        resolveTemplate [deactivate 5 demo_row] tenantId slug0 v = inr (Some rec) ->
        Renderer.id rec <> pretty 1).
Proof.
  apply (deleteTemplate_soft demo_db ∅ 5 1
           {| rows := [deactivate 5 demo_row]; next_id := 2 |} ∅).
  reflexivity.
Defined.

(** After the delete the row is still in the table, and the lookup pinned
    to its version finds nothing. *)
Lemma deleteTemplate_pinned_lookup :
  deleteTemplate demo_db ∅ 5 1
  = (inr tt, {| rows := [deactivate 5 demo_row]; next_id := 2 |}, ∅)
  /\ version (deactivate 5 demo_row) = 1
  /\ resolveTemplate [deactivate 5 demo_row] 7 "welcome" (Some 1) = inr None.
Proof. repeat split. Qed.

(** ** updateTemplate *)

Lemma fold_max_ge (vs : list Z) (v : Z) :
  v <= fold_left Z.max vs v
  /\ forall x, In x vs -> x <= fold_left Z.max vs v.
Proof.
  revert v. induction vs as [|y vs IH]; intros v; simpl.
  - split; [lia | tauto].
  - destruct (IH (Z.max v y)) as [H1 H2]. split; [lia|].
    intros x [<-|Hx]; [lia | auto].
Qed.

Lemma fold_max_In (vs : list Z) (v : Z) :
  fold_left Z.max vs v = v \/ In (fold_left Z.max vs v) vs.
Proof.
  revert v. induction vs as [|y vs IH]; intros v; simpl; [now left|].
  destruct (IH (Z.max v y)) as [H|H]; [|now right; right].
  rewrite H. destruct (Z.max_spec v y) as [[_ ->]|[_ ->]]; [right|]; auto.
Qed.

Lemma max_version_spec (vs : list Z) :
  vs <> [] ->
  In (max_version vs) vs /\ forall x, In x vs -> x <= max_version vs.
Proof.
  destruct vs as [|v vs]; [congruence|]. intros _. unfold max_version.
  destruct (fold_max_ge vs v) as [H1 H2]. split.
  - destruct (fold_max_In vs v) as [->|H]; [now left | now right].
  - intros x [<-|Hx]; auto.
Qed.

(** The next version is one more than the highest version the tenant and
    slug have, whenever they have a row. *)
Lemma next_version_spec tbl tenantId slug0 cur :
  In cur tbl -> tenant_id cur = tenantId -> slug cur = slug0 ->
  (exists r, In r tbl /\ tenant_id r = tenantId /\ slug r = slug0
             /\ next_version tbl tenantId slug0 = version r + 1)
  /\ (forall r, In r tbl -> tenant_id r = tenantId -> slug r = slug0 ->
        version r < next_version tbl tenantId slug0).
Proof.
  intros Hin Ht Hs. unfold next_version.
  set (sel := fun r => (tenant_id r =? tenantId) && String.eqb (slug r) slug0).
  assert (Hsel : forall r, In r (List.filter sel tbl)
                   <-> In r tbl /\ tenant_id r = tenantId /\ slug r = slug0).
  { intros r. rewrite filter_In. unfold sel.
    rewrite andb_true_iff, Z.eqb_eq, String.eqb_eq. tauto. }
  assert (Hne : List.map version (List.filter sel tbl) <> []).
  { assert (H : In (version cur) (List.map version (List.filter sel tbl))).
    { apply in_map, Hsel. tauto. }
    intros E. rewrite E in H. destruct H. }
  destruct (max_version_spec _ Hne) as [Hmax Hle]. split.
  - apply in_map_iff in Hmax as (r & Hv & Hr). apply Hsel in Hr.
    exists r. rewrite Hv. tauto.
  - intros r Hr Hrt Hrs.
    assert (H : version r <= max_version (List.map version (List.filter sel tbl))).
    { apply Hle, in_map, Hsel. tauto. }
    lia.
Qed.

(** C4 (amended). An update that is accepted creates a version exactly when
    it sets the content or the engine.  Then one row is appended for the
    same tenant and slug, its version one more than the highest version of
    that tenant and slug, and every existing row stays as it was.
    Otherwise no row is added: rows of other identifiers stay as they
    were, and the addressed row keeps its identifier, tenant, slug, engine,
    content and version while its name, subject, plain text and active flag
    are overwritten in place by the fields the request carries. *)
Theorem updateTemplate_versioning (db : Db) (c : Renderer.Cache)
    (now templateId : Z) (u : UpdateTemplateRequest) (created : bool)
    (db' : Db) (c' : Renderer.Cache) :
  updateTemplate db c now templateId u = (inr created, db', c') ->
  created = isVersionUpdate u
  /\ (created = true ->
        exists cur new,
          In cur (rows db) /\ id cur = templateId
          /\ rows db' = (rows db ++ [new])%list
          /\ tenant_id new = tenant_id cur /\ slug new = slug cur
          /\ (exists r, In r (rows db) /\ tenant_id r = tenant_id cur
                        /\ slug r = slug cur /\ version new = version r + 1)
          /\ (forall r, In r (rows db) -> tenant_id r = tenant_id cur ->
                slug r = slug cur -> version r < version new))
  /\ (created = false ->
        Forall2 (fun r r1 =>
                   same_version_data r r1
                   /\ (id r <> templateId -> r1 = r)
                   /\ (id r = templateId ->
                         name r1 = given (upd_name u) (name r)
                         /\ subject_template r1
                            = given (upd_subjectTemplate u) (subject_template r)
                         /\ plaintext_template r1
                            = match upd_plaintextTemplate u with
                              | Some p => if truthy_string p then Some p else None
                              | None => plaintext_template r
                              end
                         /\ is_active r1 = given (upd_isActive u) (is_active r)))
                (rows db) (rows db')).
Proof.
  unfold updateTemplate.
  destruct (List.filter (fun r => id r =? templateId) (rows db))
    as [|cur rest] eqn:Ef; [discriminate|].
  assert (Hcur : In cur (rows db) /\ id cur = templateId).
  { assert (H : In cur (List.filter (fun r => id r =? templateId) (rows db)))
      by (rewrite Ef; now left).
    apply filter_In in H as [H1 H2]. apply Z.eqb_eq in H2. tauto. }
  destruct (validate u); [discriminate|].
  destruct (isVersionUpdate u) eqn:Ev; intros H; injection H as <- <- <-;
    (split; [reflexivity|]); (split; [|]); try discriminate; intros _.
  - destruct Hcur as [Hin Hid].
    destruct (next_version_spec (rows db) (tenant_id cur) (slug cur) cur Hin
                eq_refl eq_refl) as [Hex Hlt].
    exists cur, (new_version_row db now cur u). cbn [rows].
    do 5 (split; [first [assumption | reflexivity]|]).
    split; [exact Hex | exact Hlt].
  - cbn [rows]. unfold update_where_id. apply Forall2_map_r. intros r _.
    unfold isVersionUpdate in Ev. apply orb_false_iff in Ev as [Ec Ee].
    destruct (upd_content u) eqn:E1; [discriminate|].
    destruct (upd_engine u) eqn:E2; [discriminate|].
    destruct (id r =? templateId) eqn:Eid.
    + apply Z.eqb_eq in Eid. unfold same_version_data, apply_updates, given.
      cbn. rewrite E1, E2. repeat split; try reflexivity; try congruence.
    + apply Z.eqb_neq in Eid. unfold same_version_data.
      repeat split; try reflexivity; try congruence.
Qed.

Lemma updateTemplate_versioning_witness :
  true = isVersionUpdate content_only
  /\ (true = true ->
        exists cur new,
          In cur (rows demo_db) /\ id cur = 1
          /\ (rows demo_db ++ [new_version_row demo_db 5 demo_row content_only])%list
             = (rows demo_db ++ [new])%list
          /\ tenant_id new = tenant_id cur /\ slug new = slug cur
          /\ (exists r, In r (rows demo_db) /\ tenant_id r = tenant_id cur
                        /\ slug r = slug cur /\ version new = version r + 1)
          /\ (forall r, In r (rows demo_db) -> tenant_id r = tenant_id cur ->
                slug r = slug cur -> version r < version new))
  /\ (true = false ->
        Forall2 (fun r r1 =>
                   same_version_data r r1
                   /\ (id r <> 1 -> r1 = r)
                   /\ (id r = 1 ->
                         name r1 = given (upd_name content_only) (name r)
                         /\ subject_template r1
                            = given (upd_subjectTemplate content_only)
                                (subject_template r)
                         /\ plaintext_template r1
                            = match upd_plaintextTemplate content_only with
                              | Some p => if truthy_string p then Some p else None
                              | None => plaintext_template r
                              end
                         /\ is_active r1
                            = given (upd_isActive content_only) (is_active r)))
                (rows demo_db)
                (rows demo_db ++ [new_version_row demo_db 5 demo_row content_only])%list).
Proof.
  apply (updateTemplate_versioning demo_db ∅ 5 1 content_only true
           {| rows := (rows demo_db ++ [new_version_row demo_db 5 demo_row content_only])%list;
              next_id := 3 |} ∅).
  reflexivity.
Defined.

(** An update that carries only a new subject adds no row and overwrites
    the subject of the existing version. *)
Lemma updateTemplate_subject_in_place :
  upd_content subject_only = None /\ upd_engine subject_only = None
  /\ subject_template demo_row = "Hi {{name}}"
  /\ exists r1,
       updateTemplate demo_db ∅ 5 1 subject_only
       = (inr false, {| rows := [r1]; next_id := 2 |}, ∅)
       /\ id r1 = 1 /\ version r1 = 1
       /\ subject_template r1 = "New subject".
Proof.
  do 3 (split; [reflexivity|]). eexists. repeat split.
Qed.

End StoreFacts.

(* ===================================================================== *)
(** * The dispatch pipeline                                               *)
(* ===================================================================== *)

Module DispatchFacts.
Import Js Dispatch.

Section RetryLoop.
Variable env : Env.
Variable transport : Transport.
Variable m : MailOptions.

(** What the loop has done when it stops after [k] calls that began at
    [attempt]. *)
Lemma send_loop_spec (fuel : nat) (attempt : Z) (le : option SendError)
    info lastError evs :
  RETRY_MAX_ATTEMPTS env - attempt + 1 <= Z.of_nat fuel ->
  send_loop env transport m fuel attempt le = (info, lastError, evs) ->
  exists k : nat,
    Z.of_nat k <= Z.max 0 (RETRY_MAX_ATTEMPTS env - attempt + 1)
    /\ evs = schedule env m k attempt
    /\ (forall j : nat, (j + 1 < k)%nat ->
          exists e, transport (attempt + Z.of_nat j) m = inl e
                    /\ shouldRetry env e = true)
    /\ (k = O -> info = None /\ lastError = le
                 /\ RETRY_MAX_ATTEMPTS env < attempt)
    /\ (k <> O ->
          match transport (attempt + Z.of_nat k - 1) m with
          | inr mid => info = Some mid /\ lastError = None
          | inl e => info = None /\ lastError = Some e
                     /\ (RETRY_MAX_ATTEMPTS env <= attempt + Z.of_nat k - 1
                         \/ shouldRetry env e = false)
          end).
Proof.
  revert attempt le info lastError evs.
  induction fuel as [|f IH]; intros attempt le info lastError evs Hfuel H.
  - simpl in H. injection H as <- <- <-. exists O.
    split; [lia|]. split; [reflexivity|]. split; [intros; lia|].
    split; [intros _; repeat split; lia | congruence].
  - cbn [send_loop] in H.
    destruct (RETRY_MAX_ATTEMPTS env <? attempt) eqn:Ecmp.
    { injection H as <- <- <-. exists O.
      split; [lia|]. split; [reflexivity|]. split; [intros; lia|].
      split; [intros _; repeat split; lia | congruence]. }
    apply Z.ltb_ge in Ecmp.
    destruct (transport attempt m) as [err|mid] eqn:Et.
    + destruct ((RETRY_MAX_ATTEMPTS env <=? attempt) || negb (shouldRetry env err))
        eqn:Estop.
      * injection H as <- <- <-. exists 1%nat.
        split; [lia|]. split; [reflexivity|]. split; [intros; lia|].
        split; [congruence|]. intros _.
        replace (attempt + Z.of_nat 1 - 1) with attempt by lia. rewrite Et.
        split; [reflexivity|]. split; [reflexivity|].
        apply orb_true_iff in Estop as [Hle|Hno].
        -- left. apply Z.leb_le in Hle. lia.
        -- right. now apply negb_true_iff.
      * apply orb_false_iff in Estop as [Hlt Hretry].
        apply Z.leb_gt in Hlt. apply negb_false_iff in Hretry.
        destruct (send_loop env transport m f (attempt + 1) (Some err))
          as [[info1 le1] evs1] eqn:Erec.
        injection H as <- <- <-.
        assert (Hf : RETRY_MAX_ATTEMPTS env - (attempt + 1) + 1 <= Z.of_nat f)
          by lia.
        destruct (IH (attempt + 1) (Some err) info1 le1 evs1 Hf Erec)
          as (k & Hk & Hevs & Hbefore & Hzero & Hlast).
        destruct k as [|k1].
        { destruct (Hzero eq_refl) as (_ & _ & Habs). lia. }
        exists (S (S k1)).
        split; [lia|]. split; [cbn [schedule]; now rewrite Hevs|].
        split.
        { intros [|j] Hj.
          - exists err. rewrite Z.add_0_r. auto.
          - destruct (Hbefore j ltac:(lia)) as (e & He & Hr).
            exists e. split; [|exact Hr].
            replace (attempt + Z.of_nat (S j)) with (attempt + 1 + Z.of_nat j)
              by lia. exact He. }
        split; [congruence|]. intros _.
        specialize (Hlast ltac:(congruence)).
        replace (attempt + Z.of_nat (S (S k1)) - 1)
          with (attempt + 1 + Z.of_nat (S k1) - 1) by lia.
        exact Hlast.
    + injection H as <- <- <-. exists 1%nat.
      split; [lia|]. split; [reflexivity|]. split; [intros; lia|].
      split; [congruence|]. intros _.
      replace (attempt + Z.of_nat 1 - 1) with attempt by lia. rewrite Et.
      split; reflexivity.
Qed.

Lemma sends_schedule k attempt :
  List.length (sends (schedule env m k attempt)) = k.
Proof.
  revert attempt. induction k as [|k IH]; intros attempt; [reflexivity|].
  cbn [schedule]. destruct k as [|k1]; [reflexivity|].
  unfold sends in *. cbn [omap list_omap]. cbn [List.length].
  f_equal. apply IH.
Qed.

Lemma sleeps_schedule k attempt :
  sleeps (schedule env m k attempt)
  = List.map (fun j : nat => delay_after env (attempt + Z.of_nat j))
             (seq 0 (k - 1)).
Proof.
  revert attempt. induction k as [|k IH]; intros attempt; [reflexivity|].
  cbn [schedule]. destruct k as [|k1]; [reflexivity|].
  unfold sleeps in *. cbn [omap list_omap].
  rewrite IH. replace (S (S k1) - 1)%nat with (S (S k1 - 1)) by lia.
  cbn [seq List.map]. rewrite Z.add_0_r. f_equal.
  rewrite <- seq_shift, List.map_map. apply List.map_ext. intros j.
  f_equal. lia.
Qed.

End RetryLoop.

Lemma in_strings_In s l : in_strings s l = true <-> In s l.
Proof.
  unfold in_strings. rewrite existsb_exists. split.
  - intros (x & Hx & E). apply String.eqb_eq in E. now subst.
  - intros H. exists s. split; [exact H | apply String.eqb_refl].
Qed.

Lemma in_numbers_In n l : in_numbers n l = true <-> In n l.
Proof.
  unfold in_numbers. rewrite existsb_exists. split.
  - intros (x & Hx & E). apply Z.eqb_eq in E. now subst.
  - intros H. exists n. split; [exact H | apply Z.eqb_refl].
Qed.

(** A failure is retried exactly when its code is one of the four listed
    or its response number is one of the four temporary SMTP responses. *)
Lemma shouldRetry_iff env e :
  shouldRetry env e = true
  <-> (exists c, err_code e = Some c
                 /\ In c ["ETIMEDOUT"; "ESOCKET"; "ECONNRESET"; "EAI_AGAIN"])
      \/ (exists n, response_number env e = Some n /\ In n [421; 450; 451; 452]).
Proof.
  unfold shouldRetry. split.
  - destruct (err_code e) as [c|] eqn:Ec.
    + destruct (in_strings c transientCodes) eqn:Et.
      * intros _. left. exists c. split; [reflexivity|].
        now apply in_strings_In.
      * destruct (response_number env e) as [n|]; [|discriminate].
        intros H. right. exists n. split; [reflexivity|].
        now apply in_numbers_In.
    + destruct (response_number env e) as [n|]; [|discriminate].
      intros H. right. exists n. split; [reflexivity|].
      now apply in_numbers_In.
  - intros [(c & Ec & Hc)|(n & En & Hn)].
    + rewrite Ec. apply in_strings_In in Hc. unfold transientCodes.
      now rewrite Hc.
    + rewrite En. apply in_numbers_In in Hn. unfold temporaryResponses.
      rewrite Hn. now destruct (match err_code e with Some _ => _ | None => _ end).
Qed.

(** The catch block passes on the error of the try block, and a response
    is returned as it is. *)
Lemma sendEmail_outcome E env transport now tenant body w :
  fst (fst (sendEmail E env transport now tenant body w))
  = fst (fst (fst (if truthy_opt (templateSlug body)
                   then template_mode E env transport now tenant body w
                   else legacy_mode env transport now tenant body w))).
Proof.
  unfold sendEmail.
  destruct (if truthy_opt (templateSlug body) then _ else _)
    as [[[res w1] evs] logId].
  destruct res as [error|resp]; [|reflexivity].
  destruct (on_error env tenant body w1 logId error). reflexivity.
Qed.

Lemma sends_app evs1 evs2 : sends (evs1 ++ evs2)%list = (sends evs1 ++ sends evs2)%list.
Proof. unfold sends. apply omap_app. Qed.

Lemma sleeps_app evs1 evs2 :
  sleeps (evs1 ++ evs2)%list = (sleeps evs1 ++ sleeps evs2)%list.
Proof. unfold sleeps. apply omap_app. Qed.

Lemma sent_webhook_quiet env tenant logId subj :
  sends (sent_webhook env tenant logId subj) = []
  /\ sleeps (sent_webhook env tenant logId subj) = [].
Proof.
  unfold sent_webhook. destruct (webhook_target env (Some tenant)); split; reflexivity.
Qed.

Lemma on_error_quiet env tenant body w logId error :
  sends (snd (on_error env tenant body w logId error)) = []
  /\ sleeps (snd (on_error env tenant body w logId error)) = [].
Proof.
  unfold on_error. cbn [snd].
  destruct (webhook_target env tenant); [|split; reflexivity].
  destruct logId as [i|]; [|split; reflexivity].
  destruct (truthy_num i); split; reflexivity.
Qed.

(** The transport calls and the sleeps of [send_and_log] are those of the
    one run of the retry loop. *)
Lemma send_and_log_events env transport now tenant w logId m tpl :
  let evs := snd (fst (send_and_log env transport now tenant w logId m tpl)) in
  sends evs = sends (snd (deliver env transport m))
  /\ sleeps evs = sleeps (snd (deliver env transport m)).
Proof.
  unfold send_and_log.
  destruct (deliver env transport m) as [[[mid|] [err|]] evs]; cbn [fst snd];
    try (split; reflexivity);
    rewrite sends_app, sleeps_app;
    destruct (sent_webhook_quiet env tenant logId (mo_subject m)) as [-> ->];
    rewrite !app_nil_r; split; reflexivity.
Qed.

(** The transport calls and the sleeps of a request are those of one run
    of the retry loop, or there are none. *)
Lemma sendEmail_events E env transport now tenant body w :
  let evs := snd (sendEmail E env transport now tenant body w) in
  (sends evs = [] /\ sleeps evs = [])
  \/ exists m, sends evs = sends (snd (deliver env transport m))
               /\ sleeps evs = sleeps (snd (deliver env transport m)).
Proof.
  cbv zeta.
  assert (Hfin : forall (tried : Tried) m,
            sends (snd (fst tried)) = sends (snd (deliver env transport m))
            /\ sleeps (snd (fst tried)) = sleeps (snd (deliver env transport m)) ->
            let evs := snd (let '(res, w1, evs, logId) := tried in
                            match res with
                            | inr resp => (inr resp, w1, evs)
                            | inl error =>
                                let '(w2, hook) :=
                                  on_error env tenant body w1 logId error in
                                (inl error, w2, (evs ++ hook)%list)
                            end) in
            sends evs = sends (snd (deliver env transport m))
            /\ sleeps evs = sleeps (snd (deliver env transport m))).
  { intros [[[res w1] evs] logId] m [Hs Hl]. cbn [fst snd] in Hs, Hl.
    destruct res as [error|resp]; [|cbn [snd]; auto].
    pose proof (on_error_quiet env tenant body w1 logId error) as [Hq1 Hq2].
    destruct (on_error env tenant body w1 logId error) as [w2 hook].
    cbn [snd] in *. rewrite sends_app, sleeps_app, Hq1, Hq2, !app_nil_r. auto. }
  assert (Hquiet : forall error w1,
            let evs := snd (let '(w2, hook) :=
                              on_error env tenant body w1 None error in
                            (inl error : Thrown + Sent, w2, ([] ++ hook)%list)) in
            sends evs = [] /\ sleeps evs = []).
  { intros error w1.
    pose proof (on_error_quiet env tenant body w1 None error) as [Hq1 Hq2].
    destruct (on_error env tenant body w1 None error) as [w2 hook].
    cbn [snd] in *. auto. }
  unfold sendEmail.
  destruct (truthy_opt (templateSlug body)).
  - unfold template_mode.
    destruct (templateSlug body) as [slug0|]; [|left; apply Hquiet].
    destruct (templateData body) as [td|]; [|left; apply Hquiet].
    destruct (to body) as [toA|]; [|left; apply Hquiet].
    destruct (truthy_string slug0 && truthy td && truthy_address toA);
      [|left; apply Hquiet].
    destruct tenant as [t|]; [|left; apply Hquiet].
    destruct (Store.resolveTemplate _ _ _ _) as [e|[rec|]];
      [left; apply Hquiet| |left; apply Hquiet].
    destruct (renderEmailContent _ _ _ _ _ _ _) as [rc c1].
    destruct (insert_log _ _ _ _ _) as [logId db1].
    right. eexists. apply Hfin. apply send_and_log_events.
  - unfold legacy_mode.
    destruct (to body) as [toA|]; [|left; apply Hquiet].
    destruct (subject body) as [subj|]; [|left; apply Hquiet].
    destruct (htmlBody body) as [hb|]; [|left; apply Hquiet].
    destruct (truthy_address toA && truthy_string subj && truthy_string hb);
      [|left; apply Hquiet].
    destruct tenant as [t|]; [|left; apply Hquiet].
    destruct (insert_log _ _ _ _ _) as [logId db1].
    right. eexists. apply Hfin. apply send_and_log_events.
Qed.

(** C2 (amended). The retry loop of a dispatch calls the transport [k]
    times, [k] at most the ceiling (3 by default), numbered from 1; between
    call [j] and call [j+1] it sleeps [baseDelay * 2^(j-1)] and it never
    sleeps before the first call (500 then 1000 with the defaults); every
    call but the last failed with an error that [shouldRetry] accepts, that
    is one whose code is ETIMEDOUT, ESOCKET, ECONNRESET or EAI_AGAIN or
    whose response number is 421, 450, 451 or 452; a first failure of any
    other kind ends the loop after that one call; when the last call fails
    its error is the one thrown, and [sendEmail] passes it to the caller.
    The transport calls and sleeps of a request are those of one run of
    this loop. *)
Theorem retry_policy (env : Env) (transport : Transport) (m : MailOptions) :
  let '(info, lastError, evs) := deliver env transport m in
  (exists k : nat,
      Z.of_nat k <= Z.max 0 (RETRY_MAX_ATTEMPTS env)
      /\ evs = schedule env m k 1
      /\ List.length (sends evs) = k
      /\ sleeps evs
         = List.map (fun j : nat => RETRY_BASE_DELAY_MS env * 2 ^ Z.of_nat j)
                    (seq 0 (k - 1))
      /\ (forall j : nat, (j + 1 < k)%nat ->
            exists e, transport (1 + Z.of_nat j) m = inl e
                      /\ shouldRetry env e = true)
      /\ (k = O -> info = None /\ lastError = None)
      /\ (k <> O ->
            match transport (Z.of_nat k) m with
            | inr mid => info = Some mid /\ lastError = None
            | inl e => info = None /\ lastError = Some e
                       /\ (RETRY_MAX_ATTEMPTS env <= Z.of_nat k
                           \/ shouldRetry env e = false)
            end)
      /\ (RETRY_MAX_ATTEMPTS env = 3 -> RETRY_BASE_DELAY_MS env = 500 ->
            (k <= 3)%nat
            /\ (sleeps evs = [] \/ sleeps evs = [500]
                \/ sleeps evs = [500; 1000])))
  /\ (forall e, 1 <= RETRY_MAX_ATTEMPTS env -> transport 1 m = inl e ->
        shouldRetry env e = false ->
        evs = [EvSend 1 m] /\ info = None /\ lastError = Some e)
  /\ (forall e,
        shouldRetry env e = true
        <-> (exists c, err_code e = Some c
                       /\ In c ["ETIMEDOUT"; "ESOCKET"; "ECONNRESET"; "EAI_AGAIN"])
            \/ (exists n, response_number env e = Some n
                          /\ In n [421; 450; 451; 452]))
  /\ (forall e now tenant w logId tpl,
        info = None -> lastError = Some e ->
        send_and_log env transport now tenant w logId m tpl
        = (inl (SendErr e), w, evs, Some logId))
  /\ (forall E now tenant body w,
        fst (fst (sendEmail E env transport now tenant body w))
        = fst (fst (fst (if truthy_opt (templateSlug body)
                         then template_mode E env transport now tenant body w
                         else legacy_mode env transport now tenant body w))))
  /\ (forall E now tenant body w,
        let all := snd (sendEmail E env transport now tenant body w) in
        (sends all = [] /\ sleeps all = [])
        \/ exists m1, sends all = sends (snd (deliver env transport m1))
                      /\ sleeps all = sleeps (snd (deliver env transport m1))).
Proof.
  destruct (deliver env transport m) as [[info lastError] evs] eqn:Ed.
  assert (Hspec := Ed). unfold deliver in Hspec.
  apply send_loop_spec in Hspec; [|lia].
  destruct Hspec as (k & Hk & Hevs & Hbefore & Hzero & Hlast).
  assert (Hsleeps : sleeps evs
            = List.map (fun j : nat => RETRY_BASE_DELAY_MS env * 2 ^ Z.of_nat j)
                       (seq 0 (k - 1))).
  { rewrite Hevs, sleeps_schedule. apply List.map_ext. intros j.
    unfold delay_after. do 2 f_equal. lia. }
  split; [|split; [|split; [|split; [|split]]]].
  - exists k. split; [lia|]. split; [exact Hevs|].
    split; [rewrite Hevs; apply sends_schedule|].
    split; [exact Hsleeps|]. split; [exact Hbefore|].
    split; [intros Hk0; destruct (Hzero Hk0) as (? & ? & _); auto|].
    split.
    + intros Hk0. specialize (Hlast Hk0).
      replace (1 + Z.of_nat k - 1) with (Z.of_nat k) in Hlast by lia.
      exact Hlast.
    + intros Hmax Hbase. rewrite Hmax in Hk. split; [lia|].
      rewrite Hsleeps, Hbase.
      destruct k as [|[|[|[|k]]]]; [auto | auto | auto | auto | lia].
  - intros e Hmax Et Hno.
    destruct k as [|[|k]].
    + destruct (Hzero eq_refl) as (_ & _ & Habs). lia.
    + specialize (Hlast ltac:(congruence)).
      replace (1 + Z.of_nat 1 - 1) with 1 in Hlast by lia. rewrite Et in Hlast.
      destruct Hlast as (-> & -> & _). rewrite Hevs. auto.
    + destruct (Hbefore O ltac:(lia)) as (e' & He' & Hr).
      replace (1 + Z.of_nat 0) with 1 in He' by lia.
      rewrite Et in He'. injection He' as <-. congruence.
  - intros e. apply shouldRetry_iff.
  - intros e now tenant w logId tpl -> ->. unfold send_and_log.
    rewrite Ed. reflexivity.
  - intros. apply sendEmail_outcome.
  - intros. apply sendEmail_events.
Qed.

(** A socket error is none of the failures the specification names, and
    the loop retries after it. *)
Lemma retry_on_socket_error :
  named_transient default_env socket_error = false
  /\ deliver default_env socket_error_once demo_mail
     = (Some "<1@acme.test>", None,
        [EvSend 1 demo_mail; EvSleep 500; EvSend 2 demo_mail]).
Proof. split; reflexivity. Qed.

(** ** The log row of a failed delivery *)

Lemma update_log_absent (db : LogDb) (logId : Z) f :
  (forall r, In r (logs db) -> log_id r <> logId) ->
  logs (update_log db logId f) = logs db.
Proof.
  intros H. unfold update_log. cbn [logs].
  induction (logs db) as [|r l IH]; [reflexivity|].
  cbn [List.map]. rewrite IH by (intros; apply H; now right).
  destruct (log_id r =? logId) eqn:E; [|reflexivity].
  apply Z.eqb_eq in E. destruct (H r); [now left | exact E].
Qed.

Lemma find_absent {A} (f : A -> bool) (l : list A) :
  (forall x, In x l -> f x = false) -> List.find f l = None.
Proof.
  induction l as [|x l IH]; intros H; [reflexivity|].
  cbn [List.find]. rewrite (H x) by now left.
  apply IH. intros y Hy. apply H. now right.
Qed.

Lemma send_and_log_SendErr env transport now tenant w logId m tpl e w1 evs1 lid :
  send_and_log env transport now tenant w logId m tpl
  = (inl (SendErr e), w1, evs1, lid) ->
  w1 = w /\ lid = Some logId.
Proof.
  unfold send_and_log.
  destruct (deliver env transport m) as [[[mid|] [err|]] evs];
    intros H; injection H; intros; subst; try discriminate; auto.
Qed.

(** With the row inserted inside the transaction, the catch block rolls
    the row back and its [UPDATE] then finds no row: the table is what it
    was before [BEGIN]. *)
Lemma on_error_after_insert env tenant body w db0 now tenantId toAddr subj
    logId db1 err :
  txn db0 = None ->
  (forall r, In r (logs db0) -> log_id r < next_log_id db0) ->
  insert_log (begin db0) now tenantId toAddr subj = (logId, db1) ->
  logdb w = db1 ->
  logs (logdb (fst (on_error env tenant body w (Some logId) err))) = logs db0
  /\ find_log (logdb (fst (on_error env tenant body w (Some logId) err))) logId
     = None.
Proof.
  intros Htxn Hids Hins Hw.
  unfold insert_log, begin in Hins. rewrite Htxn in Hins. cbn in Hins.
  injection Hins as <- <-.
  assert (Habsent : forall r, In r (logs db0) -> log_id r <> next_log_id db0).
  { intros r Hr. specialize (Hids r Hr). lia. }
  unfold on_error. cbn [fst]. rewrite Hw. cbn [rollback txn logs next_log_id].
  set (dbr := {| logs := logs db0; next_log_id := next_log_id db0 + 1;
                 txn := None |}).
  assert (Hlogs : forall f, logs (update_log dbr (next_log_id db0) f) = logs db0).
  { intros f. apply (update_log_absent dbr). exact Habsent. }
  destruct (truthy_num (next_log_id db0)); cbn [logdb with_logdb].
  - rewrite Hlogs. split; [reflexivity|].
    unfold find_log. rewrite Hlogs.
    apply find_absent. intros r Hr. apply Z.eqb_neq. auto.
  - split; [reflexivity|]. unfold find_log. cbn [logs dbr].
    apply find_absent. intros r Hr. apply Z.eqb_neq. auto.
Qed.

(** Whenever [sendEmail] passes a delivery error to the caller, the table
    of logs is what it was before the request. *)
Lemma delivery_failure_restores_logs E env transport now tenant body w e w1 evs :
  txn (logdb w) = None ->
  (forall r, In r (logs (logdb w)) -> log_id r < next_log_id (logdb w)) ->
  sendEmail E env transport now tenant body w = (inl (SendErr e), w1, evs) ->
  logs (logdb w1) = logs (logdb w).
Proof.
  intros Htxn Hids. unfold sendEmail.
  destruct (truthy_opt (templateSlug body)).
  - unfold template_mode.
    destruct (templateSlug body) as [slug0|]; [|intros H; discriminate H].
    destruct (templateData body) as [td|]; [|intros H; discriminate H].
    destruct (to body) as [toA|]; [|intros H; discriminate H].
    destruct (truthy_string slug0 && truthy td && truthy_address toA);
      [|intros H; discriminate H].
    destruct tenant as [t|]; [|intros H; discriminate H].
    destruct (Store.resolveTemplate _ _ _ _) as [e0|[rec|]];
      [intros H; discriminate H| |intros H; discriminate H].
    destruct (renderEmailContent _ _ _ _ _ _ _) as [rc c1].
    destruct (insert_log _ _ _ _ _) as [logId db1] eqn:Eins.
    destruct (send_and_log _ _ _ _ _ _ _ _) as [[[res w2] evs2] lid] eqn:Es.
    destruct res as [error|resp]; [|intros H; discriminate H].
    destruct (on_error env (Some t) body w2 lid error) as [w3 hook] eqn:Eo.
    intros H. injection H as -> <- <-.
    apply send_and_log_SendErr in Es as [-> ->].
    pose proof (on_error_after_insert env (Some t) body
                  (with_logdb (with_cache w c1) db1) (logdb w) _ _ _ _ _ _
                  (SendErr e) Htxn Hids Eins eq_refl) as [Hl _].
    rewrite Eo in Hl. exact Hl.
  - unfold legacy_mode.
    destruct (to body) as [toA|]; [|intros H; discriminate H].
    destruct (subject body) as [subj|]; [|intros H; discriminate H].
    destruct (htmlBody body) as [hb|]; [|intros H; discriminate H].
    destruct (truthy_address toA && truthy_string subj && truthy_string hb);
      [|intros H; discriminate H].
    destruct tenant as [t|]; [|intros H; discriminate H].
    destruct (insert_log _ _ _ _ _) as [logId db1] eqn:Eins.
    destruct (send_and_log _ _ _ _ _ _ _ _) as [[[res w2] evs2] lid] eqn:Es.
    destruct res as [error|resp]; [|intros H; discriminate H].
    destruct (on_error env (Some t) body w2 lid error) as [w3 hook] eqn:Eo.
    intros H. injection H as -> <- <-.
    apply send_and_log_SendErr in Es as [-> ->].
    pose proof (on_error_after_insert env (Some t) body
                  (with_logdb w db1) (logdb w) _ _ _ _ _ _
                  (SendErr e) Htxn Hids Eins eq_refl) as [Hl _].
    rewrite Eo in Hl. exact Hl.
Qed.

(** C3. A legacy dispatch whose transport rejects the message: the error
    reaches the caller after one call, and the table of logs holds no row
    for the attempt, neither failed nor sending. *)
Theorem failed_delivery_leaves_no_log_row :
  let '(res, w1, evs) :=
    sendEmail Renderer.demo_engine default_env rejecting 9 (Some demo_tenant)
      legacy_body demo_world in
  res = inl (SendErr mailbox_unavailable)
  /\ sends evs = [(1, demo_mail)]
  /\ shouldRetry default_env mailbox_unavailable = false
  /\ next_log_id (logdb w1) = 2
  /\ find_log (logdb w1) 1 = None
  /\ logs (logdb w1) = [].
Proof. vm_compute. repeat split. Qed.

(** ** Render failures *)

Lemma deliver_first env transport m :
  1 <= RETRY_MAX_ATTEMPTS env ->
  exists evs1, snd (deliver env transport m) = EvSend 1 m :: evs1.
Proof.
  intros Hmax. unfold deliver.
  destruct (Z.to_nat (RETRY_MAX_ATTEMPTS env)) as [|f] eqn:Ef; [lia|].
  cbn [send_loop].
  destruct (RETRY_MAX_ATTEMPTS env <? 1) eqn:E; [apply Z.ltb_lt in E; lia|].
  destruct (transport 1 m) as [err|mid]; [|eexists; reflexivity].
  destruct (_ || _); [eexists; reflexivity|].
  destruct (send_loop env transport m f (1 + 1) (Some err)) as [[i l] evs].
  eexists. reflexivity.
Qed.

(** C1 (amended). In template mode, when rendering the resolved template
    fails, [renderEmailContent] never throws: it returns the legacy
    substitution of the raw content of the request, with the subject
    defaulting to Email and the bodies to the empty string when the request
    carries none.  The dispatch then goes on with that content: a log row
    is inserted, the transport is called with it, and no request error is
    passed to the caller. *)
Theorem render_failure_falls_back (E : Renderer.Engine) (env : Env)
    (transport : Transport) (now : Z) (t : Tenant) (body : Body) (w : World)
    (slug0 : string) (td : Json) (toA : Address)
    (rec : Renderer.TemplateRecord) (msg : string) (c1 : Renderer.Cache)
    (tr : list string) :
  templateSlug body = Some slug0 -> templateData body = Some td ->
  to body = Some toA ->
  truthy_string slug0 = true -> truthy td = true -> truthy_address toA = true ->
  Store.resolveTemplate (templates w) (tenant_id t) slug0 (version body)
  = inr (Some rec) ->
  Renderer.renderTemplate E (cache w) now rec td None = (inl msg, c1, tr) ->
  1 <= RETRY_MAX_ATTEMPTS env ->
  let content :=
    {| c_subject := or_else (subject body) "Email";
       c_html := if truthy_opt (htmlBody body)
                 then Legacy.renderTemplate (htmlBody body) (variables body)
                 else "";
       c_text := if truthy_opt (textBody body)
                 then Legacy.renderTemplate (textBody body) (variables body)
                 else "";
       rendered := false;
       fallback := true |} in
  renderEmailContent E (cache w) now template body (Some rec) (Some td)
  = (content, c1)
  /\ exists res w1 evs1,
       sendEmail E env transport now (Some t) body w
       = (res, w1, EvSend 1 (template_mail t body toA content) :: evs1)
       /\ next_log_id (logdb w1) = next_log_id (logdb w) + 1
       /\ (forall m st, res <> inl (AppErr m st)).
Proof.
  intros Hslug Hdata Hto Hs Htd HtoA Hres Hrender Hmax content.
  assert (Hrc : renderEmailContent E (cache w) now template body (Some rec) (Some td)
                = (content, c1)).
  { unfold renderEmailContent. rewrite Htd, Hrender. reflexivity. }
  split; [exact Hrc|].
  unfold sendEmail. rewrite Hslug. cbn [truthy_opt]. rewrite Hs.
  unfold template_mode. rewrite Hslug, Hdata, Hto, Hs, Htd, HtoA. cbn [andb].
  rewrite Hres, Hrc.
  destruct (insert_log (begin (logdb w)) now (tenant_id t)
              (join ", " (addresses toA))
              (override (overrides body) ov_subject (c_subject content)))
    as [logId db1] eqn:Eins.
  assert (Hnext : next_log_id db1 = next_log_id (logdb w) + 1).
  { unfold insert_log, begin in Eins.
    destruct (txn (logdb w)); injection Eins as <- <-; reflexivity. }
  fold (template_mail t body toA content).
  set (m := template_mail t body toA content).
  set (w0 := with_logdb (with_cache w c1) db1).
  destruct (deliver_first env transport m Hmax) as [evs1 Hevs].
  unfold send_and_log.
  destruct (deliver env transport m) as [[info lastError] evs].
  cbn [snd] in Hevs. subst evs.
  destruct info as [mid|]; [|destruct lastError as [err|]].
  - exists (inr {| messageId := mid;
                   sent_template := Some (slug0, Renderer.version rec) |}).
    eexists. eexists. split; [reflexivity|]. split; [exact Hnext | discriminate].
  - destruct (on_error env (Some t) body w0 (Some logId) (SendErr err))
      as [w2 hook] eqn:Eo.
    exists (inl (SendErr err)), w2. eexists.
    split; [reflexivity|]. split; [|discriminate].
    unfold on_error in Eo. injection Eo as <- _.
    cbn [logdb with_logdb]. subst w0. cbn [logdb with_logdb].
    destruct (truthy_num logId); unfold rollback;
      destruct (txn db1); cbn [next_log_id update_log]; exact Hnext.
  - set (w3 := with_logdb w0 (commit (update_log (logdb w0) logId (mark_sent now)))).
    destruct (on_error env (Some t) body w3 (Some logId)
                (TypeErr "Cannot read properties of null (reading 'messageId')"))
      as [w2 hook] eqn:Eo.
    eexists. exists w2. eexists. split; [reflexivity|]. split; [|discriminate].
    unfold on_error in Eo. injection Eo as <- _.
    subst w3 w0. cbn [logdb with_logdb commit txn rollback].
    destruct (truthy_num logId); cbn [next_log_id update_log]; exact Hnext.
Qed.

Lemma render_failure_falls_back_witness :
  renderEmailContent Renderer.demo_engine ∅ 9 template template_body
    (Some (Store.to_record broken_row)) (Some (JObj [("name", JStr "Ann")]))
  = ({| c_subject := "Email"; c_html := ""; c_text := "";
        rendered := false; fallback := true |}, ∅)
  /\ exists res w1 evs1,
       sendEmail Renderer.demo_engine default_env accepting 9 (Some demo_tenant)
         template_body broken_world
       = (res, w1,
          EvSend 1 (template_mail demo_tenant template_body
                      (One "ann@example.test")
                      {| c_subject := "Email"; c_html := ""; c_text := "";
                         rendered := false; fallback := true |}) :: evs1)
       /\ next_log_id (logdb w1) = next_log_id (logdb broken_world) + 1
       /\ (forall m st, res <> inl (AppErr m st)).
Proof.
  apply (render_failure_falls_back Renderer.demo_engine default_env accepting 9
           demo_tenant template_body broken_world "welcome"
           (JObj [("name", JStr "Ann")]) (One "ann@example.test")
           (Store.to_record broken_row)
           "Template rendering failed: Error: Template compilation failed: Error: Parse error"
           ∅ ["Hi {{name}}"; "{{#each items}"]);
    first [reflexivity | vm_compute; discriminate].
Defined.

(** A template request without raw content whose template does not
    compile: the caller gets a success, the transport was called with the
    default subject and empty bodies, and the log row says sent. *)
Lemma render_failure_without_raw_content :
  (subject template_body = None /\ htmlBody template_body = None
   /\ textBody template_body = None /\ overrides template_body = None)
  /\ Store.resolveTemplate (templates broken_world) 7 "welcome" None
     = inr (Some (Store.to_record broken_row))
  /\ fst (fst (Renderer.renderTemplate Renderer.demo_engine ∅ 9
                 (Store.to_record broken_row) (JObj [("name", JStr "Ann")]) None))
     = inl "Template rendering failed: Error: Template compilation failed: Error: Parse error"
  /\ (let '(res, w1, evs) :=
        sendEmail Renderer.demo_engine default_env accepting 9 (Some demo_tenant)
          template_body broken_world in
      res = inr {| messageId := "<1@acme.test>";
                   sent_template := Some ("welcome", 1) |}
      /\ sends evs
         = [(1, {| mo_from := "noreply@acme.test"; mo_to := "ann@example.test";
                   mo_cc := None; mo_bcc := None; mo_replyTo := None;
                   mo_subject := "Email"; mo_html := Some "";
                   mo_text := Some "" |})]
      /\ List.map status (logs (logdb w1)) = ["sent"]).
Proof. vm_compute. repeat split. Qed.

End DispatchFacts.

(* ===================================================================== *)
(** * The template controllers: further properties                        *)
(* ===================================================================== *)

Module TemplateProps.
Import Js Store StoreFacts Admin.

(** X1. [getTemplate] answers as [resolveTemplate] does: it returns the
    row that resolution picks, 404 exactly when resolution finds none, and
    the error of the database exactly when resolution fails with it,
    although its pinned query has no ORDER BY and no LIMIT. *)
Theorem getTemplate_agrees_with_resolution (tbl : list TemplateRow)
    (tenantId : Z) (slug0 : string) (v : option Z) :
  getTemplate tbl tenantId slug0 v
  = match resolve_row tbl tenantId slug0 v with
    | inl e => inl (pg_error e)
    | inr (Some r) => inr r
    | inr None =>
        inl (app_error {| message := "Template not found"; statusCode := 404 |})
    end.
Proof. apply getTemplate_resolve_row. Qed.

(** ** The constraints of the table *)

Lemma map_update_where_id {A} (g : TemplateRow -> A) templateId f tbl :
  (forall r, g (f r) = g r) ->
  List.map g (update_where_id templateId f tbl) = List.map g tbl.
Proof.
  intros Hg. unfold update_where_id. rewrite List.map_map.
  apply List.map_ext. intros r. destruct (id r =? templateId); auto.
Qed.

Lemma In_update_where_id templateId f tbl r1 :
  In r1 (update_where_id templateId f tbl) ->
  exists r, In r tbl /\ (r1 = r \/ r1 = f r).
Proof.
  unfold update_where_id. intros H. apply in_map_iff in H as (r & <- & Hr).
  exists r. split; [exact Hr|]. destruct (id r =? templateId); auto.
Qed.

Lemma table_ok_in_place db templateId f :
  (forall r, id (f r) = id r) -> (forall r, version_key (f r) = version_key r) ->
  table_ok db ->
  table_ok {| rows := update_where_id templateId f (rows db);
              next_id := next_id db |}.
Proof.
  intros Hid Hkey (Hnd & Hlt & Hkeys). unfold table_ok. cbn [rows next_id].
  rewrite !map_update_where_id by assumption.
  split; [exact Hnd|]. split; [|exact Hkeys].
  intros r1 Hr1. apply In_update_where_id in Hr1 as (r & Hr & [->| ->]).
  - auto.
  - rewrite Hid. auto.
Qed.

Lemma NoDup_snoc {A} (l : list A) (x : A) :
  NoDup l -> ~ In x l -> NoDup (l ++ [x])%list.
Proof.
  intros Hl Hx. apply NoDup_app. split; [exact Hl|]. split.
  - intros y Hy Hy'. apply list_elem_of_In in Hy, Hy'.
    destruct Hy' as [<-|[]]. contradiction.
  - apply NoDup_singleton.
Qed.

Lemma table_ok_insert db new :
  id new = next_id db ->
  (forall r, In r (rows db) -> version_key r <> version_key new) ->
  table_ok db ->
  table_ok {| rows := (rows db ++ [new])%list; next_id := next_id db + 1 |}.
Proof.
  intros Hid Hkey (Hnd & Hlt & Hkeys). unfold table_ok. cbn [rows next_id].
  rewrite (List.map_app id), (List.map_app version_key). cbn [List.map].
  split; [|split].
  - apply NoDup_snoc; [exact Hnd|].
    intros Hx. apply in_map_iff in Hx as (r & Hr & Hin).
    specialize (Hlt r Hin). lia.
  - intros r Hr. apply in_app_iff in Hr as [Hr|[<-|[]]].
    + specialize (Hlt r Hr). lia.
    + lia.
  - apply NoDup_snoc; [exact Hkeys|].
    intros Hx. apply in_map_iff in Hx as (r & Hr & Hin).
    exact (Hkey r Hin Hr).
Qed.

Lemma table_ok_skip_id db :
  table_ok db -> table_ok {| rows := rows db; next_id := next_id db + 1 |}.
Proof.
  intros (Hnd & Hlt & Hkeys). unfold table_ok. cbn [rows next_id].
  split; [exact Hnd|]. split; [|exact Hkeys].
  intros r Hr. specialize (Hlt r Hr). lia.
Qed.

Lemma first_version_exists_false tbl tenantId slug0 :
  first_version_exists tbl tenantId slug0 = false ->
  forall r, In r tbl -> version_key r <> (tenantId, slug0, 1).
Proof.
  unfold first_version_exists. intros H r Hr Hk.
  assert (Hex : existsb (fun r => (tenant_id r =? tenantId)
                   && String.eqb (slug r) slug0 && (version r =? 1)) tbl = true).
  { apply existsb_exists. exists r. split; [exact Hr|].
    unfold version_key in Hk. injection Hk as -> -> ->.
    now rewrite Z.eqb_refl, String.eqb_refl. }
  congruence.
Qed.

Section Constraints.
Variable bigint_in : string -> option Z.
Variable tenants : list Z.

(** X2. The constraints of [tenant_templates] survive every controller
    that writes to it: after [createTemplate], [updateTemplate] or
    [deleteTemplate], whatever the outcome, ids are still distinct and
    below the next value of the sequence, and no two rows share tenant,
    slug and version. *)
Theorem table_constraints_kept (db : Db) (c : Renderer.Cache) (now : Z) :
  table_ok db ->
  (forall req, table_ok (snd (createTemplate bigint_in tenants db now req)))
  /\ (forall templateId u,
        table_ok (snd (fst (updateTemplate db c now templateId u))))
  /\ (forall templateId,
        table_ok (snd (fst (deleteTemplate db c now templateId)))).
Proof.
  intros Hok. split; [|split].
  - intros req. unfold createTemplate.
    destruct (create_validate req) as [e|f]; [exact Hok|].
    destruct (bigint_in (cf_tenantId f)) as [tid|]; [|exact Hok].
    destruct (first_version_exists (rows db) tid (cf_slug f)) eqn:Efirst;
      [exact Hok|].
    destruct (50 <=? active_count (rows db) tid); [exact Hok|].
    destruct (existsb (Z.eqb tid) tenants); cbn [snd].
    + apply table_ok_insert; [reflexivity | | exact Hok].
      intros r Hr. exact (first_version_exists_false _ _ _ Efirst r Hr).
    + now apply table_ok_skip_id.
  - intros templateId u. unfold updateTemplate.
    destruct (List.filter _ (rows db)) as [|cur rest] eqn:Ef; [exact Hok|].
    destruct (validate u); [exact Hok|].
    destruct (isVersionUpdate u); cbn [fst snd].
    + assert (Hcur : In cur (rows db)).
      { assert (H : In cur (List.filter (fun r => id r =? templateId) (rows db)))
          by (rewrite Ef; now left).
        now apply filter_In in H as [H _]. }
      apply table_ok_insert; [reflexivity | | exact Hok].
      intros r Hr Hk. unfold version_key, new_version_row in Hk. cbn in Hk.
      injection Hk as Ht Hs Hv.
      destruct (next_version_spec (rows db) (tenant_id cur) (slug cur) cur Hcur
                  eq_refl eq_refl) as [_ Hlt].
      specialize (Hlt r Hr Ht Hs). lia.
    + now apply table_ok_in_place.
  - intros templateId. unfold deleteTemplate.
    destruct (List.filter _ (rows db)) as [|cur rest]; [exact Hok|].
    cbn [fst snd]. now apply table_ok_in_place.
Qed.

End Constraints.

Lemma table_constraints_kept_witness :
  (forall req, table_ok (snd (createTemplate decimal_number [7] demo_db 5 req)))
  /\ (forall templateId u,
        table_ok (snd (fst (updateTemplate demo_db ∅ 5 templateId u))))
  /\ (forall templateId,
        table_ok (snd (fst (deleteTemplate demo_db ∅ 5 templateId)))).
Proof.
  apply (table_constraints_kept decimal_number [7] demo_db ∅ 5).
  unfold table_ok. cbn. split; [apply NoDup_singleton|].
  split; [|apply NoDup_singleton]. intros r [<-|[]]. reflexivity.
Defined.

(** ** Versions after an update *)

Lemma filter_selects_app tenantId slug0 l1 l2 :
  List.filter (selects tenantId slug0) (l1 ++ l2)%list
  = (List.filter (selects tenantId slug0) l1
     ++ List.filter (selects tenantId slug0) l2)%list.
Proof. apply List.filter_app. Qed.

(** The row with the strictly highest version is the latest. *)
Lemma latest_top rs r :
  In r rs -> (forall r1, In r1 rs -> r1 = r \/ version r1 < version r) ->
  latest rs = Some r.
Proof.
  intros Hin Hmax.
  destruct (latest rs) as [r0|] eqn:E.
  - pose proof (latest_In _ _ E) as Hin0.
    pose proof (latest_max _ _ E r Hin) as Hle.
    destruct (Hmax r0 Hin0) as [->|Hlt]; [reflexivity | lia].
  - apply latest_None in E. subst rs. destruct Hin.
Qed.

(** X3. After an update that created a version: when the new row is
    active, default resolution of its tenant and slug returns it; and for
    every tenant and slug, a lookup pinned to any other version answers as
    before the update. *)
Theorem updateTemplate_new_version_resolves (db : Db) (c : Renderer.Cache)
    (now templateId : Z) (u : UpdateTemplateRequest) (db' : Db)
    (c' : Renderer.Cache) :
  updateTemplate db c now templateId u = (inr true, db', c') ->
  exists new,
    rows db' = (rows db ++ [new])%list
    /\ (is_active new = true ->
          resolveTemplate (rows db') (tenant_id new) (slug new) None
          = inr (Some (to_record new)))
    /\ (forall tenantId slug0 n, n <> 0 -> n <> version new ->
          resolveTemplate (rows db') tenantId slug0 (Some n)
          = resolveTemplate (rows db) tenantId slug0 (Some n)).
Proof.
  unfold updateTemplate.
  destruct (List.filter (fun r => id r =? templateId) (rows db))
    as [|cur rest] eqn:Ef; [discriminate|].
  assert (Hcur : In cur (rows db)).
  { assert (H : In cur (List.filter (fun r => id r =? templateId) (rows db)))
      by (rewrite Ef; now left).
    now apply filter_In in H as [H _]. }
  destruct (validate u); [discriminate|].
  destruct (isVersionUpdate u); [|discriminate].
  intros H. injection H as <- <-. cbn [rows].
  set (new := new_version_row db now cur u).
  exists new. split; [reflexivity|]. split.
  - intros Hact. unfold resolveTemplate, resolve_row. cbn [pin].
    rewrite (latest_top _ new); [reflexivity| |].
    + apply filter_In. split; [apply in_app_iff; right; now left|].
      unfold selects. now rewrite Z.eqb_refl, String.eqb_refl, Hact.
    + intros r1 Hr1. apply filter_In in Hr1 as [Hr1 Hsel].
      apply in_app_iff in Hr1 as [Hr1|[<-|[]]]; [right | now left].
      apply selects_spec in Hsel as (Ht & Hs & _).
      destruct (next_version_spec (rows db) (tenant_id cur) (slug cur) cur Hcur
                  eq_refl eq_refl) as [_ Hlt].
      exact (Hlt r1 Hr1 Ht Hs).
  - intros tenantId slug0 n Hn Hv. unfold resolveTemplate, resolve_row, pin.
    unfold truthy_num. apply Z.eqb_neq in Hn. rewrite Hn. cbn [negb].
    destruct (int4 n); [|reflexivity].
    rewrite filter_selects_app, List.filter_app.
    replace (List.filter (fun r => version r =? n)
               (List.filter (selects tenantId slug0) [new])) with (@nil TemplateRow).
    + now rewrite app_nil_r.
    + cbn [List.filter]. destruct (selects tenantId slug0 new); [|reflexivity].
      cbn [List.filter]. destruct (version new =? n) eqn:E; [|reflexivity].
      apply Z.eqb_eq in E. congruence.
Qed.

Lemma updateTemplate_new_version_resolves_witness :
  exists new,
    (rows demo_db ++ [new_version_row demo_db 5 demo_row content_only])%list
    = (rows demo_db ++ [new])%list
    /\ (is_active new = true ->
          resolveTemplate
            (rows demo_db ++ [new_version_row demo_db 5 demo_row content_only])%list
            (tenant_id new) (slug new) None
          = inr (Some (to_record new)))
    /\ (forall tenantId slug0 n, n <> 0 -> n <> version new ->
          resolveTemplate
            (rows demo_db ++ [new_version_row demo_db 5 demo_row content_only])%list
            tenantId slug0 (Some n)
          = resolveTemplate (rows demo_db) tenantId slug0 (Some n)).
Proof.
  apply (updateTemplate_new_version_resolves demo_db ∅ 5 1 content_only
           {| rows := (rows demo_db
                       ++ [new_version_row demo_db 5 demo_row content_only])%list;
              next_id := 3 |} ∅).
  reflexivity.
Defined.


(** X5. An update that creates no version leaves the render cache alone:
    the edited row keeps its id and version, so whatever was cached for it
    is served again for the edited row until the entry expires, and a new
    subject or plain text does not show in front of a cached rendering. *)
Theorem updateTemplate_in_place_keeps_cache (db : Db) (c : Renderer.Cache)
    (now templateId : Z) (u : UpdateTemplateRequest) (db' : Db)
    (c' : Renderer.Cache) :
  updateTemplate db c now templateId u = (inr false, db', c') ->
  c' = c
  /\ forall r, In r (rows db) -> id r = templateId ->
       In (apply_updates now u r) (rows db')
       /\ forall E t2 data v e,
            c !! Renderer.render_key (to_record r) data v = Some e ->
            t2 <= Renderer.expires e ->
            Renderer.renderTemplate E c' t2 (to_record (apply_updates now u r))
              data v
            = (inr (Renderer.value e), c', []).
Proof.
  unfold updateTemplate.
  destruct (List.filter (fun r => id r =? templateId) (rows db))
    as [|cur rest]; [discriminate|].
  destruct (validate u); [discriminate|].
  destruct (isVersionUpdate u); [discriminate|].
  intros H. injection H as <- <-. split; [reflexivity|].
  intros r Hr Hid. split.
  - cbn [rows]. unfold update_where_id. apply in_map_iff.
    exists r. split; [|exact Hr].
    apply Z.eqb_eq in Hid. now rewrite Hid.
  - intros E t2 data v e He Hle.
    unfold Renderer.renderTemplate.
    change (Renderer.render_key (to_record (apply_updates now u r)) data v)
      with (Renderer.render_key (to_record r) data v).
    now rewrite (RendererFacts.cache_get_hit _ _ _ _ He Hle).
Qed.

Lemma updateTemplate_in_place_keeps_cache_witness :
  let c := snd (fst (Renderer.renderTemplate Renderer.demo_engine ∅ 0
                       (to_record demo_row) (JObj [("name", JStr "Ann")]) None)) in
  let db' := snd (fst (updateTemplate demo_db c 5 1 subject_only)) in
  c = c
  /\ forall r, In r (rows demo_db) -> id r = 1 ->
       In (apply_updates 5 subject_only r) (rows db')
       /\ forall E t2 data v e,
            c !! Renderer.render_key (to_record r) data v = Some e ->
            t2 <= Renderer.expires e ->
            Renderer.renderTemplate E c t2
              (to_record (apply_updates 5 subject_only r)) data v
            = (inr (Renderer.value e), c, []).
Proof.
  intros c db'.
  apply (updateTemplate_in_place_keeps_cache demo_db c 5 1 subject_only db' c).
  reflexivity.
Defined.

(** ** createTemplate *)

Lemma first_version_exists_true tbl tenantId slug0 r :
  In r tbl -> tenant_id r = tenantId -> slug r = slug0 -> version r = 1 ->
  first_version_exists tbl tenantId slug0 = true.
Proof.
  intros Hr <- <- Hv. unfold first_version_exists. apply existsb_exists.
  exists r. split; [exact Hr|].
  now rewrite Z.eqb_refl, String.eqb_refl, Hv.
Qed.

Lemma filter_none {A} (g : A -> bool) (l : list A) :
  (forall x, In x l -> g x = false) -> List.filter g l = [].
Proof.
  induction l as [|x l IH]; intros H; [reflexivity|].
  cbn [List.filter]. rewrite (H x) by now left.
  apply IH. intros y Hy. apply H. now right.
Qed.

Section Create.
Variable bigint_in : string -> option Z.
Variable tenants : list Z.

(** X6. A slug is taken for good: once a row of version 1 exists for a
    tenant and slug, active or not, every later create for that tenant and
    slug is refused with 409 and changes nothing; in particular deleting
    the template does not free its slug. *)
Theorem createTemplate_slug_taken (db : Db) (now : Z)
    (req : CreateTemplateRequest) (f : CreateFields) (tid : Z) (r : TemplateRow) :
  create_validate req = inr f -> bigint_in (cf_tenantId f) = Some tid ->
  In r (rows db) -> tenant_id r = tid -> slug r = cf_slug f -> version r = 1 ->
  createTemplate bigint_in tenants db now req
  = (inl (App {| message := "Template slug already exists for this tenant";
                 statusCode := 409 |}), db)
  /\ (forall c t1 templateId db1 c1,
        deleteTemplate db c t1 templateId = (inr tt, db1, c1) ->
        createTemplate bigint_in tenants db1 now req
        = (inl (App {| message := "Template slug already exists for this tenant";
                       statusCode := 409 |}), db1)).
Proof.
  intros Hv Hb Hr Ht Hs Hver.
  assert (Hgen : forall db0 r0, In r0 (rows db0) -> tenant_id r0 = tid ->
            slug r0 = cf_slug f -> version r0 = 1 ->
            createTemplate bigint_in tenants db0 now req
            = (inl (App {| message := "Template slug already exists for this tenant";
                           statusCode := 409 |}), db0)).
  { intros db0 r0 H0 Ht0 Hs0 Hv0. unfold createTemplate. rewrite Hv, Hb.
    now rewrite (first_version_exists_true _ _ _ r0 H0 Ht0 Hs0 Hv0). }
  split; [exact (Hgen db r Hr Ht Hs Hver)|].
  intros c t1 templateId db1 c1 Hdel. unfold deleteTemplate in Hdel.
  destruct (List.filter _ (rows db)); [discriminate|].
  injection Hdel as <- _.
  apply (Hgen _ (if id r =? templateId then deactivate t1 r else r)).
  - cbn [rows]. unfold update_where_id.
    apply (in_map (fun r => if id r =? templateId then deactivate t1 r else r)).
    exact Hr.
  - destruct (id r =? templateId); exact Ht.
  - destruct (id r =? templateId); exact Hs.
  - destruct (id r =? templateId); exact Hver.
Qed.

(** X7. The ceiling of 50 counts active rows, not templates: a create for
    a free slug is refused with 429 as soon as the tenant has 50 active
    rows, and every update that adds an active version raises that count
    by one. *)
Theorem createTemplate_quota_counts_rows (db : Db) (now : Z) :
  (forall req f tid,
     create_validate req = inr f -> bigint_in (cf_tenantId f) = Some tid ->
     first_version_exists (rows db) tid (cf_slug f) = false ->
     50 <= active_count (rows db) tid ->
     createTemplate bigint_in tenants db now req
     = (inl (App {| message := "Tenant has reached the maximum of 50 templates";
                    statusCode := 429 |}), db))
  /\ (forall c templateId u db' c',
        updateTemplate db c now templateId u = (inr true, db', c') ->
        exists new,
          rows db' = (rows db ++ [new])%list
          /\ active_count (rows db') (tenant_id new)
             = active_count (rows db) (tenant_id new)
               + (if is_active new then 1 else 0)).
Proof.
  split.
  - intros req f tid Hv Hb Hfree Hcount. unfold createTemplate.
    rewrite Hv, Hb, Hfree.
    destruct (50 <=? active_count (rows db) tid) eqn:E; [reflexivity|].
    apply Z.leb_gt in E. lia.
  - intros c templateId u db' c' H. unfold updateTemplate in H.
    destruct (List.filter _ (rows db)) as [|cur rest]; [discriminate|].
    destruct (validate u); [discriminate|].
    destruct (isVersionUpdate u); [|discriminate].
    injection H as <- _. cbn [rows].
    exists (new_version_row db now cur u). split; [reflexivity|].
    unfold active_count.
    rewrite List.filter_app, List.length_app. cbn [List.filter].
    rewrite Z.eqb_refl. cbn [andb].
    destruct (is_active (new_version_row db now cur u)); cbn; lia.
Qed.

(** X8. A create that is accepted answers with the id drawn from the
    sequence and appends one active row of version 1 that carries the
    fields of the request; the lookup pinned to version 1 then returns that
    row, and so does default resolution when the tenant had no active row
    of that slug. *)
Theorem createTemplate_then_resolve (db : Db) (now : Z)
    (req : CreateTemplateRequest) (f : CreateFields) (tid : Z) :
  create_validate req = inr f -> bigint_in (cf_tenantId f) = Some tid ->
  first_version_exists (rows db) tid (cf_slug f) = false ->
  active_count (rows db) tid < 50 -> In tid tenants ->
  let new := created_row db now tid f in
  createTemplate bigint_in tenants db now req
  = (inr (pretty (next_id db)),
     {| rows := (rows db ++ [new])%list; next_id := next_id db + 1 |})
  /\ content new = cf_content f /\ subject_template new = cf_subjectTemplate f
  /\ resolveTemplate (rows db ++ [new])%list tid (cf_slug f) (Some 1)
     = inr (Some (to_record new))
  /\ ((forall r, In r (rows db) -> selects tid (cf_slug f) r = false) ->
      resolveTemplate (rows db ++ [new])%list tid (cf_slug f) None
      = inr (Some (to_record new))).
Proof.
  intros Hv Hb Hfree Hcount Htid new.
  assert (Hsel : selects tid (cf_slug f) new = true).
  { unfold selects, new, created_row. cbn.
    now rewrite Z.eqb_refl, String.eqb_refl. }
  split; [|split; [reflexivity|split; [reflexivity|split]]].
  - unfold createTemplate. rewrite Hv, Hb, Hfree.
    destruct (50 <=? active_count (rows db) tid) eqn:E;
      [apply Z.leb_le in E; lia|].
    replace (existsb (Z.eqb tid) tenants) with true; [reflexivity|].
    symmetry. apply existsb_exists. exists tid. split; [exact Htid|].
    apply Z.eqb_refl.
  - unfold resolveTemplate, resolve_row, pin.
    change (truthy_num 1) with true. change (int4 1) with true. cbn iota.
    rewrite List.filter_app, List.filter_app. cbn [List.filter]. rewrite Hsel.
    cbn [List.filter]. change (version new =? 1) with true. cbn iota.
    rewrite filter_none; [reflexivity|].
    intros r Hr. apply filter_In in Hr as [Hr Hs].
    apply selects_spec in Hs as (Ht & Hs & _).
    destruct (version r =? 1) eqn:E; [|reflexivity]. apply Z.eqb_eq in E.
    now rewrite (first_version_exists_true _ _ _ r Hr Ht Hs E) in Hfree.
  - intros Hnone. unfold resolveTemplate, resolve_row, pin.
    rewrite List.filter_app. cbn [List.filter]. rewrite Hsel.
    rewrite filter_none; [reflexivity | exact Hnone].
Qed.

(** ** previewTemplate *)

(** The version hint only enters the cache key. *)
Lemma renderTemplate_hint E (c : Renderer.Cache) now rec td v1 v2 :
  Renderer.effective_version rec v1 = Renderer.effective_version rec v2 ->
  Renderer.renderTemplate E c now rec td v1
  = Renderer.renderTemplate E c now rec td v2.
Proof.
  intros H. unfold Renderer.renderTemplate, Renderer.render_key. now rewrite H.
Qed.

(** On the tenant-and-slug path the record found has the pinned
    version. *)
Lemma preview_record_version tbl req rec :
  truthy_opt (pv_templateId req) = false ->
  preview_record bigint_in tbl req = inr rec ->
  Renderer.effective_version rec (pv_version req) = Renderer.version rec.
Proof.
  intros Hid Hrec.
  unfold preview_record in Hrec. rewrite Hid in Hrec.
  destruct (truthy_opt (pv_tenantId req) && truthy_opt (pv_slug req));
    [|discriminate].
  destruct (pv_tenantId req) as [text|]; [|discriminate].
  destruct (pv_slug req) as [slug0|]; [|discriminate].
  destruct (bigint_in text) as [tid|]; [|discriminate].
  destruct (resolveTemplate tbl tid slug0 (pv_version req)) as [e|[rec0|]] eqn:Er;
    try discriminate.
  injection Hrec as ->. unfold resolveTemplate in Er.
  destruct (resolve_row tbl tid slug0 (pv_version req)) as [e|[r|]] eqn:Err;
    try discriminate.
  injection Er as <-. apply resolve_row_Some in Err as (_ & Hc & _).
  destruct Hc as (_ & _ & _ & Hpin).
  unfold Renderer.effective_version. destruct (pv_version req) as [n|];
    [|reflexivity].
  unfold truthy_num. destruct (n =? 0) eqn:En; [reflexivity|].
  apply Z.eqb_neq in En. cbn. symmetry. now apply Hpin.
Qed.

(** X9. On the tenant-and-slug path of [previewTemplate] the version
    hint is redundant: the record found has the pinned version, so the
    preview is the rendering without a hint and reads and fills the very
    cache entry that a send of that template uses. *)
Theorem previewTemplate_by_slug (E : Renderer.Engine) (c : Renderer.Cache)
    (now : Z) (tbl : list TemplateRow) (req : PreviewTemplateRequest)
    (td : Json) (rec : Renderer.TemplateRecord) :
  truthy_opt (pv_templateId req) = false ->
  pv_templateData req = Some td -> truthy td = true ->
  preview_record bigint_in tbl req = inr rec ->
  Renderer.render_key rec td (pv_version req) = Renderer.render_key rec td None
  /\ previewTemplate bigint_in E c now tbl req
     = match Renderer.renderTemplate E c now rec td None with
       | (inr r, c1, tr) => (inr (rec, r), c1, tr)
       | (inl msg, c1, tr) => (inl (RenderError msg), c1, tr)
       end.
Proof.
  intros Hid Htd Htruthy Hrec.
  pose proof (preview_record_version tbl req rec Hid Hrec) as Hv.
  split; [unfold Renderer.render_key; now rewrite Hv|].
  unfold previewTemplate. rewrite Htd, Htruthy, Hrec. cbn [negb].
  now rewrite (renderTemplate_hint E c now rec td _ None Hv).
Qed.

End Create.

Lemma createTemplate_slug_taken_witness :
  createTemplate decimal_number [7] demo_db 5 create_welcome
  = (inl (App {| message := "Template slug already exists for this tenant";
                 statusCode := 409 |}), demo_db)
  /\ (forall c t1 templateId db1 c1,
        deleteTemplate demo_db c t1 templateId = (inr tt, db1, c1) ->
        createTemplate decimal_number [7] db1 5 create_welcome
        = (inl (App {| message := "Template slug already exists for this tenant";
                       statusCode := 409 |}), db1)).
Proof.
  apply (createTemplate_slug_taken decimal_number [7] demo_db 5 create_welcome
           {| cf_tenantId := "7"; cf_name := "Welcome";
              cf_slug := "welcome"; cf_engine := "handlebars";
              cf_content := "<h1>Hi {{name}}</h1>";
              cf_subjectTemplate := "Hi {{name}}";
              cf_plaintextTemplate := None |} 7 demo_row);
    first [reflexivity | now left].
Defined.

Lemma createTemplate_then_resolve_witness :
  let new := created_row demo_db 5 7 {| cf_tenantId := "7"; cf_name := "Goodbye";
                cf_slug := "goodbye"; cf_engine := "handlebars";
                cf_content := "<p>Bye {{name}}</p>";
                cf_subjectTemplate := "Bye {{name}}";
                cf_plaintextTemplate := None |} in
  createTemplate decimal_number [7] demo_db 5 create_goodbye
  = (inr "2", {| rows := (rows demo_db ++ [new])%list; next_id := 3 |})
  /\ content new = "<p>Bye {{name}}</p>" /\ subject_template new = "Bye {{name}}"
  /\ resolveTemplate (rows demo_db ++ [new])%list 7 "goodbye" (Some 1)
     = inr (Some (to_record new))
  /\ ((forall r, In r (rows demo_db) -> selects 7 "goodbye" r = false) ->
      resolveTemplate (rows demo_db ++ [new])%list 7 "goodbye" None
      = inr (Some (to_record new))).
Proof.
  apply (createTemplate_then_resolve decimal_number [7] demo_db 5 create_goodbye
           {| cf_tenantId := "7"; cf_name := "Goodbye";
              cf_slug := "goodbye"; cf_engine := "handlebars";
              cf_content := "<p>Bye {{name}}</p>";
              cf_subjectTemplate := "Bye {{name}}";
              cf_plaintextTemplate := None |} 7);
    first [reflexivity | now left].
Defined.

Lemma previewTemplate_by_slug_witness :
  Renderer.render_key (to_record demo_row) (JObj [("name", JStr "Ann")]) (Some 1)
  = Renderer.render_key (to_record demo_row) (JObj [("name", JStr "Ann")]) None
  /\ previewTemplate decimal_number Renderer.demo_engine ∅ 0 (rows demo_db)
       preview_welcome
     = match Renderer.renderTemplate Renderer.demo_engine ∅ 0 (to_record demo_row)
               (JObj [("name", JStr "Ann")]) None with
       | (inr r, c1, tr) => (inr (to_record demo_row, r), c1, tr)
       | (inl msg, c1, tr) => (inl (RenderError msg), c1, tr)
       end.
Proof.
  apply (previewTemplate_by_slug decimal_number Renderer.demo_engine ∅ 0
           (rows demo_db) preview_welcome (JObj [("name", JStr "Ann")])
           (to_record demo_row)); reflexivity.
Defined.

End TemplateProps.

(* ===================================================================== *)
(** * The renderer: further properties                                    *)
(* ===================================================================== *)

Module RendererProps.
Import Js Renderer RendererFacts Admin.

(** ** What makes a render fail *)

(** X10. On a cache miss [renderTemplate] throws exactly when Handlebars
    rejects the subject or the content, or the engine is mjml and MJML
    rejects the expanded markup; a failure of juice, of DOMPurify or of the
    plain-text template never makes it throw.  A result carries the
    expanded subject and the inlined, sanitized markup. *)
Theorem renderTemplate_miss_outcome E (c : Cache) now rec data v :
  fst (cache_get c now (render_key rec data v)) = None ->
  ((exists r, fst (fst (renderTemplate E c now rec data v)) = inr r)
   <-> exists s b,
         handlebars E (subject_template rec) data = inr s
         /\ handlebars E (content rec) data = inr b
         /\ (engine rec = "mjml" -> exists h, mjml2html E b = inr h))
  /\ (forall r, fst (fst (renderTemplate E c now rec data v)) = inr r ->
        exists s b,
          handlebars E (subject_template rec) data = inr s
          /\ handlebars E (content rec) data = inr b
          /\ subject r = s
          /\ html r = sanitizeHtml E (inlineCss E
                        (if String.eqb (engine rec) "mjml"
                         then match mjml2html E b with inr h => h | inl _ => b end
                         else b))).
Proof.
  intros Hmiss. unfold renderTemplate.
  destruct (cache_get c now (render_key rec data v)) as [[cached|] c1];
    [discriminate|].
  unfold compileTemplate, processMjml.
  destruct (handlebars E (subject_template rec) data) as [e1|s] eqn:Es.
  { cbn. split; [split|]; [intros [r H]; discriminate | | intros r H; discriminate].
    intros (s & b & H & _). discriminate. }
  destruct (handlebars E (content rec) data) as [e2|b] eqn:Eb.
  { cbn. split; [split|]; [intros [r H]; discriminate | | intros r H; discriminate].
    intros (s0 & b0 & _ & H & _). discriminate. }
  destruct (String.eqb (engine rec) "mjml") eqn:Eeng.
  - apply String.eqb_eq in Eeng.
    destruct (mjml2html E b) as [e3|h] eqn:Em.
    + cbn. split; [split|]; [intros [r H]; discriminate | | intros r H; discriminate].
      intros (s0 & b0 & _ & [= <-] & H). destruct (H Eeng) as [h Hh].
      congruence.
    + destruct (generatePlainText _ _ _ _) as [t tr]. cbn.
      split; [split|].
      * intros _. exists s, b. repeat split. intros _. eauto.
      * eauto.
      * intros r [= <-]. exists s, b. cbn. rewrite Em. repeat split.
  - apply String.eqb_neq in Eeng.
    destruct (generatePlainText _ _ _ _) as [t tr]. cbn.
    split; [split|].
    + intros _. exists s, b. repeat split. intros H. contradiction.
    + eauto.
    + intros r [= <-]. exists s, b. cbn. repeat split.
Qed.

Lemma renderTemplate_miss_outcome_witness :
  ((exists r, fst (fst (renderTemplate demo_engine ∅ 0 demo_record demo_data None))
              = inr r)
   <-> exists s b,
         handlebars demo_engine (subject_template demo_record) demo_data = inr s
         /\ handlebars demo_engine (content demo_record) demo_data = inr b
         /\ (engine demo_record = "mjml" ->
             exists h, mjml2html demo_engine b = inr h))
  /\ (forall r,
        fst (fst (renderTemplate demo_engine ∅ 0 demo_record demo_data None))
        = inr r ->
        exists s b,
          handlebars demo_engine (subject_template demo_record) demo_data = inr s
          /\ handlebars demo_engine (content demo_record) demo_data = inr b
          /\ subject r = s
          /\ html r = sanitizeHtml demo_engine (inlineCss demo_engine
                        (if String.eqb (engine demo_record) "mjml"
                         then match mjml2html demo_engine b with
                              | inr h => h | inl _ => b end
                         else b))).
Proof.
  apply (renderTemplate_miss_outcome demo_engine ∅ 0 demo_record demo_data None).
  reflexivity.
Defined.

(** ** Entries and the records they are served to *)

(** X11. A cache hit looks at the id, the effective version and the data
    only: once a render of a record has returned, a record with the same id
    and version gets that same result until the entry expires, whatever
    its subject, content, engine or plain text are, and nothing is
    compiled for it. *)
Theorem renderTemplate_hit_ignores_content E (c : Cache) t1 t2 rec1 rec2 data
    v1 v2 r c1 tr :
  renderTemplate E c t1 rec1 data v1 = (inr r, c1, tr) ->
  id rec2 = id rec1 ->
  effective_version rec2 v2 = effective_version rec1 v1 ->
  unexpired c1 (render_key rec1 data v1) t2 ->
  renderTemplate E c1 t2 rec2 data v2 = (inr r, c1, []).
Proof.
  intros H1 Hid Hv Hlive.
  destruct (renderTemplate_caches _ _ _ _ _ _ _ _ _ H1) as (e & He & <-).
  assert (Hkey : render_key rec2 data v2 = render_key rec1 data v1).
  { unfold render_key. now rewrite Hid, Hv. }
  unfold renderTemplate. rewrite Hkey.
  rewrite (cache_get_hit _ _ _ _ He (Hlive _ He)). reflexivity.
Qed.

(** The sample record with another subject and content. *)
Lemma renderTemplate_hit_ignores_content_witness :
  renderTemplate demo_engine
    (snd (fst (renderTemplate demo_engine ∅ 0 demo_record demo_data None)))
    1000
    {| id := "1"; tenant_id := "1"; name := "Test Template";
       slug := "test-template"; engine := "handlebars";
       content := "<p>Edited</p>"; subject_template := "Edited";
       plaintext_template := None; version := 1; is_active := true |}
    demo_data None
  = (inr {| html := "<div>Hello World!</div>"; text := "Hello World!";
            subject := "Hello World" |},
     snd (fst (renderTemplate demo_engine ∅ 0 demo_record demo_data None)),
     []).
Proof.
  apply (renderTemplate_hit_ignores_content demo_engine ∅ 0 1000 demo_record _
           demo_data None None _ _
           ["Hello {{name}}"; "<div>Hello {{name}}!</div>"; "Hello {{name}}!"]).
  - vm_compute. reflexivity.
  - reflexivity.
  - reflexivity.
  - intros e He. vm_compute in He. injection He as <-. vm_compute. discriminate.
Defined.

(** X12. An entry is served up to its expiry time and never after it: at
    a later time the call behaves as if the entry were absent, compiles
    again and, when it returns, stores the result for one more hour. *)
Theorem renderTemplate_expiry E (c : Cache) now rec data v e :
  c !! render_key rec data v = Some e ->
  (now <= expires e ->
     renderTemplate E c now rec data v = (inr (value e), c, []))
  /\ (expires e < now ->
        renderTemplate E c now rec data v
        = renderTemplate E (delete (render_key rec data v) c) now rec data v
        /\ forall r c1 tr,
             renderTemplate E c now rec data v = (inr r, c1, tr) ->
             tr <> []
             /\ c1 !! render_key rec data v
                = Some {| value := r; expires := now + 3600000 |}).
Proof.
  intros He. split.
  - intros Hle. unfold renderTemplate.
    now rewrite (cache_get_hit _ _ _ _ He Hle).
  - intros Hlt.
    assert (Hsame : renderTemplate E c now rec data v
              = renderTemplate E (delete (render_key rec data v) c) now rec data v).
    { unfold renderTemplate, cache_get. rewrite He, lookup_delete_eq.
      apply Z.ltb_lt in Hlt. rewrite Hlt. reflexivity. }
    split; [exact Hsame|].
    intros r c1 tr H.
    assert (Htr : tr <> []).
    { unfold renderTemplate, cache_get in H. rewrite He in H.
      apply Z.ltb_lt in Hlt. rewrite Hlt in H.
      repeat (match type of H with
              | context [match ?x with _ => _ end] => destruct x
              end); injection H as _ _ <-; discriminate. }
    split; [exact Htr|].
    exact (renderTemplate_fresh_entry _ _ _ _ _ _ _ _ _ H Htr).
Qed.

Lemma renderTemplate_expiry_witness :
  (0 <= 3600000 ->
     renderTemplate demo_engine
       (<[render_key demo_record demo_data None :=
            {| value := {| html := "h"; text := "t"; subject := "s" |};
               expires := 3600000 |}]> ∅)
       0 demo_record demo_data None
     = (inr {| html := "h"; text := "t"; subject := "s" |},
        <[render_key demo_record demo_data None :=
            {| value := {| html := "h"; text := "t"; subject := "s" |};
               expires := 3600000 |}]> ∅, []))
  /\ (3600000 < 0 ->
        renderTemplate demo_engine
          (<[render_key demo_record demo_data None :=
               {| value := {| html := "h"; text := "t"; subject := "s" |};
                  expires := 3600000 |}]> ∅)
          0 demo_record demo_data None
        = renderTemplate demo_engine
            (delete (render_key demo_record demo_data None)
               (<[render_key demo_record demo_data None :=
                    {| value := {| html := "h"; text := "t"; subject := "s" |};
                       expires := 3600000 |}]> ∅))
            0 demo_record demo_data None
        /\ forall r c1 tr,
             renderTemplate demo_engine
               (<[render_key demo_record demo_data None :=
                    {| value := {| html := "h"; text := "t"; subject := "s" |};
                       expires := 3600000 |}]> ∅)
               0 demo_record demo_data None = (inr r, c1, tr) ->
             tr <> []
             /\ c1 !! render_key demo_record demo_data None
                = Some {| value := r; expires := 0 + 3600000 |}).
Proof.
  apply (renderTemplate_expiry demo_engine _ 0 demo_record demo_data None
           {| value := {| html := "h"; text := "t"; subject := "s" |};
              expires := 3600000 |}).
  apply lookup_insert_eq.
Defined.

(** ** Cache keys *)

Lemma startsWith_refl_app p s : startsWith p (p ++ s) = true.
Proof.
  rewrite <- (StringFacts.app_nil_r p) at 1.
  rewrite StringFacts.startsWith_app. reflexivity.
Qed.

Lemma underscore_split a b x y :
  no_underscore a = true -> no_underscore b = true ->
  a ++ "_" ++ x = b ++ "_" ++ y -> a = b /\ x = y.
Proof.
  intros Ha Hb H.
  assert (Hab : a = b).
  { apply (prefix_id_inj a b y Ha Hb).
    rewrite <- H. rewrite <- StringFacts.app_assoc. apply startsWith_refl_app. }
  subst b. split; [reflexivity|].
  apply StringFacts.app_cancel_l in H.
  now apply (StringFacts.app_cancel_l "_") in H.
Qed.

(** X13. Cache keys are unambiguous for the ids of the table: two keys
    are equal only if they were built from the same id, the same version
    and the same data hash, so entries of different templates or versions
    never overwrite each other. *)
Theorem getCacheKey_injective (tid tid' ver ver' : Z) (h h' : string) :
  getCacheKey (pretty tid) ver h = getCacheKey (pretty tid') ver' h'
  <-> tid = tid' /\ ver = ver' /\ h = h'.
Proof.
  split; [|intros (-> & -> & ->); reflexivity].
  unfold getCacheKey. intros H.
  apply StringFacts.app_cancel_l in H.
  change (pretty tid ++ "_" ++ ("v" ++ pretty ver ++ "_" ++ h)
          = pretty tid' ++ "_" ++ ("v" ++ pretty ver' ++ "_" ++ h')) in H.
  apply underscore_split in H as [Hid H]; try apply pretty_Z_no_underscore.
  apply (StringFacts.app_cancel_l "v") in H.
  apply underscore_split in H as [Hver H]; try apply pretty_Z_no_underscore.
  apply (inj pretty) in Hid, Hver. auto.
Qed.

(** ** The data hash as a string *)

Lemma fold_units_app {A} (g : A -> ascii -> A) x y a :
  fold_units g (x ++ y) a = fold_units g y (fold_units g x a).
Proof.
  revert a. induction x as [|ch x IH]; intros a; [reflexivity|].
  rewrite StringFacts.app_cons. cbn [fold_units]. apply IH.
Qed.

Lemma all_chars_app p x y :
  all_chars p (x ++ y) = all_chars p x && all_chars p y.
Proof.
  induction x as [|ch x IH]; [reflexivity|].
  rewrite StringFacts.app_cons. cbn [all_chars]. rewrite IH.
  now rewrite andb_assoc.
Qed.

Lemma digit36_ok d :
  0 <= d < 36 ->
  digit36_value (digit36 d) = d /\ is_digit36 (digit36 d) = true
  /\ Ascii.eqb (digit36 d) "_" = false.
Proof.
  intros Hd.
  assert (Hcases : d = 0 \/ d = 1 \/ d = 2 \/ d = 3 \/ d = 4 \/ d = 5 \/ d = 6
            \/ d = 7 \/ d = 8 \/ d = 9 \/ d = 10 \/ d = 11 \/ d = 12 \/ d = 13
            \/ d = 14 \/ d = 15 \/ d = 16 \/ d = 17 \/ d = 18 \/ d = 19
            \/ d = 20 \/ d = 21 \/ d = 22 \/ d = 23 \/ d = 24 \/ d = 25
            \/ d = 26 \/ d = 27 \/ d = 28 \/ d = 29 \/ d = 30 \/ d = 31
            \/ d = 32 \/ d = 33 \/ d = 34 \/ d = 35) by lia.
  repeat (destruct Hcases as [->|Hcases]; [vm_compute; auto|]).
  subst d. vm_compute. auto.
Qed.

(** The digits produced for [n] in front of [acc], read back. *)
Lemma toString36_go_spec fuel n acc :
  0 <= n < 36 ^ Z.of_nat fuel ->
  exists d,
    toString36_go fuel n acc = d ++ acc
    /\ all_chars is_digit36 d = true /\ no_underscore d = true
    /\ (0 < n -> d <> "")
    /\ forall a, fold_units (fun x c => x * 36 + digit36_value c) d a
                 = a * 36 ^ Z.of_nat (String.length d) + n.
Proof.
  revert n acc. induction fuel as [|f IH]; intros n acc Hn.
  - cbn in Hn. assert (n = 0) as -> by lia. exists "".
    split; [reflexivity|]. split; [reflexivity|]. split; [reflexivity|].
    split; [lia|]. intros a. cbn. lia.
  - cbn [toString36_go]. destruct (n <=? 0) eqn:E.
    + apply Z.leb_le in E. assert (n = 0) as -> by lia. exists "".
      split; [reflexivity|]. split; [reflexivity|]. split; [reflexivity|].
      split; [lia|]. intros a. cbn. lia.
    + apply Z.leb_gt in E.
      assert (Hq : 0 <= n / 36 < 36 ^ Z.of_nat f).
      { split; [apply Z.div_pos; lia|].
        apply Z.div_lt_upper_bound; [lia|].
        rewrite Nat2Z.inj_succ, Z.pow_succ_r in Hn by lia. lia. }
      assert (Hm : 0 <= n mod 36 < 36) by (apply Z.mod_pos_bound; lia).
      destruct (digit36_ok _ Hm) as (Hval & Hdig & Hund).
      destruct (IH (n / 36) (String (digit36 (n mod 36)) acc) Hq)
        as (d & Hgo & Hall & Hno & _ & Hfold).
      exists (d ++ String (digit36 (n mod 36)) "").
      split; [|split; [|split; [|split]]].
      * rewrite Hgo, StringFacts.app_assoc. reflexivity.
      * rewrite all_chars_app, Hall. cbn. now rewrite Hdig.
      * unfold no_underscore in *. rewrite all_chars_app, Hno. cbn.
        now rewrite Hund.
      * intros _. destruct d; discriminate.
      * intros a. rewrite fold_units_app, Hfold. cbn [fold_units].
        rewrite Hval, StringFacts.length_app. cbn [String.length].
        rewrite Nat2Z.inj_add. change (Z.of_nat 1) with 1.
        rewrite Z.pow_add_r, Z.pow_1_r by lia.
        pose proof (Z.div_mod n 36 ltac:(lia)). lia.
Qed.

Lemma toString36_spec n :
  0 <= n ->
  toString36 n <> "" /\ all_chars is_digit36 (toString36 n) = true
  /\ no_underscore (toString36 n) = true /\ from36 (toString36 n) = n.
Proof.
  intros Hn. unfold toString36. destruct (n <=? 0) eqn:E.
  - apply Z.leb_le in E. assert (n = 0) as -> by lia.
    split; [discriminate|]. split; [reflexivity|]. split; reflexivity.
  - apply Z.leb_gt in E.
    assert (Hfuel : 0 <= n < 36 ^ Z.of_nat (S (Z.to_nat (Z.log2 n)))).
    { split; [lia|].
      pose proof (Z.log2_spec n E) as [_ Hlt].
      pose proof (Z.log2_nonneg n) as Hlog.
      rewrite Nat2Z.inj_succ, Z2Nat.id by lia.
      apply Z.lt_le_trans with (2 ^ Z.succ (Z.log2 n)); [exact Hlt|].
      apply Z.pow_le_mono_l. lia. }
    destruct (toString36_go_spec _ n "" Hfuel) as (d & Hgo & Hall & Hno & Hne & Hfold).
    rewrite Hgo, StringFacts.app_nil_r.
    split; [auto|]. split; [exact Hall|]. split; [exact Hno|].
    unfold from36. rewrite Hfold. lia.
Qed.

Lemma toInt32_range z : -2147483648 <= toInt32 z < 2147483648.
Proof.
  unfold toInt32.
  pose proof (Z.mod_pos_bound (z + 2147483648) 4294967296 ltac:(lia)). lia.
Qed.

Lemma hash_loop_range s h :
  -2147483648 <= h < 2147483648 ->
  -2147483648 <= hash_loop h s < 2147483648.
Proof.
  unfold hash_loop. revert h. induction s as [|c s IH]; intros h Hh; [exact Hh|].
  cbn [fold_units]. apply IH. unfold hash_step, band. apply toInt32_range.
Qed.

(** X14. The data hash is the base-36 numeral of the absolute value of a
    32-bit hash: it is never empty, holds only the digits 0-9 and a-z (so
    no underscore), and reads back as that absolute value, which is at
    most 2^31. *)
Theorem generateDataHash_numeral (data : TemplateData) :
  generateDataHash data <> ""
  /\ all_chars is_digit36 (generateDataHash data) = true
  /\ no_underscore (generateDataHash data) = true
  /\ from36 (generateDataHash data) = Z.abs (hash_loop 0 (stringify data))
  /\ 0 <= from36 (generateDataHash data) <= 2147483648.
Proof.
  unfold generateDataHash, hash_string.
  pose proof (hash_loop_range (stringify data) 0 ltac:(lia)) as Hr.
  destruct (toString36_spec (Z.abs (hash_loop 0 (stringify data))) ltac:(lia))
    as (H1 & H2 & H3 & H4).
  repeat split; try assumption; rewrite H4; lia.
Qed.

(** ** Invalidation for any identifier *)

(** X15. For any identifier text, invalidation removes every entry built
    for it, and a render of that template afterwards is a miss that
    compiles again; it also removes the entries of any identifier that
    extends it by an underscore, and keeps every key that does not start
    with the prefix of the identifier. *)
Theorem invalidateTemplateCache_any_id (c : Cache) (templateId : string) :
  (forall ver h,
     invalidateTemplateCache c templateId !! getCacheKey templateId ver h = None)
  /\ (forall E now rec data v,
        id rec = templateId ->
        fst (cache_get (invalidateTemplateCache c templateId) now
               (render_key rec data v)) = None
        /\ snd (renderTemplate E (invalidateTemplateCache c templateId) now
                  rec data v) <> [])
  /\ (forall rest ver h,
        invalidateTemplateCache c templateId
          !! getCacheKey (templateId ++ "_" ++ rest) ver h = None)
  /\ (forall k, startsWith ("template_" ++ templateId ++ "_") k = false ->
        invalidateTemplateCache c templateId !! k = c !! k).
Proof.
  assert (Hown : forall ver h,
            invalidateTemplateCache c templateId !! getCacheKey templateId ver h
            = None).
  { intros ver h. rewrite lookup_invalidate. unfold getCacheKey.
    rewrite StringFacts.startsWith_app.
    change ("_v" ++ pretty ver ++ "_" ++ h)
      with ("_" ++ ("v" ++ pretty ver ++ "_" ++ h)).
    rewrite StringFacts.startsWith_app. reflexivity. }
  split; [exact Hown|]. split; [|split].
  - intros E now rec data v Hid.
    assert (Hmiss : cache_get (invalidateTemplateCache c templateId) now
                      (render_key rec data v)
                    = (None, invalidateTemplateCache c templateId)).
    { unfold cache_get, render_key. rewrite Hid, Hown. reflexivity. }
    split; [now rewrite Hmiss|].
    unfold renderTemplate. rewrite Hmiss.
    repeat (match goal with
            | |- context [match ?x with _ => _ end] => destruct x
            end); discriminate.
  - intros rest ver h. rewrite lookup_invalidate. unfold getCacheKey.
    rewrite StringFacts.startsWith_app.
    rewrite !StringFacts.app_assoc.
    rewrite StringFacts.startsWith_app. reflexivity.
  - intros k Hk. rewrite lookup_invalidate. now rewrite Hk.
Qed.

End RendererProps.

(* ===================================================================== *)
(** * Dispatch: further properties                                        *)
(* ===================================================================== *)

Module DispatchProps.
Import Js Dispatch DispatchFacts Admin.

(** ** The log table under a dispatch *)

Lemma next_begin db : next_log_id (begin db) = next_log_id db.
Proof. unfold begin. now destruct (txn db). Qed.

Lemma map_update_absent (l : list LogRow) nid f :
  (forall r, In r l -> log_id r < nid) ->
  List.map (fun r => if log_id r =? nid then f r else r) l = l.
Proof.
  intros H. induction l as [|r l IH]; [reflexivity|].
  cbn [List.map]. rewrite IH by (intros; apply H; now right).
  destruct (log_id r =? nid) eqn:E; [|reflexivity].
  apply Z.eqb_eq in E. specialize (H r ltac:(now left)). lia.
Qed.

Lemma map_update_last (l : list LogRow) r0 nid f :
  log_id r0 = nid ->
  (forall r, In r l -> log_id r < nid) ->
  List.map (fun r => if log_id r =? nid then f r else r) (l ++ [r0])%list
  = (l ++ [f r0])%list.
Proof.
  intros Hid H. rewrite List.map_app, (map_update_absent _ _ _ H).
  cbn [List.map]. now rewrite Hid, Z.eqb_refl.
Qed.

(** ** The two ways a request ends *)

Ltac reject :=
  left; eexists; split; revgoals;
  [reflexivity | left; do 2 eexists; split; [reflexivity | simpl; auto]].

(** A request either ends before anything is written, refused with an
    application error or stopped by an error of the resolution query, or it
    inserts a log row and runs the retry loop on one message. *)
Lemma sendEmail_shape E env transport now tenant body w :
  (exists error,
      ((exists msg code, error = AppErr msg code /\ In code [400; 401; 404])
       \/ exists e, error = DbErr e)
      /\ sendEmail E env transport now tenant body w
         = settle env tenant body (inl error, w, [], None))
  \/ (exists t toA m tpl c1,
        tenant = Some t /\ to body = Some toA
        /\ mo_to m = join ", " (addresses toA)
        /\ (truthy_opt (templateSlug body) = false -> c1 = cache w)
        /\ sendEmail E env transport now tenant body w
           = settle env tenant body
               (send_and_log env transport now t (inserted w now t m c1)
                  (next_log_id (logdb w)) m tpl)).
Proof.
  change (sendEmail E env transport now tenant body w)
    with (settle env tenant body
            (if truthy_opt (templateSlug body)
             then template_mode E env transport now tenant body w
             else legacy_mode env transport now tenant body w)).
  replace (next_log_id (logdb w)) with (next_log_id (begin (logdb w)))
    by apply next_begin.
  destruct (truthy_opt (templateSlug body)) eqn:Emode.
  - unfold template_mode.
    destruct (templateSlug body) as [slug0|]; [|reject].
    destruct (templateData body) as [td|]; [|reject].
    destruct (to body) as [toA|]; [|reject].
    destruct (truthy_string slug0 && truthy td && truthy_address toA);
      [|reject].
    destruct tenant as [t|]; [|reject].
    destruct (Store.resolveTemplate _ _ _ _) as [e|[rec|]];
      [left; eexists; split; [right; eexists; reflexivity | reflexivity]
      | | reject].
    destruct (renderEmailContent _ _ _ _ _ _ _) as [rc c1].
    right. exists t, toA, (template_mail t body toA rc),
             (Some (slug0, Renderer.version rec)), c1.
    split; [reflexivity|]. split; [reflexivity|]. split; [reflexivity|].
    split; [intros H; discriminate H | reflexivity].
  - unfold legacy_mode.
    destruct (to body) as [toA|]; [|reject].
    destruct (subject body) as [subj|]; [|reject].
    destruct (htmlBody body) as [hb|]; [|reject].
    destruct (truthy_address toA && truthy_string subj && truthy_string hb);
      [|reject].
    destruct tenant as [t|]; [|reject].
    right. exists t, toA,
      {| mo_from := or_else (from body) (from_email t);
         mo_to := join ", " (addresses toA);
         mo_cc := joined (optional_addresses (cc body));
         mo_bcc := joined (optional_addresses (bcc body));
         mo_replyTo := None;
         mo_subject := subj;
         mo_html := if truthy_string hb
                    then Some (Legacy.renderTemplate (Some hb) (variables body))
                    else None;
         mo_text := if truthy_opt (textBody body)
                    then Some (Legacy.renderTemplate (textBody body) (variables body))
                    else None |}, None, (cache w).
    split; [reflexivity|]. split; [reflexivity|]. split; [reflexivity|].
    split; [reflexivity | reflexivity].
Qed.

(** The message is accepted: the row is marked sent and committed. *)
Lemma settle_sent env transport now t body w m c1 tpl mid le evs :
  logs_ok (logdb w) ->
  deliver env transport m = (Some mid, le, evs) ->
  settle env (Some t) body
    (send_and_log env transport now t (inserted w now t m c1)
       (next_log_id (logdb w)) m tpl)
  = (inr {| messageId := mid; sent_template := tpl |},
     {| templates := templates w;
        logdb := {| logs := (logs (logdb w)
                             ++ [log_row (next_log_id (logdb w)) now (tenant_id t) m
                                   "sent" None (Some now)])%list;
                    next_log_id := next_log_id (logdb w) + 1;
                    txn := None |};
        cache := c1 |},
     (evs ++ sent_webhook env t (next_log_id (logdb w)) (mo_subject m))%list).
Proof.
  intros [Htxn Hids] Hd. unfold settle, send_and_log. rewrite Hd.
  destruct w as [tpls [l n tx] c]. cbn [logdb logs next_log_id txn] in *. subst tx.
  unfold inserted, insert_log, begin, commit, update_log, with_logdb.
  cbn [logs next_log_id txn logdb templates cache snd fst].
  erewrite map_update_last; [|reflexivity|exact Hids].
  reflexivity.
Qed.

(** The last attempt failed: the transaction is rolled back, and the
    [UPDATE] of the catch block finds no row. *)
Lemma settle_failed env transport now t body w m c1 tpl err evs :
  logs_ok (logdb w) ->
  deliver env transport m = (None, Some err, evs) ->
  settle env (Some t) body
    (send_and_log env transport now t (inserted w now t m c1)
       (next_log_id (logdb w)) m tpl)
  = (inl (SendErr err),
     {| templates := templates w;
        logdb := {| logs := logs (logdb w);
                    next_log_id := next_log_id (logdb w) + 1;
                    txn := None |};
        cache := c1 |},
     (evs ++ snd (on_error env (Some t) body w (Some (next_log_id (logdb w)))
                    (SendErr err)))%list).
Proof.
  intros [Htxn Hids] Hd. unfold settle, send_and_log. rewrite Hd.
  destruct w as [tpls [l n tx] c]. cbn [logdb logs next_log_id txn] in *. subst tx.
  unfold inserted, insert_log, begin, on_error, rollback, update_log, with_logdb.
  cbn [logs next_log_id txn logdb templates cache snd fst].
  rewrite (map_update_absent l n _ Hids).
  destruct (truthy_num n); reflexivity.
Qed.

(** The loop did not run: the row is committed as sent, and the catch
    block then marks it failed. *)
Lemma settle_null env transport now t body w m c1 tpl evs :
  logs_ok (logdb w) ->
  deliver env transport m = (None, None, evs) ->
  exists st er,
  settle env (Some t) body
    (send_and_log env transport now t (inserted w now t m c1)
       (next_log_id (logdb w)) m tpl)
  = (inl (TypeErr "Cannot read properties of null (reading 'messageId')"),
     {| templates := templates w;
        logdb := {| logs := (logs (logdb w)
                             ++ [log_row (next_log_id (logdb w)) now (tenant_id t) m
                                   st er (Some now)])%list;
                    next_log_id := next_log_id (logdb w) + 1;
                    txn := None |};
        cache := c1 |},
     (evs ++ snd (on_error env (Some t) body w (Some (next_log_id (logdb w)))
                    (TypeErr "Cannot read properties of null (reading 'messageId')")))%list).
Proof.
  intros [Htxn Hids] Hd. unfold settle, send_and_log. rewrite Hd.
  destruct w as [tpls [l n tx] c]. cbn [logdb logs next_log_id txn] in *. subst tx.
  unfold inserted, insert_log, begin, on_error, rollback, commit, update_log, with_logdb.
  cbn [logs next_log_id txn logdb templates cache snd fst].
  erewrite map_update_last; [|reflexivity|exact Hids].
  destruct (truthy_num n).
  - erewrite map_update_last; [|reflexivity|exact Hids]. do 2 eexists. reflexivity.
  - do 2 eexists. reflexivity.
Qed.

(** ** The events of the retry loop *)

Lemma sends_schedule_attempts env m k attempt :
  sends (schedule env m k attempt)
  = List.map (fun j : nat => (attempt + Z.of_nat j, m)) (seq 0 k).
Proof.
  revert attempt. induction k as [|k IH]; intros attempt; [reflexivity|].
  cbn [schedule seq List.map]. rewrite Z.add_0_r.
  destruct k as [|k1]; [reflexivity|].
  unfold sends in *. cbn [omap list_omap]. f_equal.
  rewrite IH, <- seq_shift, List.map_map. apply List.map_ext. intros j.
  f_equal. lia.
Qed.

Lemma webhooks_schedule env m k attempt :
  webhooks (schedule env m k attempt) = [].
Proof.
  revert attempt. induction k as [|k IH]; intros attempt; [reflexivity|].
  cbn [schedule]. destruct k as [|k1]; [reflexivity|].
  unfold webhooks in *. cbn [omap list_omap]. apply IH.
Qed.

Lemma webhooks_app evs1 evs2 :
  webhooks (evs1 ++ evs2)%list = (webhooks evs1 ++ webhooks evs2)%list.
Proof. unfold webhooks. apply omap_app. Qed.

(** What one run of the loop leaves behind. *)
Lemma deliver_outcome env transport m info le evs :
  deliver env transport m = (info, le, evs) ->
  exists k : nat,
    Z.of_nat k <= Z.max 0 (RETRY_MAX_ATTEMPTS env)
    /\ sends evs = attempts k m /\ webhooks evs = []
    /\ match info with
       | Some mid => (0 < k)%nat /\ transport (Z.of_nat k) m = inr mid
       | None => True
       end.
Proof.
  intros Hd. unfold deliver in Hd.
  apply send_loop_spec in Hd; [|lia].
  destruct Hd as (k & Hk & Hevs & _ & Hzero & Hlast).
  exists k. split; [lia|].
  split; [rewrite Hevs; apply sends_schedule_attempts|].
  split; [rewrite Hevs; apply webhooks_schedule|].
  destruct info as [mid|]; [|exact I].
  destruct k as [|k1].
  { destruct (Hzero eq_refl) as (Habs & _). discriminate Habs. }
  split; [lia|]. specialize (Hlast ltac:(congruence)).
  replace (1 + Z.of_nat (S k1) - 1) with (Z.of_nat (S k1)) in Hlast by lia.
  destruct (transport (Z.of_nat (S k1)) m) as [e|mid'].
  - destruct Hlast as (Habs & _). discriminate Habs.
  - destruct Hlast as (Hinfo & _). congruence.
Qed.

Lemma world_eta (w : World) :
  {| templates := templates w; logdb := logdb w; cache := cache w |} = w.
Proof. now destruct w. Qed.

Lemma rollback_closed db : txn db = None -> rollback db = db.
Proof. unfold rollback. now intros ->. Qed.

(** The catch block of a request that has no log row yet leaves the
    world as it was. *)
Lemma settle_rejected env tenant body w error :
  txn (logdb w) = None ->
  settle env tenant body (inl error, w, [], None) = (inl error, w, []).
Proof.
  intros Htxn. unfold settle, on_error. rewrite (rollback_closed _ Htxn).
  unfold with_logdb. rewrite world_eta.
  destruct (webhook_target env tenant); reflexivity.
Qed.

Lemma settle_never_AppErr env transport now t tenant body w logId m tpl msg code w1 evs :
  settle env tenant body (send_and_log env transport now t w logId m tpl)
  <> (inl (AppErr msg code), w1, evs).
Proof.
  unfold settle, send_and_log.
  destruct (deliver env transport m) as [[[mid|] [err|]] evs0];
    try destruct (on_error _ _ _ _ _ _); intros H; discriminate H.
Qed.

(** X16. A request that is refused with an application error (400 for
    missing fields, 401 without a tenant, 404 for an unknown template) has
    written nothing and called nothing: the templates, the log table, its
    sequence and the cache are as before and there is no event. *)
Theorem sendEmail_rejection_inert E env transport now tenant body w
    msg code w1 evs :
  txn (logdb w) = None ->
  sendEmail E env transport now tenant body w = (inl (AppErr msg code), w1, evs) ->
  w1 = w /\ evs = [] /\ In code [400; 401; 404].
Proof.
  intros Htxn H.
  destruct (sendEmail_shape E env transport now tenant body w)
    as [(error & Hkind & Hs)|(t & toA & m & tpl & c1 & _ & _ & _ & _ & Hs)];
    rewrite Hs in H.
  - rewrite (settle_rejected _ _ _ _ _ Htxn) in H.
    injection H as -> <- <-.
    destruct Hkind as [(msg' & code' & [= <- <-] & Hcode)|(e & He)];
      [auto | discriminate He].
  - now apply settle_never_AppErr in H.
Qed.

Lemma sendEmail_rejection_inert_witness :
  demo_world = demo_world /\ @nil Event = []
  /\ In 400 [400; 401; 404].
Proof.
  apply (sendEmail_rejection_inert Renderer.demo_engine default_env accepting 9
           (Some demo_tenant) no_body demo_world
           "Missing required fields: to, subject, htmlBody" 400 demo_world []);
    reflexivity.
Defined.

(** What a successful request has done. *)
Lemma sendEmail_success_state E env transport now tenant body w resp w1 evs :
  logs_ok (logdb w) ->
  sendEmail E env transport now tenant body w = (inr resp, w1, evs) ->
  exists t toA m (k : nat),
    tenant = Some t /\ to body = Some toA
    /\ mo_to m = join ", " (addresses toA)
    /\ sends evs = attempts k m /\ (0 < k)%nat
    /\ Z.of_nat k <= RETRY_MAX_ATTEMPTS env
    /\ transport (Z.of_nat k) m = inr (messageId resp)
    /\ logdb w1
       = {| logs := (logs (logdb w)
                     ++ [log_row (next_log_id (logdb w)) now (tenant_id t) m
                           "sent" None (Some now)])%list;
            next_log_id := next_log_id (logdb w) + 1;
            txn := None |}
    /\ templates w1 = templates w
    /\ webhooks evs
       = webhooks (sent_webhook env t (next_log_id (logdb w)) (mo_subject m)).
Proof.
  intros Hok H.
  destruct (sendEmail_shape E env transport now tenant body w)
    as [(error & Hkind & Hs)|(t & toA & m & tpl & c1 & Ht & Hto & Hm & _ & Hs)];
    rewrite Hs in H.
  - rewrite (settle_rejected _ _ _ _ _ (proj1 Hok)) in H. discriminate H.
  - subst tenant.
    destruct (deliver env transport m) as [[[mid|] le] evs0] eqn:Ed.
    + rewrite (settle_sent _ _ _ _ _ _ _ _ _ _ _ _ Hok Ed) in H.
      injection H as <- <- <-.
      destruct (deliver_outcome _ _ _ _ _ _ Ed) as (k & Hk & Hsends & Hhooks & Hpos & Hacc).
      exists t, toA, m, k. cbn [messageId logdb templates].
      split; [reflexivity|]. split; [exact Hto|]. split; [exact Hm|].
      split.
      { rewrite sends_app, Hsends.
        destruct (sent_webhook_quiet env t (next_log_id (logdb w)) (mo_subject m))
          as [-> _]. apply app_nil_r. }
      split; [exact Hpos|]. split; [lia|]. split; [exact Hacc|].
      split; [reflexivity|]. split; [reflexivity|].
      rewrite webhooks_app, Hhooks. reflexivity.
    + destruct le as [err|].
      * rewrite (settle_failed _ _ _ _ _ _ _ _ _ _ _ Hok Ed) in H. discriminate H.
      * destruct (settle_null env transport now t body w m c1 tpl evs0 Hok Ed)
          as (st & er & Hn).
        rewrite Hn in H. discriminate H.
Qed.

(** X17. A successful request has called the transport [k] times with one
    message, [k] between 1 and the ceiling, and the last call returned the
    message id of the response; the log table holds the rows it held and
    one new row, with the next id of the sequence, the tenant, the joined
    recipients and the subject of that message, status sent and the time
    of the request; no transaction is left open and the templates are
    untouched. *)
Theorem sendEmail_success_logged E env transport now tenant body w resp w1 evs :
  logs_ok (logdb w) ->
  sendEmail E env transport now tenant body w = (inr resp, w1, evs) ->
  exists t toA m (k : nat),
    tenant = Some t /\ to body = Some toA
    /\ mo_to m = join ", " (addresses toA)
    /\ sends evs = attempts k m /\ (0 < k)%nat
    /\ Z.of_nat k <= RETRY_MAX_ATTEMPTS env
    /\ transport (Z.of_nat k) m = inr (messageId resp)
    /\ logdb w1
       = {| logs := (logs (logdb w)
                     ++ [log_row (next_log_id (logdb w)) now (tenant_id t) m
                           "sent" None (Some now)])%list;
            next_log_id := next_log_id (logdb w) + 1;
            txn := None |}
    /\ templates w1 = templates w.
Proof.
  intros Hok H.
  destruct (sendEmail_success_state _ _ _ _ _ _ _ _ _ _ Hok H)
    as (t & toA & m & k & H1 & H2 & H3 & H4 & H5 & H6 & H7 & H8 & H9 & _).
  exists t, toA, m, k. auto 10.
Qed.

Lemma sendEmail_success_logged_witness :
  exists t toA m (k : nat),
    Some demo_tenant = Some t /\ to legacy_body = Some toA
    /\ mo_to m = join ", " (addresses toA)
    /\ sends (snd (sendEmail Renderer.demo_engine default_env accepting 9
                     (Some demo_tenant) legacy_body demo_world))
       = attempts k m
    /\ (0 < k)%nat
    /\ Z.of_nat k <= RETRY_MAX_ATTEMPTS default_env
    /\ accepting (Z.of_nat k) m
       = inr (messageId {| messageId := "<1@acme.test>"; sent_template := None |})
    /\ logdb (snd (fst (sendEmail Renderer.demo_engine default_env accepting 9
                          (Some demo_tenant) legacy_body demo_world)))
       = {| logs := (logs (logdb demo_world)
                     ++ [log_row (next_log_id (logdb demo_world)) 9
                           (tenant_id t) m "sent" None (Some 9)])%list;
            next_log_id := next_log_id (logdb demo_world) + 1;
            txn := None |}
    /\ templates (snd (fst (sendEmail Renderer.demo_engine default_env accepting 9
                              (Some demo_tenant) legacy_body demo_world)))
       = templates demo_world.
Proof.
  apply (sendEmail_success_logged Renderer.demo_engine default_env accepting 9
           (Some demo_tenant) legacy_body demo_world
           {| messageId := "<1@acme.test>"; sent_template := None |}).
  - split; [reflexivity | intros r []].
  - vm_compute. reflexivity.
Defined.

(** X18. Whatever the request and the transport do, a request keeps the
    log table in order: no transaction is left open, every id is below the
    next value of the sequence, the rows that were there are all there and
    unchanged, at most one row is added and it carries the id drawn from
    the sequence, the sequence advances by at most one, and the templates
    are untouched; a request without a template slug leaves the render
    cache as it was. *)
Theorem sendEmail_keeps_logs_ok E env transport now tenant body w :
  logs_ok (logdb w) ->
  let w1 := snd (fst (sendEmail E env transport now tenant body w)) in
  logs_ok (logdb w1)
  /\ templates w1 = templates w
  /\ (exists extra,
        logs (logdb w1) = (logs (logdb w) ++ extra)%list
        /\ (List.length extra <= 1)%nat
        /\ forall r, In r extra -> log_id r = next_log_id (logdb w))
  /\ next_log_id (logdb w) <= next_log_id (logdb w1) <= next_log_id (logdb w) + 1
  /\ (truthy_opt (templateSlug body) = false -> cache w1 = cache w).
Proof.
  intros Hok w1. subst w1.
  assert (Hrow : forall l n (r0 : LogRow),
            (forall r, In r l -> log_id r < n) -> log_id r0 = n ->
            forall r, In r (l ++ [r0])%list -> log_id r < n + 1).
  { intros l n r0 Hl Hr0 r Hr. apply in_app_or in Hr as [Hr|[<-|[]]].
    - specialize (Hl r Hr). lia.
    - lia. }
  destruct (sendEmail_shape E env transport now tenant body w)
    as [(error & Hkind & Hs)|(t & toA & m & tpl & c1 & Ht & Hto & Hm & Hc & Hs)];
    rewrite Hs.
  - rewrite (settle_rejected _ _ _ _ _ (proj1 Hok)). cbn [fst snd].
    split; [exact Hok|]. split; [reflexivity|].
    split; [exists []; rewrite app_nil_r; split; [reflexivity|];
            split; [cbn; lia | intros r []]|].
    split; [lia | reflexivity].
  - subst tenant. destruct Hok as [Htxn Hids].
    destruct (deliver env transport m) as [[[mid|] le] evs0] eqn:Ed;
      [|destruct le as [err|]].
    + rewrite (settle_sent _ _ _ _ _ _ _ _ _ _ _ _ (conj Htxn Hids) Ed).
      cbn [fst snd logdb logs next_log_id txn templates cache].
      split; [split; [reflexivity | now apply Hrow]|].
      split; [reflexivity|].
      split; [eexists; split; [reflexivity|]; split; [cbn; lia|];
              intros r [<-|[]]; reflexivity|].
      split; [lia | exact Hc].
    + rewrite (settle_failed _ _ _ _ _ _ _ _ _ _ _ (conj Htxn Hids) Ed).
      cbn [fst snd logdb logs next_log_id txn templates cache].
      split; [split; [reflexivity|];
             intros r Hr; specialize (Hids r Hr); cbn [next_log_id]; lia|].
      split; [reflexivity|].
      split; [exists []; rewrite app_nil_r; split; [reflexivity|];
              split; [cbn; lia | intros r []]|].
      split; [lia | exact Hc].
    + destruct (settle_null env transport now t body w m c1 tpl evs0
                  (conj Htxn Hids) Ed) as (st & er & Hn).
      rewrite Hn.
      cbn [fst snd logdb logs next_log_id txn templates cache].
      split; [split; [reflexivity | now apply Hrow]|].
      split; [reflexivity|].
      split; [eexists; split; [reflexivity|]; split; [cbn; lia|];
              intros r [<-|[]]; reflexivity|].
      split; [lia | exact Hc].
Qed.

Lemma sendEmail_keeps_logs_ok_witness :
  let w1 := snd (fst (sendEmail Renderer.demo_engine default_env rejecting 9
                        (Some demo_tenant) legacy_body demo_world)) in
  logs_ok (logdb w1)
  /\ templates w1 = templates demo_world
  /\ (exists extra,
        logs (logdb w1) = (logs (logdb demo_world) ++ extra)%list
        /\ (List.length extra <= 1)%nat
        /\ forall r, In r extra -> log_id r = next_log_id (logdb demo_world))
  /\ next_log_id (logdb demo_world) <= next_log_id (logdb w1)
     <= next_log_id (logdb demo_world) + 1
  /\ (truthy_opt (templateSlug legacy_body) = false -> cache w1 = cache demo_world).
Proof.
  apply (sendEmail_keeps_logs_ok Renderer.demo_engine default_env rejecting 9
           (Some demo_tenant) legacy_body demo_world).
  split; [reflexivity | intros r []].
Defined.

(** X19. A request posts at most one webhook, and only when the tenant or
    the environment names a target: none for a request refused with an
    application error or stopped by an error of the resolution query;
    after a delivery one [sent] event with the id of the log row and the
    subject of the message; after a failed delivery one [failed] event
    with that id, the subject or slug of the request and the text of the
    error. *)
Theorem sendEmail_webhooks E env transport now tenant body w :
  let '(res, w1, evs) := sendEmail E env transport now tenant body w in
  match webhook_target env tenant, res with
  | None, _ => webhooks evs = []
  | Some _, inl (AppErr _ _) => webhooks evs = []
  | Some _, inl (DbErr _) => webhooks evs = []
  | Some url, inr _ =>
      exists k m,
        sends evs = attempts k m
        /\ webhooks evs
           = [{| wh_url := url; wh_event := "sent";
                 wh_emailLogId := next_log_id (logdb w);
                 wh_subject := mo_subject m; wh_error := None |}]
  | Some url, inl err =>
      webhooks evs
      = if truthy_num (next_log_id (logdb w))
        then [{| wh_url := url; wh_event := "failed";
                 wh_emailLogId := next_log_id (logdb w);
                 wh_subject := or_else (subject body)
                                 (or_else (templateSlug body) "Email");
                 wh_error := Some (or_else (thrown_message err) "Unknown error") |}]
        else []
  end.
Proof.
  destruct (sendEmail_shape E env transport now tenant body w)
    as [(error & Hkind & Hs)|(t & toA & m & tpl & c1 & Ht & Hto & Hm & Hc & Hs)];
    rewrite Hs.
  - unfold settle, on_error.
    destruct Hkind as [(msg' & code' & -> & Hcode)|(e & ->)];
      destruct (webhook_target env tenant); reflexivity.
  - subst tenant. unfold settle, send_and_log.
    destruct (deliver env transport m) as [[info le] evs0] eqn:Ed.
    destruct (deliver_outcome _ _ _ _ _ _ Ed) as (k & _ & Hsends & Hhooks & _).
    destruct info as [mid|]; [|destruct le as [err|]]; cbv beta iota.
    + unfold sent_webhook.
      destruct (webhook_target env (Some t)) as [url|].
      * exists k, m. rewrite sends_app, webhooks_app, Hsends, Hhooks.
        split; [apply app_nil_r | reflexivity].
      * rewrite webhooks_app, Hhooks. reflexivity.
    + unfold on_error. cbv beta iota zeta.
      destruct (webhook_target env (Some t)) as [url|];
        rewrite webhooks_app, Hhooks;
        destruct (truthy_num (next_log_id (logdb w))); reflexivity.
    + unfold on_error. cbv beta iota zeta.
      destruct (webhook_target env (Some t)) as [url|];
        rewrite webhooks_app, Hhooks;
        destruct (truthy_num (next_log_id (logdb w))); reflexivity.
Qed.

(** ** The retry loop, forwards *)

Lemma send_loop_forward env transport m (k : nat) :
  forall (fuel : nat) (attempt : Z) (le : option SendError),
  (0 < k)%nat -> (k <= fuel)%nat ->
  attempt + Z.of_nat k - 1 <= RETRY_MAX_ATTEMPTS env ->
  (forall j : nat, (j + 1 < k)%nat ->
     exists e, transport (attempt + Z.of_nat j) m = inl e
               /\ shouldRetry env e = true) ->
  (forall e, transport (attempt + Z.of_nat k - 1) m = inl e ->
     RETRY_MAX_ATTEMPTS env <= attempt + Z.of_nat k - 1
     \/ shouldRetry env e = false) ->
  send_loop env transport m fuel attempt le
  = (match transport (attempt + Z.of_nat k - 1) m with
     | inr mid => (Some mid, None)
     | inl e => (None, Some e)
     end, schedule env m k attempt).
Proof.
  induction k as [|k IH]; intros fuel attempt le Hpos Hfuel Hmax Hbefore Hlast;
    [lia|].
  destruct fuel as [|f]; [lia|]. cbn [send_loop].
  destruct (RETRY_MAX_ATTEMPTS env <? attempt) eqn:Ecmp;
    [apply Z.ltb_lt in Ecmp; lia|].
  destruct k as [|k1].
  - replace (attempt + Z.of_nat 1 - 1) with attempt in * by lia.
    destruct (transport attempt m) as [e|mid] eqn:Et; [|reflexivity].
    destruct (Hlast e eq_refl) as [Hle|Hno].
    + apply Z.leb_le in Hle. rewrite Hle. reflexivity.
    + rewrite Hno. rewrite orb_true_r. reflexivity.
  - destruct (Hbefore O ltac:(lia)) as (e & He & Hr).
    rewrite Z.add_0_r in He. rewrite He, Hr.
    destruct (RETRY_MAX_ATTEMPTS env <=? attempt) eqn:Ele;
      [apply Z.leb_le in Ele; lia|].
    cbn [orb negb].
    rewrite (IH f (attempt + 1) (Some e)); try lia.
    + replace (attempt + 1 + Z.of_nat (S k1) - 1)
        with (attempt + Z.of_nat (S (S k1)) - 1) by lia.
      destruct (transport (attempt + Z.of_nat (S (S k1)) - 1) m); reflexivity.
    + intros j Hj. destruct (Hbefore (S j) ltac:(lia)) as (e' & He' & Hr').
      exists e'. split; [|exact Hr'].
      replace (attempt + 1 + Z.of_nat j) with (attempt + Z.of_nat (S j)) by lia.
      exact He'.
    + intros e' He'.
      replace (attempt + 1 + Z.of_nat (S k1) - 1)
        with (attempt + Z.of_nat (S (S k1)) - 1) in * by lia.
      exact (Hlast e' He').
Qed.

(** X20. If the first [k-1] calls of the transport fail with errors that
    are retried, [k] is within the ceiling, and call [k] is accepted, or
    fails with an error that is not retried, or is the last one allowed,
    then the loop makes exactly those [k] calls with the backoff sleeps
    between them and ends with the outcome of call [k]. *)
Theorem deliver_after_retries env transport m (k : nat) :
  (0 < k)%nat -> Z.of_nat k <= RETRY_MAX_ATTEMPTS env ->
  (forall j : nat, (0 < j < k)%nat ->
     exists e, transport (Z.of_nat j) m = inl e /\ shouldRetry env e = true) ->
  (forall e, transport (Z.of_nat k) m = inl e ->
     Z.of_nat k = RETRY_MAX_ATTEMPTS env \/ shouldRetry env e = false) ->
  deliver env transport m
  = (match transport (Z.of_nat k) m with
     | inr mid => (Some mid, None)
     | inl e => (None, Some e)
     end, schedule env m k 1)
  /\ sends (snd (deliver env transport m)) = attempts k m
  /\ sleeps (snd (deliver env transport m))
     = List.map (fun j : nat => RETRY_BASE_DELAY_MS env * 2 ^ Z.of_nat j)
                (seq 0 (k - 1)).
Proof.
  intros Hpos Hmax Hbefore Hlast.
  assert (Hd : deliver env transport m
               = (match transport (Z.of_nat k) m with
                  | inr mid => (Some mid, None)
                  | inl e => (None, Some e)
                  end, schedule env m k 1)).
  { unfold deliver.
    rewrite (send_loop_forward env transport m k); try lia.
    + replace (1 + Z.of_nat k - 1) with (Z.of_nat k) by lia. reflexivity.
    + intros j Hj. destruct (Hbefore (S j) ltac:(lia)) as (e & He & Hr).
      exists e. split; [|exact Hr].
      replace (1 + Z.of_nat j) with (Z.of_nat (S j)) by lia. exact He.
    + intros e He.
      replace (1 + Z.of_nat k - 1) with (Z.of_nat k) in * by lia.
      destruct (Hlast e He) as [Heq|Hno]; [left; lia | now right]. }
  split; [exact Hd|]. rewrite Hd. cbn [snd]. split.
  - apply sends_schedule_attempts.
  - rewrite sleeps_schedule. apply List.map_ext. intros j.
    unfold delay_after. do 2 f_equal. lia.
Qed.

Lemma deliver_after_retries_witness :
  deliver default_env socket_error_once demo_mail
  = (match socket_error_once (Z.of_nat 2) demo_mail with
     | inr mid => (Some mid, None)
     | inl e => (None, Some e)
     end, schedule default_env demo_mail 2 1)
  /\ sends (snd (deliver default_env socket_error_once demo_mail))
     = attempts 2 demo_mail
  /\ sleeps (snd (deliver default_env socket_error_once demo_mail))
     = List.map (fun j : nat => RETRY_BASE_DELAY_MS default_env * 2 ^ Z.of_nat j)
                (seq 0 (2 - 1)).
Proof.
  apply (deliver_after_retries default_env socket_error_once demo_mail 2).
  - lia.
  - cbn. lia.
  - intros j Hj. assert (j = 1%nat) as -> by lia.
    exists socket_error. split; reflexivity.
  - intros e He. discriminate He.
Defined.

(** ** Reading the log back *)

Lemma filter_fresh (l : list LogRow) n (P : LogRow -> bool) :
  (forall r, In r l -> log_id r < n) ->
  List.filter (fun r => (log_id r =? n) && P r) l = [].
Proof.
  intros H. induction l as [|r l IH]; [reflexivity|].
  cbn [List.filter]. rewrite IH by (intros; apply H; now right).
  destruct (log_id r =? n) eqn:E; [|reflexivity].
  apply Z.eqb_eq in E. specialize (H r ltac:(now left)). lia.
Qed.

Section Reading.
Variable bigint_in : string -> option Z.

(** X21. [getEmail] returns only a row of the log table that carries the
    id of the path and belongs to the tenant of the request; it answers
    404 exactly when no row with that id belongs to that tenant, so the
    rows of other tenants are never shown. *)
Theorem getEmail_own_rows_only (db : LogDb) (idText : string) (tenantId : Z) :
  match getEmail bigint_in db idText tenantId with
  | inr r => In r (logs db) /\ log_tenant_id r = tenantId
             /\ bigint_in idText = Some (log_id r)
  | inl (App e) =>
      e = {| Store.message := "Email not found"; Store.statusCode := 404 |}
      /\ bigint_in idText <> None
      /\ forall r, In r (logs db) -> bigint_in idText = Some (log_id r) ->
           log_tenant_id r <> tenantId
  | inl (DbError _) => bigint_in idText = None
  | inl (RenderError _) => False
  end.
Proof.
  unfold getEmail. destruct (bigint_in idText) as [i|] eqn:Ei; [|reflexivity].
  destruct (List.filter _ (logs db)) as [|r rest] eqn:Ef.
  - split; [reflexivity|]. split; [discriminate|]. intros r Hr [= ->] Ht.
    assert (Hin : In r (List.filter
                          (fun r0 => (log_id r0 =? log_id r)
                                     && (log_tenant_id r0 =? tenantId)) (logs db))).
    { apply filter_In. split; [exact Hr|].
      rewrite Z.eqb_refl. cbn. now apply Z.eqb_eq. }
    rewrite Ef in Hin. destruct Hin.
  - assert (Hin : In r (List.filter
                          (fun r0 => (log_id r0 =? i)
                                     && (log_tenant_id r0 =? tenantId)) (logs db)))
      by (rewrite Ef; now left).
    apply filter_In in Hin as [Hin Hb]. apply andb_true_iff in Hb as [H1 H2].
    apply Z.eqb_eq in H1, H2. subst. auto.
Qed.

Lemma getEmail_fresh_row (l : list LogRow) n nx tx (r0 : LogRow) idText tid :
  (forall r, In r l -> log_id r < n) -> log_id r0 = n ->
  bigint_in idText = Some n ->
  getEmail bigint_in {| logs := (l ++ [r0])%list; next_log_id := nx; txn := tx |}
    idText tid
  = if log_tenant_id r0 =? tid then inr r0 else not_found_email.
Proof.
  intros Hl Hr0 Hi. unfold getEmail. rewrite Hi. cbn [logs].
  rewrite List.filter_app, (filter_fresh l n _ Hl). cbn [List.filter app].
  rewrite Hr0, Z.eqb_refl. cbn [andb].
  destruct (log_tenant_id r0 =? tid); reflexivity.
Qed.

Lemma getEmail_no_row (l : list LogRow) n nx tx idText tid :
  (forall r, In r l -> log_id r < n) ->
  bigint_in idText = Some n ->
  getEmail bigint_in {| logs := l; next_log_id := nx; txn := tx |} idText tid
  = not_found_email.
Proof.
  intros Hl Hi. unfold getEmail. rewrite Hi. cbn [logs].
  rewrite (filter_fresh l n _ Hl). reflexivity.
Qed.

(** X22. Reading back the log row of a request, under the id the sequence
    was about to give: after a delivery the tenant of the request reads a
    row with status sent and the time of the request, and every other
    tenant gets 404; after a refused request, a request stopped by an
    error of the resolution query, or a failed delivery every tenant gets
    404, since no row is left. *)
Theorem getEmail_after_sendEmail E env transport now tenant body w idText :
  logs_ok (logdb w) ->
  bigint_in idText = Some (next_log_id (logdb w)) ->
  let '(res, w1, evs) := sendEmail E env transport now tenant body w in
  match res with
  | inr _ =>
      exists t r,
        tenant = Some t
        /\ getEmail bigint_in (logdb w1) idText (tenant_id t) = inr r
        /\ status r = "sent" /\ sent_at r = Some now /\ log_created_at r = now
        /\ forall other, other <> tenant_id t ->
             getEmail bigint_in (logdb w1) idText other = not_found_email
  | inl (TypeErr _) => True
  | inl _ =>
      forall tid, getEmail bigint_in (logdb w1) idText tid = not_found_email
  end.
Proof.
  intros Hok Hi.
  destruct (sendEmail_shape E env transport now tenant body w)
    as [(error & Hkind & Hs)|(t & toA & m & tpl & c1 & Ht & Hto & Hm & Hc & Hs)];
    rewrite Hs.
  - rewrite (settle_rejected _ _ _ _ _ (proj1 Hok)).
    destruct Hkind as [(msg' & code' & -> & Hcode)|(e & ->)];
      intros tid; destruct Hok as [_ Hids];
      destruct w as [tpls [l n tx] c]; cbn [logdb logs next_log_id] in *;
      now apply getEmail_no_row with (n := n).
  - subst tenant. pose proof Hok as [Htxn Hids].
    destruct (deliver env transport m) as [[[mid|] le] evs0] eqn:Ed;
      [|destruct le as [err|]].
    + rewrite (settle_sent _ _ _ _ _ _ _ _ _ _ _ _ Hok Ed). cbn [logdb].
      exists t. eexists. split; [reflexivity|].
      split.
      { erewrite getEmail_fresh_row; [|exact Hids|reflexivity|exact Hi].
        cbn [log_row log_tenant_id]. rewrite Z.eqb_refl. reflexivity. }
      split; [reflexivity|]. split; [reflexivity|]. split; [reflexivity|].
      intros other Hother.
      erewrite getEmail_fresh_row; [|exact Hids|reflexivity|exact Hi].
      cbn [log_row log_tenant_id].
      destruct (tenant_id t =? other) eqn:Eq; [|reflexivity].
      apply Z.eqb_eq in Eq. congruence.
    + rewrite (settle_failed _ _ _ _ _ _ _ _ _ _ _ Hok Ed). cbn [logdb].
      intros tid. now apply getEmail_no_row with (n := next_log_id (logdb w)).
    + destruct (settle_null env transport now t body w m c1 tpl evs0 Hok Ed)
        as (st & er & Hn).
      rewrite Hn. exact I.
Qed.

(** ** A preview before a send *)

(** X23. A preview by tenant and slug warms the cache for sends: a send
    that resolves to the record the preview rendered, with the same data
    and before the entry expires, ships the rendering of the preview as
    its first message, whatever the libraries would render by then, and
    leaves the cache as the preview left it. *)
Theorem preview_then_sendEmail (E E2 : Renderer.Engine) (c : Renderer.Cache)
    (t0 : Z) (req : PreviewTemplateRequest) (td : Json)
    (rec : Renderer.TemplateRecord) (r : Renderer.RenderResult)
    (c1 : Renderer.Cache) (tr : list string) (env : Env) (transport : Transport)
    (t1 : Z) (t : Tenant) (body : Body) (w : World) (slug0 : string)
    (toA : Address) :
  truthy_opt (pv_templateId req) = false ->
  pv_templateData req = Some td ->
  previewTemplate bigint_in E c t0 (templates w) req = (inr (rec, r), c1, tr) ->
  templateSlug body = Some slug0 -> truthy_string slug0 = true ->
  templateData body = Some td ->
  to body = Some toA -> truthy_address toA = true ->
  Store.resolveTemplate (templates w) (tenant_id t) slug0 (version body)
  = inr (Some rec) ->
  cache w = c1 ->
  Renderer.unexpired c1 (Renderer.render_key rec td None) t1 ->
  1 <= RETRY_MAX_ATTEMPTS env ->
  exists res w1 evs1,
    sendEmail E2 env transport t1 (Some t) body w
    = (res, w1,
       EvSend 1 (template_mail t body toA
                   {| c_subject := Renderer.subject r;
                      c_html := Renderer.html r;
                      c_text := Renderer.text r;
                      rendered := true; fallback := false |}) :: evs1)
    /\ cache w1 = c1.
Proof.
  intros Hid Hdata Hp Hslug Hs Hbdata Hto HtoA Hres Hcache Hlive Hmax.
  unfold previewTemplate in Hp. rewrite Hdata in Hp.
  destruct (truthy td) eqn:Htd; [|discriminate Hp]. cbn [negb] in Hp.
  destruct (preview_record bigint_in (templates w) req) as [e|rec'] eqn:Hrec;
    [discriminate Hp|].
  destruct (Renderer.renderTemplate E c t0 rec' td (pv_version req))
    as [[[msg|r'] c'] tr'] eqn:Hr; [discriminate Hp|].
  injection Hp as -> -> -> ->.
  pose proof (TemplateProps.preview_record_version bigint_in _ _ _ Hid Hrec)
    as Hv.
  destruct (RendererFacts.renderTemplate_caches _ _ _ _ _ _ _ _ _ Hr)
    as (e & He & Hval).
  assert (Hkey : Renderer.render_key rec td (pv_version req)
                 = Renderer.render_key rec td None).
  { unfold Renderer.render_key. now rewrite Hv. }
  rewrite Hkey in He.
  assert (Hrender : Renderer.renderTemplate E2 c1 t1 rec td None = (inr r, c1, [])).
  { unfold Renderer.renderTemplate.
    rewrite (RendererFacts.cache_get_hit _ _ _ _ He (Hlive _ He)).
    now rewrite Hval. }
  set (content := {| c_subject := Renderer.subject r; c_html := Renderer.html r;
                     c_text := Renderer.text r; rendered := true;
                     fallback := false |}).
  assert (Hrc : renderEmailContent E2 (cache w) t1 template body (Some rec) (Some td)
                = (content, c1)).
  { unfold renderEmailContent. rewrite Hcache, Htd, Hrender. reflexivity. }
  unfold sendEmail. rewrite Hslug. cbn [truthy_opt]. rewrite Hs.
  unfold template_mode. rewrite Hslug, Hbdata, Hto, Hs, Htd, HtoA. cbn [andb].
  rewrite Hres, Hrc.
  destruct (insert_log (begin (logdb w)) t1 (tenant_id t)
              (join ", " (addresses toA))
              (override (overrides body) ov_subject (c_subject content)))
    as [logId db1] eqn:Eins.
  fold (template_mail t body toA content).
  set (m := template_mail t body toA content).
  set (w0 := with_logdb (with_cache w c1) db1).
  destruct (deliver_first env transport m Hmax) as [evs1 Hevs].
  unfold send_and_log.
  destruct (deliver env transport m) as [[info lastError] evs].
  cbn [snd] in Hevs. subst evs.
  destruct info as [mid|]; [|destruct lastError as [err|]].
  - eexists. eexists. eexists. split; reflexivity.
  - destruct (on_error env (Some t) body w0 (Some logId) (SendErr err))
      as [w2 hook] eqn:Eo.
    exists (inl (SendErr err)), w2. eexists.
    split; [reflexivity|].
    unfold on_error in Eo. injection Eo as <- _. reflexivity.
  - set (w3 := with_logdb w0 (commit (update_log (logdb w0) logId (mark_sent t1)))).
    destruct (on_error env (Some t) body w3 (Some logId)
                (TypeErr "Cannot read properties of null (reading 'messageId')"))
      as [w2 hook] eqn:Eo.
    eexists. exists w2. eexists. split; [reflexivity|].
    unfold on_error in Eo. injection Eo as <- _. reflexivity.
Qed.

End Reading.

Lemma getEmail_after_sendEmail_witness :
  let '(res, w1, evs) :=
    sendEmail Renderer.demo_engine default_env accepting 9 (Some demo_tenant)
      legacy_body demo_world in
  match res with
  | inr _ =>
      exists t r,
        Some demo_tenant = Some t
        /\ getEmail decimal_number (logdb w1) "1" (tenant_id t) = inr r
        /\ status r = "sent" /\ sent_at r = Some 9 /\ log_created_at r = 9
        /\ forall other, other <> tenant_id t ->
             getEmail decimal_number (logdb w1) "1" other = not_found_email
  | inl (TypeErr _) => True
  | inl _ =>
      forall tid, getEmail decimal_number (logdb w1) "1" tid = not_found_email
  end.
Proof.
  apply (getEmail_after_sendEmail decimal_number Renderer.demo_engine default_env
           accepting 9 (Some demo_tenant) legacy_body demo_world "1").
  - split; [reflexivity | intros r []].
  - reflexivity.
Defined.

Lemma preview_then_sendEmail_witness :
  let r := {| Renderer.html := "<h1>Hi Ann</h1>"; Renderer.text := "<h1>Hi Ann</h1>";
              Renderer.subject := "Hi Ann" |} in
  let c1 := snd (fst (previewTemplate decimal_number Renderer.demo_engine ∅ 0
                        (Store.rows Store.demo_db) preview_welcome)) in
  let w := {| templates := Store.rows Store.demo_db; logdb := empty_logdb;
              cache := c1 |} in
  exists res w1 evs1,
    sendEmail Renderer.demo_engine default_env accepting 9 (Some demo_tenant)
      template_body w
    = (res, w1,
       EvSend 1 (template_mail demo_tenant template_body (One "ann@example.test")
                   {| c_subject := Renderer.subject r;
                      c_html := Renderer.html r;
                      c_text := Renderer.text r;
                      rendered := true; fallback := false |}) :: evs1)
    /\ cache w1 = c1.
Proof.
  intros r c1 w.
  apply (preview_then_sendEmail decimal_number Renderer.demo_engine
           Renderer.demo_engine ∅ 0 preview_welcome
           (JObj [("name", JStr "Ann")]) (Store.to_record Store.demo_row) r c1
           ["Hi {{name}}"; "<h1>Hi {{name}}</h1>"] default_env accepting 9
           demo_tenant template_body w "welcome" (One "ann@example.test")).
  - reflexivity.
  - reflexivity.
  - vm_compute. reflexivity.
  - reflexivity.
  - reflexivity.
  - reflexivity.
  - reflexivity.
  - reflexivity.
  - reflexivity.
  - reflexivity.
  - intros e He. vm_compute in He. injection He as <-. vm_compute. discriminate.
  - vm_compute. discriminate.
Defined.

End DispatchProps.
